(** * CejFIT: the persistence and validation core of [CejFIT_Fv.py]

    A shallow embedding of the workout tracker: the Python values the
    program handles, its two validators, the [DatabaseManager] methods over
    the three SQLite tables, and the part of [TrackerApp] that owns the
    pending set buffer.  Strings are sequences of code points below 256;
    floats are IEEE 754 binary64 values ([spec_float]); integers are
    unbounded, as in Python, until they are bound to an SQLite column. *)

From Stdlib Require Import ZArith List String Ascii Bool Lia.
From Stdlib Require Import Sorted Permutation SpecFloat.
Import ListNotations.

Local Open Scope string_scope.
Local Open Scope Z_scope.

(** ** Python strings *)

Module PyStr.

Definition code (c : ascii) : Z := Z.of_N (N_of_ascii c).

(** [str.isspace] on one code point below 256: TAB..CR, FS..US, SPACE,
    NEL and NBSP. *)
Definition is_space (c : ascii) : bool :=
  let n := code c in
  ((9 <=? n) && (n <=? 13)) || ((28 <=? n) && (n <=? 32))
  || (n =? 133) || (n =? 160).

Fixpoint lstrip (s : string) : string :=
  match s with
  | EmptyString => EmptyString
  | String c r => if is_space c then lstrip r else s
  end.

Fixpoint rstrip (s : string) : string :=
  match s with
  | EmptyString => EmptyString
  | String c r =>
      match rstrip r with
      | EmptyString => if is_space c then EmptyString else String c EmptyString
      | r' => String c r'
      end
  end.

(** [s.strip()] *)
Definition strip (s : string) : string := rstrip (lstrip s).

(** [len(s)] *)
Definition len (s : string) : Z := Z.of_nat (String.length s).

Fixpoint all_space (s : string) : bool :=
  match s with
  | EmptyString => true
  | String c r => is_space c && all_space r
  end.

(** Truth value of a string: [not s] holds for the empty string only. *)
Definition truthy (s : string) : bool :=
  match s with EmptyString => false | _ => true end.

(** ASCII case folding, the only folding SQLite's NOCASE collation and
    the parsers of [float] apply. *)
Definition lower (c : ascii) : ascii :=
  let n := code c in
  if (65 <=? n) && (n <=? 90) then ascii_of_N (Z.to_N (n + 32)) else c.

Fixpoint lowers (s : string) : string :=
  match s with
  | EmptyString => EmptyString
  | String c r => String (lower c) (lowers r)
  end.

(** Code-point comparison; on these strings it is the order [memcmp]
    gives on their UTF-8 text, which is SQLite's BINARY collation. *)
Fixpoint cmp (a b : string) : comparison :=
  match a, b with
  | EmptyString, EmptyString => Eq
  | EmptyString, String _ _ => Lt
  | String _ _, EmptyString => Gt
  | String x a', String y b' =>
      match code x ?= code y with
      | Eq => cmp a' b'
      | o => o
      end
  end.

Definition leb (a b : string) : bool :=
  match cmp a b with Gt => false | _ => true end.

Definition ltb (a b : string) : bool :=
  match cmp a b with Lt => true | _ => false end.

(** NOCASE collation: compare the ASCII-folded texts. *)
Definition cmp_nocase (a b : string) : comparison := cmp (lowers a) (lowers b).

End PyStr.

(** ** Python values, exceptions and results *)

(** The values that flow through the set buffer and the Treeview cells. *)
Inductive pyval : Type :=
| VNone
| VInt (n : Z)
| VFloat (f : spec_float)
| VStr (s : string).

(** Exceptions by class.  The texts of the program's own [raise]
    statements and of SQLite's constraint failures are exact; the texts of
    the builtins' conversion errors leave out the offending literal. *)
Inductive exn : Type :=
| ValueError (msg : string)
| TypeError (msg : string)
| OverflowError (msg : string)
| IntegrityError (msg : string).

Inductive result (A : Type) : Type :=
| Ok (a : A)
| Raise (e : exn).

Arguments Ok {A} a.
Arguments Raise {A} e.

Definition bind {A B : Type} (r : result A) (k : A -> result B) : result B :=
  match r with
  | Ok a => k a
  | Raise e => Raise e
  end.

Notation "x <- r ;; k" := (bind r (fun x => k))
  (at level 61, r at next level, right associativity).

(** [str(e)] of an exception, as the message boxes show it. *)
Definition exn_text (e : exn) : string :=
  match e with
  | ValueError m | TypeError m | OverflowError m | IntegrityError m => m
  end.

(** ** binary64 *)

Definition prec64 : Z := 53.
Definition emax64 : Z := 1024.

Definition fzero : spec_float := S754_zero false.

(** [x < y] on floats; false as soon as one side is NaN. *)
Definition flt (x y : spec_float) : bool := SFltb x y.

Definition fge (x y : spec_float) : bool :=
  match SFcompare x y with
  | Some (Gt | Eq) => true
  | _ => false
  end.

Definition is_nan (x : spec_float) : bool :=
  match x with S754_nan => true | _ => false end.

(** The float nearest to the integer [n] (ties to even). *)
Definition float_of_Z (n : Z) : spec_float := binary_normalize prec64 emax64 n 0 false.

(** The float nearest to [m * 10^e], for [m >= 0]. *)
Definition float_of_decimal (neg : bool) (m e : Z) : spec_float :=
  match m with
  | Zpos p =>
      if 0 <=? e
      then binary_normalize prec64 emax64 (if neg then - (m * 10 ^ e) else m * 10 ^ e) 0 false
      else SFdiv prec64 emax64 (S754_finite neg p 0)
                 (S754_finite false (Z.to_pos (10 ^ (- e))) 0)
  | _ => S754_zero neg
  end.

(** Truncation toward zero of a finite float. *)
Definition trunc_float (s : bool) (m : positive) (e : Z) : Z :=
  let a := if 0 <=? e then Z.shiftl (Zpos m) e else Z.shiftr (Zpos m) (- e) in
  if s then - a else a.

(** ** The runtime the program runs on

    [float(s)] and [int(s)] on a string, [datetime.strptime(s, '%Y-%m-%d')]
    and the value a Treeview hands back for a stored cell are services of
    Python and Tk, not code of this program.  The development is stated
    over any implementation of them; [py_runtime] below is an executable
    one. *)
Class Runtime : Type := {
  float_of_str : string -> option spec_float;
  int_of_str : string -> option Z;
  strptime_ymd : string -> bool;
  tk_value : pyval -> pyval
}.

Section Builtins.
Context {R : Runtime}.

(** [float(v)] *)
Definition py_float (v : pyval) : result spec_float :=
  match v with
  | VFloat f => Ok f
  | VInt n =>
      match float_of_Z n with
      | S754_infinity _ => Raise (OverflowError "int too large to convert to float")
      | f => Ok f
      end
  | VStr s =>
      match float_of_str s with
      | Some f => Ok f
      | None => Raise (ValueError "could not convert string to float")
      end
  | VNone => Raise (TypeError "float() argument must be a string or a real number, not 'NoneType'")
  end.

(** [int(v)] *)
Definition py_int (v : pyval) : result Z :=
  match v with
  | VInt n => Ok n
  | VFloat f =>
      match f with
      | S754_nan => Raise (ValueError "cannot convert float NaN to integer")
      | S754_infinity _ => Raise (OverflowError "cannot convert float infinity to integer")
      | S754_zero _ => Ok 0
      | S754_finite s m e => Ok (trunc_float s m e)
      end
  | VStr s =>
      match int_of_str s with
      | Some n => Ok n
      | None => Raise (ValueError "invalid literal for int() with base 10")
      end
  | VNone => Raise (TypeError "int() argument must be a string, a bytes-like object or a real number, not 'NoneType'")
  end.

(** [str(v).strip() != ''].  The text of [None] and of a number is never
    blank, so only a string can fail the test. *)
Definition str_nonblank (v : pyval) : bool :=
  match v with
  | VStr s => negb (PyStr.strip s =? "")%string
  | _ => true
  end.

End Builtins.

(** ** An executable runtime *)

Module PyParse.
Import PyStr.

Definition digit_val (c : ascii) : option Z :=
  let n := code c in
  if (48 <=? n) && (n <=? 57) then Some (n - 48) else None.

Definition is_digit (c : ascii) : bool :=
  match digit_val c with Some _ => true | None => false end.

(** Scans a [digitpart]: digits, with single underscores allowed between
    two digits.  Returns the value read, the number of digits and the
    rest of the text; [None] on a misplaced underscore. *)
Fixpoint scan_digits (s : string) (acc cnt : Z) (after_digit : bool)
  : option (Z * Z * string) :=
  match s with
  | EmptyString => Some (acc, cnt, EmptyString)
  | String c r =>
      match digit_val c with
      | Some d => scan_digits r (10 * acc + d) (cnt + 1) true
      | None =>
          if (c =? "_")%char then
            match r with
            | String c' _ =>
                if after_digit && is_digit c' then scan_digits r acc cnt false else None
            | EmptyString => None
            end
          else Some (acc, cnt, s)
      end
  end.

(** A whole [digitpart] and nothing after it. *)
Definition digitpart (s : string) : option Z :=
  match scan_digits s 0 0 false with
  | Some (v, cnt, EmptyString) => if 0 <? cnt then Some v else None
  | _ => None
  end.

Definition split_sign (s : string) : bool * string :=
  match s with
  | String "-" r => (true, r)
  | String "+" r => (false, r)
  | _ => (false, s)
  end.

(** [int(s)] for a string, base 10. *)
Definition int_of_string (s : string) : option Z :=
  let '(neg, t) := split_sign (strip s) in
  match digitpart t with
  | Some v => Some (if neg then - v else v)
  | None => None
  end.

(** The exponent part after the mantissa: empty, or [e]/[E], an optional
    sign and a [digitpart]. *)
Definition exponent (s : string) : option Z :=
  match s with
  | EmptyString => Some 0
  | String c r =>
      if (lower c =? "e")%char then
        let '(neg, t) := split_sign r in
        match digitpart t with
        | Some v => Some (if neg then - v else v)
        | None => None
        end
      else None
  end.

(** [float(s)] for a string. *)
Definition float_of_string (s : string) : option spec_float :=
  let '(neg, t) := split_sign (strip s) in
  let l := lowers t in
  if (l =? "inf")%string || (l =? "infinity")%string then Some (S754_infinity neg)
  else if (l =? "nan")%string then Some S754_nan
  else
    match scan_digits t 0 0 false with
    | Some (ip, ni, rest) =>
        let frac :=
          match rest with
          | String "." r => scan_digits r 0 0 false
          | _ => Some (0, 0, rest)
          end in
        match frac with
        | Some (fp, nf, rest') =>
            if 0 <? ni + nf then
              match exponent rest' with
              | Some ex => Some (float_of_decimal neg (ip * 10 ^ nf + fp) (ex - nf))
              | None => None
              end
            else None
        | None => None
        end
    | None => None
    end.

(** Reads exactly [k] digits. *)
Fixpoint take_digits (k : nat) (s : string) (acc : Z) : option (Z * string) :=
  match k with
  | O => Some (acc, s)
  | S k' =>
      match s with
      | String c r =>
          match digit_val c with
          | Some d => take_digits k' r (10 * acc + d)
          | None => None
          end
      | EmptyString => None
      end
  end.

(** [%m]: the alternatives [1[0-2]], [0[1-9]], [[1-9]], in that order. *)
Definition scan_month (s : string) : option (Z * string) :=
  match s with
  | String a (String b r) =>
      match digit_val a, digit_val b with
      | Some 1, Some d => if d <=? 2 then Some (10 + d, r) else Some (1, String b r)
      | Some 0, Some d => if 1 <=? d then Some (d, r) else None
      | Some x, _ => if 1 <=? x then Some (x, String b r) else None
      | None, _ => None
      end
  | String a EmptyString =>
      match digit_val a with
      | Some x => if 1 <=? x then Some (x, EmptyString) else None
      | None => None
      end
  | EmptyString => None
  end.

(** [%d]: the alternatives [3[01]], [[12]\d], [0[1-9]], [[1-9]],
    [ [1-9]], in that order. *)
Definition scan_day (s : string) : option (Z * string) :=
  match s with
  | String a r =>
      match digit_val a with
      | Some x =>
          let two :=
            match r with
            | String b r' =>
                match digit_val b with
                | Some d =>
                    if ((x =? 3) && (d <=? 1)) || (x =? 1) || (x =? 2)
                       || ((x =? 0) && (1 <=? d))
                    then Some (10 * x + d, r') else None
                | None => None
                end
            | EmptyString => None
            end in
          match two with
          | Some res => Some res
          | None => if 1 <=? x then Some (x, r) else None
          end
      | None =>
          if (a =? " ")%char then
            match r with
            | String b r' =>
                match digit_val b with
                | Some d => if 1 <=? d then Some (d, r') else None
                | None => None
                end
            | EmptyString => None
            end
          else None
      end
  | EmptyString => None
  end.

Definition is_leap (y : Z) : bool :=
  ((y mod 4 =? 0) && negb (y mod 100 =? 0)) || (y mod 400 =? 0).

Definition days_in_month (y m : Z) : Z :=
  if m =? 2 then (if is_leap y then 29 else 28)
  else if (m =? 4) || (m =? 6) || (m =? 9) || (m =? 11) then 30
  else 31.

(** Whether [datetime.strptime(s, '%Y-%m-%d')] returns. *)
Definition strptime (s : string) : bool :=
  match take_digits 4 s 0 with
  | Some (y, String "-" r1) =>
      match scan_month r1 with
      | Some (m, String "-" r2) =>
          match scan_day r2 with
          | Some (d, EmptyString) => (1 <=? y) && (d <=? days_in_month y m)
          | _ => false
          end
      | _ => false
      end
  | _ => false
  end.

End PyParse.

(** Python's parsers on these strings, and a Tk that hands stored values
    back as they were given. *)
Definition py_runtime : Runtime := {|
  float_of_str := PyParse.float_of_string;
  int_of_str := PyParse.int_of_string;
  strptime_ymd := PyParse.strptime;
  tk_value := fun v => v
|}.


(** ** Validators *)

Definition EmptyName : exn := ValueError "Exercise name cannot be empty.".
Definition NameTooLong : exn := ValueError "Exercise name too long.".
Definition InvalidNumeric : exn := ValueError "Weight must be a number and reps an integer.".
Definition InvalidRange : exn := ValueError "Invalid weight/reps.".

(** [validate_exercise_name(name)] *)
Definition validate_exercise_name (name : string) : result string :=
  if negb (PyStr.truthy name) || negb (PyStr.truthy (PyStr.strip name))
  then Raise EmptyName
  else if 150 <? PyStr.len (PyStr.strip name)
  then Raise NameTooLong
  else Ok (PyStr.strip name).

Section Validators.
Context {R : Runtime}.

(** [validate_weight_reps(w, r)]: both conversions sit in one [try] whose
    handler catches every exception. *)
Definition validate_weight_reps (w r : pyval) : result (spec_float * Z) :=
  match (weight <- py_float w ;; reps <- py_int r ;; Ok (weight, reps)) with
  | Raise _ => Raise InvalidNumeric
  | Ok (weight, reps) =>
      if flt weight fzero || (reps <=? 0)
      then Raise InvalidRange
      else Ok (weight, reps)
  end.

End Validators.

(** ** Ordering rows

    [ORDER BY] is modelled by a stable insertion sort; the theorems below
    use only that its result is an ordered permutation. *)

Fixpoint insert_by {A : Type} (le : A -> A -> bool) (x : A) (l : list A) : list A :=
  match l with
  | [] => [x]
  | y :: l' => if le x y then x :: l else y :: insert_by le x l'
  end.

Definition order_by {A : Type} (le : A -> A -> bool) (l : list A) : list A :=
  fold_right (insert_by le) [] l.

(** [MAX] over texts, [None] (NULL) on no rows. *)
Fixpoint max_text (l : list string) : option string :=
  match l with
  | [] => None
  | x :: l' =>
      match max_text l' with
      | None => Some x
      | Some m => Some (if PyStr.ltb x m then m else x)
      end
  end.

(** ** The store *)

(** A row of [exercises].  The program only ever writes texts into the
    nullable columns. *)
Record exercise : Type := {
  ex_id : Z;
  ex_name : string;
  ex_body_part : string;
  ex_equipment : string;
  ex_notes : string;
  ex_subgroup : string
}.

(** A row of [sessions]. *)
Record session : Type := {
  se_id : Z;
  se_exercise_id : Z;
  se_date : string;
  se_notes : string
}.

(** A row of [sets]; [st_rir = None] is NULL. *)
Record set_row : Type := {
  st_id : Z;
  st_session_id : Z;
  st_set_index : Z;
  st_weight : spec_float;
  st_reps : Z;
  st_rir : option Z;
  st_unit : string
}.

(** The committed content of the database file: the three tables in rowid
    order and the AUTOINCREMENT counters of [sqlite_sequence].  Every
    method of [DatabaseManager] runs one statement and commits it. *)
Record db : Type := {
  exercises : list exercise;
  sessions : list session;
  sets : list set_row;
  seq_exercises : Z;
  seq_sessions : Z;
  seq_sets : Z
}.

(** The file after [create_tables] on a new database. *)
Definition empty_db : db :=
  {| exercises := []; sessions := []; sets := [];
     seq_exercises := 0; seq_sessions := 0; seq_sets := 0 |}.

(** AUTOINCREMENT: one more than the largest rowid ever used. *)
Definition next_rowid (seq : Z) (ids : list Z) : Z :=
  fold_right Z.max seq ids + 1.

Definition PRELOADED_EXERCISES : list (string * string * string * string * string) :=
  [ ("Squat", "Back", "Barbell", "Add Elevation", "Lower Back");
    ("Pull Ups", "Back", "Bodyweight", "Slow and Controlled", "Vertical Mower");
    ("Hammer Curls", "Biceps", "Dumbbells", "Add Back Pulling", "Brachioradialis") ].

Definition has_exercise (id : Z) (d : db) : bool :=
  existsb (fun e => ex_id e =? id) (exercises d).

Definition has_session (id : Z) (d : db) : bool :=
  existsb (fun s => se_id s =? id) (sessions d).

(** [INSERT INTO exercises (name, body_part, equipment, notes, subgroup)]:
    [name] is UNIQUE under the BINARY collation. *)
Definition insert_exercise (name body_part equipment notes subgroup : string) (d : db)
  : result (Z * db) :=
  if existsb (fun e => (ex_name e =? name)%string) (exercises d)
  then Raise (IntegrityError "UNIQUE constraint failed: exercises.name")
  else
    let id := next_rowid (seq_exercises d) (map ex_id (exercises d)) in
    Ok (id,
        {| exercises := exercises d ++
             [ {| ex_id := id; ex_name := name; ex_body_part := body_part;
                  ex_equipment := equipment; ex_notes := notes; ex_subgroup := subgroup |} ];
           sessions := sessions d; sets := sets d;
           seq_exercises := id; seq_sessions := seq_sessions d; seq_sets := seq_sets d |}).

(** [ensure_preloaded]: on an empty table insert the starter rows, passing
    over any that collides. *)
Definition ensure_preloaded (d : db) : db :=
  match exercises d with
  | [] =>
      fold_left
        (fun acc ex =>
           let '(name, body_part, equipment, notes, subgroup) := ex in
           match insert_exercise name body_part equipment notes subgroup acc with
           | Ok (_, acc') => acc'
           | Raise _ => acc
           end)
        PRELOADED_EXERCISES d
  | _ :: _ => d
  end.

(** [DatabaseManager()] on a new file. *)
Definition init_db : db := ensure_preloaded empty_db.

Definition DuplicateName : exn := ValueError "Exercise already exists.".

(** [add_exercise]: the texts are stripped; an [IntegrityError] of the
    INSERT becomes [ValueError('Exercise already exists.')]. *)
Definition add_exercise (name body_part equipment notes subgroup : string) (d : db)
  : result (Z * db) :=
  match insert_exercise (PyStr.strip name) (PyStr.strip body_part) (PyStr.strip equipment)
                        (PyStr.strip notes) (PyStr.strip subgroup) d with
  | Ok r => Ok r
  | Raise (IntegrityError _) => Raise DuplicateName
  | Raise e => Raise e
  end.

(** A row of [get_exercises]: the six columns and [last_session]. *)
Record exercise_row : Type := {
  row_id : Z;
  row_name : string;
  row_body_part : string;
  row_equipment : string;
  row_notes : string;
  row_subgroup : string;
  last_session : option string
}.

(** [(SELECT MAX(date) FROM sessions s WHERE s.exercise_id = e.id)] *)
Definition max_session_date (id : Z) (d : db) : option string :=
  max_text (map se_date (filter (fun s => se_exercise_id s =? id) (sessions d))).

Definition exercise_row_of (d : db) (e : exercise) : exercise_row :=
  {| row_id := ex_id e; row_name := ex_name e; row_body_part := ex_body_part e;
     row_equipment := ex_equipment e; row_notes := ex_notes e;
     row_subgroup := ex_subgroup e;
     last_session := max_session_date (ex_id e) d |}.

(** [ORDER BY e.body_part COLLATE NOCASE, e.name COLLATE NOCASE] *)
Definition exercise_le (a b : exercise_row) : bool :=
  match PyStr.cmp_nocase (row_body_part a) (row_body_part b) with
  | Lt => true
  | Gt => false
  | Eq =>
      match PyStr.cmp_nocase (row_name a) (row_name b) with
      | Gt => false
      | _ => true
      end
  end.

(** [get_exercises] *)
Definition get_exercises (d : db) : list exercise_row :=
  order_by exercise_le (map (exercise_row_of d) (exercises d)).

(** [update_exercise]: the UPDATE touches the row whose id is [id_], if
    any; the UNIQUE index rejects a name another row holds, and that
    [IntegrityError] is not caught here. *)
Definition update_exercise (id_ : Z) (name body_part equipment notes subgroup : string) (d : db)
  : result db :=
  let name' := PyStr.strip name in
  if has_exercise id_ d
     && existsb (fun e => negb (ex_id e =? id_) && (ex_name e =? name')%string) (exercises d)
  then Raise (IntegrityError "UNIQUE constraint failed: exercises.name")
  else
    Ok {| exercises :=
            map (fun e =>
                   if ex_id e =? id_
                   then {| ex_id := ex_id e; ex_name := name';
                           ex_body_part := PyStr.strip body_part;
                           ex_equipment := PyStr.strip equipment;
                           ex_notes := PyStr.strip notes;
                           ex_subgroup := PyStr.strip subgroup |}
                   else e)
                (exercises d);
          sessions := sessions d; sets := sets d;
          seq_exercises := seq_exercises d; seq_sessions := seq_sessions d;
          seq_sets := seq_sets d |}.

(** [delete_exercise].  The connection runs with [PRAGMA foreign_keys = ON]
    and both foreign keys are declared [ON DELETE CASCADE]: deleting the
    exercise row deletes the sessions that reference it, and deleting
    those deletes the sets that reference them. *)
Definition delete_exercise (id_ : Z) (d : db) : db :=
  if has_exercise id_ d then
    let gone := filter (fun s => se_exercise_id s =? id_) (sessions d) in
    {| exercises := filter (fun e => negb (ex_id e =? id_)) (exercises d);
       sessions := filter (fun s => negb (se_exercise_id s =? id_)) (sessions d);
       sets := filter (fun t => negb (existsb (fun s => se_id s =? st_session_id t) gone))
                      (sets d);
       seq_exercises := seq_exercises d; seq_sessions := seq_sessions d;
       seq_sets := seq_sets d |}
  else d.

(** [add_session]: the foreign key requires the exercise to exist. *)
Definition add_session (exercise_id : Z) (date_str notes : string) (d : db)
  : result (Z * db) :=
  if has_exercise exercise_id d then
    let id := next_rowid (seq_sessions d) (map se_id (sessions d)) in
    Ok (id,
        {| exercises := exercises d;
           sessions := sessions d ++
             [ {| se_id := id; se_exercise_id := exercise_id; se_date := date_str;
                  se_notes := PyStr.strip notes |} ];
           sets := sets d;
           seq_exercises := seq_exercises d; seq_sessions := id; seq_sets := seq_sets d |})
  else Raise (IntegrityError "FOREIGN KEY constraint failed").

(** Binding a Python int to a statement: SQLite integers are 64-bit. *)
Definition bind_int (n : Z) : result Z :=
  if (- 2 ^ 63 <=? n) && (n <? 2 ^ 63) then Ok n
  else Raise (OverflowError "Python int too large to convert to SQLite INTEGER").

Definition is_none (v : pyval) : bool :=
  match v with VNone => true | _ => false end.

Section AddSet.
Context {R : Runtime}.

(** [(int(rir) if rir is not None and str(rir).strip() != '' else None)] *)
Definition rir_param (rir : pyval) : result (option Z) :=
  if negb (is_none rir) && str_nonblank rir
  then n <- py_int rir ;; Ok (Some n)
  else Ok None.

(** [add_set].  The parameter tuple is evaluated left to right, then
    bound ([reps] and [rir] come from user input and may not fit 64 bits;
    [session_id] and [set_index] are a rowid and a list position), then the
    INSERT runs: a NaN weight is bound as NULL and fails the NOT NULL
    constraint of [weight]; the foreign key requires the session to exist. *)
Definition add_set (session_id set_index : Z) (weight reps rir : pyval) (unit_ : string) (d : db)
  : result (Z * db) :=
  w <- py_float weight ;;
  r <- py_int reps ;;
  i <- rir_param rir ;;
  r' <- bind_int r ;;
  i' <- match i with
        | Some n => (n' <- bind_int n ;; Ok (Some n'))
        | None => Ok None
        end ;;
  if is_nan w then Raise (IntegrityError "NOT NULL constraint failed: sets.weight")
  else if has_session session_id d then
    let id := next_rowid (seq_sets d) (map st_id (sets d)) in
    Ok (id,
        {| exercises := exercises d; sessions := sessions d;
           sets := sets d ++
             [ {| st_id := id; st_session_id := session_id; st_set_index := set_index;
                  st_weight := w; st_reps := r'; st_rir := i'; st_unit := unit_ |} ];
           seq_exercises := seq_exercises d; seq_sessions := seq_sessions d;
           seq_sets := id |})
  else Raise (IntegrityError "FOREIGN KEY constraint failed").

End AddSet.

(** [get_sessions_for_exercise]: [(id, date, notes)], [ORDER BY date DESC]. *)
Definition get_sessions_for_exercise (exercise_id : Z) (d : db) : list (Z * string * string) :=
  map (fun s => (se_id s, se_date s, se_notes s))
      (order_by (fun a b => PyStr.leb (se_date b) (se_date a))
                (filter (fun s => se_exercise_id s =? exercise_id) (sessions d))).

(** [get_sets_for_session]: [(set_index, weight, reps, rir, unit)],
    [ORDER BY set_index]. *)
Definition get_sets_for_session (session_id : Z) (d : db)
  : list (Z * spec_float * Z * option Z * string) :=
  map (fun t => (st_set_index t, st_weight t, st_reps t, st_rir t, st_unit t))
      (order_by (fun a b => st_set_index a <=? st_set_index b)
                (filter (fun t => st_session_id t =? session_id) (sets d))).

(** [delete_session]: the sets of the session go with it. *)
Definition delete_session (session_id : Z) (d : db) : db :=
  if has_session session_id d then
    {| exercises := exercises d;
       sessions := filter (fun s => negb (se_id s =? session_id)) (sessions d);
       sets := filter (fun t => negb (st_session_id t =? session_id)) (sets d);
       seq_exercises := seq_exercises d; seq_sessions := seq_sessions d;
       seq_sets := seq_sets d |}
  else d.

(** [sets JOIN sessions ON sets.session_id = sessions.id
     WHERE sessions.exercise_id = ?] *)
Definition sets_of_exercise (exercise_id : Z) (d : db) : list (set_row * session) :=
  flat_map
    (fun t =>
       map (fun s => (t, s))
           (filter (fun s => (se_id s =? st_session_id t) && (se_exercise_id s =? exercise_id))
                   (sessions d)))
    (sets d).

(** [ORDER BY sessions.date DESC, sets.set_index DESC] *)
Definition last_set_le (a b : set_row * session) : bool :=
  match PyStr.cmp (se_date (snd a)) (se_date (snd b)) with
  | Gt => true
  | Lt => false
  | Eq => st_set_index (fst b) <=? st_set_index (fst a)
  end.

Definition opt_int (o : option Z) : pyval :=
  match o with Some n => VInt n | None => VNone end.

(** What a function hands back: [None] or a tuple of cells. *)
Inductive pyobj : Type :=
| ONone
| OTuple (cells : list pyval).

(** [get_last_set_for_exercise]: [fetchone()] after [LIMIT 1], and
    [r if r else (None, None, None, None)]; a row of four columns is a
    non-empty tuple, hence true. *)
Definition get_last_set_for_exercise (exercise_id : Z) (d : db) : pyobj :=
  match order_by last_set_le (sets_of_exercise exercise_id d) with
  | (t, _) :: _ =>
      OTuple [VFloat (st_weight t); VInt (st_reps t); opt_int (st_rir t); VStr (st_unit t)]
  | [] => OTuple [VNone; VNone; VNone; VNone]
  end.

(** ** TrackerApp: the pending set buffer

    Only the state the save and remove handlers read or write is kept:
    the store, the cached exercise list and its selection, the buffer of
    pending sets and the Treeview that displays it, the entry widgets, and
    the message boxes shown so far.  The history pane is display only. *)

(** A pending set, one dict of [set_buffer].  The cells hold what the
    handlers put there: numbers from the validator, or whatever the
    Treeview handed back. *)
Record buf_row : Type := {
  b_idx : Z;
  b_weight : pyval;
  b_reps : pyval;
  b_rir : pyval;
  b_unit : string
}.

(** An item of [sets_tree]: Tk's item id and the [values] tuple
    [(idx, weight, reps, rir, unit)]. *)
Record tree_item : Type := {
  iid : Z;
  c_idx : Z;
  c_weight : pyval;
  c_reps : pyval;
  c_rir : pyval;
  c_unit : string
}.

Inductive dialog : Type :=
| showinfo (title message : string)
| showerror (title message : string).

Record app : Type := {
  the_db : db;
  exercises_cache : list exercise_row;
  ex_selection : option Z;
  set_buffer : list buf_row;
  sets_tree : list tree_item;
  next_iid : Z;
  date_widget : string;
  note_entry : string;
  q_weight : string;
  q_reps : string;
  q_rir : string;
  unit_var : string;
  dialogs : list dialog
}.

Definition show (m : dialog) (a : app) : app :=
  {| the_db := the_db a; exercises_cache := exercises_cache a;
     ex_selection := ex_selection a; set_buffer := set_buffer a;
     sets_tree := sets_tree a; next_iid := next_iid a;
     date_widget := date_widget a; note_entry := note_entry a;
     q_weight := q_weight a; q_reps := q_reps a; q_rir := q_rir a;
     unit_var := unit_var a; dialogs := dialogs a ++ [m] |}.

Definition with_db (d : db) (a : app) : app :=
  {| the_db := d; exercises_cache := exercises_cache a;
     ex_selection := ex_selection a; set_buffer := set_buffer a;
     sets_tree := sets_tree a; next_iid := next_iid a;
     date_widget := date_widget a; note_entry := note_entry a;
     q_weight := q_weight a; q_reps := q_reps a; q_rir := q_rir a;
     unit_var := unit_var a; dialogs := dialogs a |}.

(** Replaces the buffer and its Treeview. *)
Definition with_sets (buf : list buf_row) (tree : list tree_item) (a : app) : app :=
  {| the_db := the_db a; exercises_cache := exercises_cache a;
     ex_selection := ex_selection a; set_buffer := buf;
     sets_tree := tree; next_iid := next_iid a;
     date_widget := date_widget a; note_entry := note_entry a;
     q_weight := q_weight a; q_reps := q_reps a; q_rir := q_rir a;
     unit_var := unit_var a; dialogs := dialogs a |}.

(** [get_selected_exercise]: the cached row whose id is the selected
    item's. *)
Definition get_selected_exercise (a : app) : option exercise_row :=
  match ex_selection a with
  | None => None
  | Some i => find (fun e => row_id e =? i) (exercises_cache a)
  end.

(** [on_ex_select]: with an exercise selected, empties the buffer, its
    Treeview and the notes entry. *)
Definition on_ex_select (a : app) : app :=
  match get_selected_exercise a with
  | None => a
  | Some _ =>
      {| the_db := the_db a; exercises_cache := exercises_cache a;
         ex_selection := ex_selection a; set_buffer := [];
         sets_tree := []; next_iid := next_iid a;
         date_widget := date_widget a; note_entry := "";
         q_weight := q_weight a; q_reps := q_reps a; q_rir := q_rir a;
         unit_var := unit_var a; dialogs := dialogs a |}
  end.

(** [refresh_exercises]: reloads the cache, selects the first row if there
    is one and runs [on_ex_select]. *)
Definition refresh_exercises (a : app) : app :=
  let rows := get_exercises (the_db a) in
  let a' :=
    {| the_db := the_db a; exercises_cache := rows;
       ex_selection := match rows with e :: _ => Some (row_id e) | [] => None end;
       set_buffer := set_buffer a; sets_tree := sets_tree a; next_iid := next_iid a;
       date_widget := date_widget a; note_entry := note_entry a;
       q_weight := q_weight a; q_reps := q_reps a; q_rir := q_rir a;
       unit_var := unit_var a; dialogs := dialogs a |} in
  match rows with
  | _ :: _ => on_ex_select a'
  | [] => a'
  end.

(** [TrackerApp(root, db)] with the date entry pre-filled. *)
Definition new_app (d : db) (today : string) : app :=
  refresh_exercises
    {| the_db := d; exercises_cache := []; ex_selection := None;
       set_buffer := []; sets_tree := []; next_iid := 1;
       date_widget := today; note_entry := "";
       q_weight := ""; q_reps := ""; q_rir := ""; unit_var := "lbs";
       dialogs := [] |}.

(** [rir if rir is not None else ''] *)
Definition rir_cell (rir : pyval) : pyval :=
  if is_none rir then VStr "" else rir.

Section Handlers.
Context {R : Runtime}.

(** [add_set_from_quick].  [int(rir_val)] sits outside the [try]: when it
    raises, the exception leaves the handler and nothing has changed. *)
Definition add_set_from_quick (a : app) : result app :=
  match validate_weight_reps (VStr (q_weight a)) (VStr (q_reps a)) with
  | Raise e => Ok (show (showerror "Invalid" (exn_text e)) a)
  | Ok (weight, reps) =>
      let rir_val := PyStr.strip (q_rir a) in
      rir <- (if negb (rir_val =? "")%string
              then n <- py_int (VStr rir_val) ;; Ok (VInt n)
              else Ok VNone) ;;
      let unit_ := unit_var a in
      let idx := Z.of_nat (List.length (set_buffer a)) + 1 in
      let row := {| b_idx := idx; b_weight := VFloat weight; b_reps := VInt reps;
                    b_rir := rir; b_unit := unit_ |} in
      Ok {| the_db := the_db a; exercises_cache := exercises_cache a;
            ex_selection := ex_selection a;
            set_buffer := set_buffer a ++ [row];
            sets_tree := sets_tree a ++
              [ {| iid := next_iid a; c_idx := idx; c_weight := VFloat weight;
                   c_reps := VInt reps; c_rir := rir_cell rir; c_unit := unit_ |} ];
            next_iid := next_iid a + 1;
            date_widget := date_widget a; note_entry := note_entry a;
            q_weight := ""; q_reps := ""; q_rir := "";
            unit_var := unit_var a; dialogs := dialogs a |}
  end.

(** [vals[3] != ''] *)
Definition not_empty_text (v : pyval) : bool :=
  match v with
  | VStr EmptyString => false
  | _ => true
  end.

(** The body of the [enumerate(..., start=1)] loop of [remove_set]: reads
    the item's values back from Tk and renumbers it [i].  A [values] tuple
    always has its five entries, so [unit] is [vals[4]]. *)
Definition renumber (i : Z) (item : tree_item) : buf_row * tree_item :=
  let weight := tk_value (c_weight item) in
  let reps := tk_value (c_reps item) in
  let rir := if not_empty_text (tk_value (c_rir item)) then tk_value (c_rir item) else VNone in
  let unit_ := c_unit item in
  ({| b_idx := i; b_weight := weight; b_reps := reps; b_rir := rir; b_unit := unit_ |},
   {| iid := iid item; c_idx := i; c_weight := weight; c_reps := reps;
      c_rir := rir_cell rir; c_unit := unit_ |}).

Fixpoint renumber_from (i : Z) (items : list tree_item) : list (buf_row * tree_item) :=
  match items with
  | [] => []
  | item :: rest => renumber i item :: renumber_from (i + 1) rest
  end.

(** [remove_set], with [sel] the selected items of [sets_tree]: they are
    deleted, then the buffer is rebuilt from the items that remain. *)
Definition remove_set (sel : list Z) (a : app) : app :=
  match sel with
  | [] => show (showinfo "Select" "Select a set to remove.") a
  | _ :: _ =>
      let kept := filter (fun item => negb (existsb (Z.eqb (iid item)) sel)) (sets_tree a) in
      let rows := renumber_from 1 kept in
      with_sets (map fst rows) (map snd rows) a
  end.

(** The [for s in self.set_buffer] loop of [save_session]: stops at the
    first exception, with the store as the earlier inserts left it. *)
Fixpoint add_sets (session_id : Z) (buf : list buf_row) (d : db) : db * option exn :=
  match buf with
  | [] => (d, None)
  | s :: rest =>
      match add_set session_id (b_idx s) (b_weight s) (b_reps s) (b_rir s) (b_unit s) d with
      | Ok (_, d') => add_sets session_id rest d'
      | Raise e => (d, Some e)
      end
  end.

(** [save_session].  [date_widget] holds the text of the date entry (with
    the calendar widget, a date it has formatted itself). *)
Definition save_session (a : app) : app :=
  match get_selected_exercise a with
  | None => show (showinfo "Select" "Select an exercise first.") a
  | Some sel =>
      let date_str := PyStr.strip (date_widget a) in
      if negb (strptime_ymd date_str)
      then show (showerror "Invalid date" "Date must be YYYY-MM-DD") a
      else
        match set_buffer a with
        | [] => show (showinfo "No sets" "Add at least one set before saving.") a
        | _ :: _ =>
            let notes := PyStr.strip (note_entry a) in
            match add_session (row_id sel) date_str notes (the_db a) with
            | Raise e => show (showerror "Error" (exn_text e)) a
            | Ok (session_id, d1) =>
                match add_sets session_id (set_buffer a) d1 with
                | (d2, Some e) => show (showerror "Error" (exn_text e)) (with_db d2 a)
                | (d2, None) =>
                    refresh_exercises
                      (on_ex_select
                         (with_sets [] []
                            (show (showinfo "Saved" "Session saved.") (with_db d2 a))))
                end
            end
        end
  end.

(** [on_session_select], with [sid] the selected history item: the sets
    of that session replace the buffer. *)
Definition on_session_select (sid : Z) (a : app) : app :=
  let rows := get_sets_for_session sid (the_db a) in
  let cells := map (fun s => let '(idx, weight, reps, rir, unit_) := s in
                             (idx, VFloat weight, VInt reps, opt_int rir, unit_)) rows in
  {| the_db := the_db a; exercises_cache := exercises_cache a;
     ex_selection := ex_selection a;
     set_buffer :=
       map (fun c => let '(idx, weight, reps, rir, unit_) := c in
                     {| b_idx := idx; b_weight := weight; b_reps := reps;
                        b_rir := rir; b_unit := unit_ |}) cells;
     sets_tree :=
       map (fun ic => let '(i, (idx, weight, reps, rir, unit_)) := ic in
                      {| iid := i; c_idx := idx; c_weight := weight; c_reps := reps;
                         c_rir := rir_cell rir; c_unit := unit_ |})
           (combine (map (fun k => next_iid a + Z.of_nat k) (seq 0 (List.length cells))) cells);
     next_iid := next_iid a + Z.of_nat (List.length cells);
     date_widget := date_widget a; note_entry := note_entry a;
     q_weight := q_weight a; q_reps := q_reps a; q_rir := q_rir a;
     unit_var := unit_var a; dialogs := dialogs a |}.

End Handlers.

(** ** Vocabulary of the store properties *)

(** Every session references a stored exercise and every set a stored
    session. *)
Definition no_orphans (d : db) : Prop :=
  (forall s, In s (sessions d) ->
     exists e, In e (exercises d) /\ ex_id e = se_exercise_id s)
  /\ (forall t, In t (sets d) ->
        exists s, In s (sessions d) /\ se_id s = st_session_id t).

Section Reachable.
Context {R : Runtime}.

(** One successful call of a writing method; a call that raises leaves
    the store as it was. *)
Inductive db_step : db -> db -> Prop :=
| step_ensure_preloaded d :
    db_step d (ensure_preloaded d)
| step_add_exercise d name body_part equipment notes subgroup id d' :
    add_exercise name body_part equipment notes subgroup d = Ok (id, d') ->
    db_step d d'
| step_update_exercise d id name body_part equipment notes subgroup d' :
    update_exercise id name body_part equipment notes subgroup d = Ok d' ->
    db_step d d'
| step_delete_exercise d id :
    db_step d (delete_exercise id d)
| step_add_session d exercise_id date_str notes id d' :
    add_session exercise_id date_str notes d = Ok (id, d') ->
    db_step d d'
| step_add_set d session_id set_index weight reps rir unit_ id d' :
    add_set session_id set_index weight reps rir unit_ d = Ok (id, d') ->
    db_step d d'
| step_delete_session d session_id :
    db_step d (delete_session session_id d).

(** The stores the program can produce from a new file. *)
Inductive reachable : db -> Prop :=
| reach_empty : reachable empty_db
| reach_step d d' : reachable d -> db_step d d' -> reachable d'.

End Reachable.

(** Ascending by body part and then by name, both under NOCASE. *)
Definition nocase_le (a b : exercise_row) : Prop :=
  PyStr.cmp_nocase (row_body_part a) (row_body_part b) = Lt
  \/ (PyStr.cmp_nocase (row_body_part a) (row_body_part b) = Eq
      /\ PyStr.cmp_nocase (row_name a) (row_name b) <> Gt).

(** An RIR argument that is [None], empty or whitespace only. *)
Definition blank_rir (rir : pyval) : Prop :=
  rir = VNone \/ exists s, rir = VStr s /\ PyStr.all_space s = true.

(** ** Vocabulary of the buffer properties *)

(** The Treeview item shows the buffered set. *)
Definition displays (item : tree_item) (row : buf_row) : Prop :=
  c_idx item = b_idx row /\ c_weight item = b_weight row /\ c_reps item = b_reps row
  /\ c_rir item = rir_cell (b_rir row) /\ c_unit item = b_unit row.

(** The Treeview shows the buffer, item by item, under distinct item ids
    below the next one Tk will give out. *)
Definition in_sync (a : app) : Prop :=
  Forall2 displays (sets_tree a) (set_buffer a)
  /\ NoDup (map iid (sets_tree a))
  /\ Forall (fun item => iid item < next_iid a) (sets_tree a).

(** What a set carries besides its index. *)
Definition payload (row : buf_row) : pyval * pyval * pyval * string :=
  (b_weight row, b_reps row, b_rir row, b_unit row).

Section ReadBack.
Context {R : Runtime}.

(** The payload of a buffered set once it is read back from its Treeview
    item. *)
Definition read_back (row : buf_row) : pyval * pyval * pyval * string :=
  (tk_value (b_weight row), tk_value (b_reps row),
   (if not_empty_text (tk_value (rir_cell (b_rir row)))
    then tk_value (rir_cell (b_rir row)) else VNone),
   b_unit row).

End ReadBack.

(** The entries as the user has filled them. *)
Definition type_quick (w r i : string) (a : app) : app :=
  {| the_db := the_db a; exercises_cache := exercises_cache a;
     ex_selection := ex_selection a; set_buffer := set_buffer a;
     sets_tree := sets_tree a; next_iid := next_iid a;
     date_widget := date_widget a; note_entry := note_entry a;
     q_weight := w; q_reps := r; q_rir := i;
     unit_var := unit_var a; dialogs := dialogs a |}.

(** The user picks exercise [i] in the master list. *)
Definition pick_exercise (i : Z) (a : app) : app :=
  on_ex_select
    {| the_db := the_db a; exercises_cache := exercises_cache a;
       ex_selection := Some i; set_buffer := set_buffer a;
       sets_tree := sets_tree a; next_iid := next_iid a;
       date_widget := date_widget a; note_entry := note_entry a;
       q_weight := q_weight a; q_reps := q_reps a; q_rir := q_rir a;
       unit_var := unit_var a; dialogs := dialogs a |}.

Section AppSteps.
Context {R : Runtime}.

(** One user action on the set pane. *)
Inductive app_step : app -> app -> Prop :=
| ui_type w r i a : app_step a (type_quick w r i a)
| ui_pick i a : app_step a (pick_exercise i a)
| ui_add_set a a' : add_set_from_quick a = Ok a' -> app_step a a'
| ui_remove_set sel a : app_step a (remove_set sel a)
| ui_save_session a : app_step a (save_session a)
| ui_session_select sid a : app_step a (on_session_select sid a).

Inductive app_reachable : app -> Prop :=
| app_new d today : app_reachable (new_app d today)
| app_next a a' : app_reachable a -> app_step a a' -> app_reachable a'.

End AppSteps.

(** ** Vocabulary of the save properties *)

Section SaveVocabulary.
Context {R : Runtime}.

(** The row of [sets] that [add_set] inserts for a buffered set. *)
Definition stored_as (session_id : Z) (row : buf_row) (t : set_row) : Prop :=
  st_session_id t = session_id /\ st_set_index t = b_idx row
  /\ py_float (b_weight row) = Ok (st_weight t)
  /\ py_int (b_reps row) = Ok (st_reps t)
  /\ rir_param (b_rir row) = Ok (st_rir t)
  /\ st_unit t = b_unit row.

(** All or nothing: saving either leaves the sessions and sets as they
    were, or adds one session together with a row for every buffered
    set. *)
Definition saved_atomically (a : app) : Prop :=
  (sessions (the_db (save_session a)) = sessions (the_db a)
   /\ sets (the_db (save_session a)) = sets (the_db a))
  \/ (exists s rows,
        sessions (the_db (save_session a)) = (sessions (the_db a) ++ [s])%list
        /\ sets (the_db (save_session a)) = (sets (the_db a) ++ rows)%list
        /\ Forall2 (stored_as (se_id s)) (set_buffer a) rows).

End SaveVocabulary.

(** ** ISO dates *)

Definition digit_char (n : Z) : ascii := ascii_of_N (Z.to_N (48 + n)).

Definition two_digits (n : Z) (rest : string) : string :=
  String (digit_char (n / 10)) (String (digit_char (n mod 10)) rest).

(** [YYYY-MM-DD], as [strftime('%Y-%m-%d')] writes a date from year 1000
    on. *)
Definition iso_date (y m d : Z) : string :=
  two_digits (y / 100)
    (two_digits (y mod 100)
       (String "-" (two_digits m (String "-" (two_digits d EmptyString))))).

(** Calendar order on (year, month, day). *)
Definition ymd_compare (y m d y' m' d' : Z) : comparison :=
  match y ?= y' with
  | Eq => match m ?= m' with
          | Eq => d ?= d'
          | o => o
          end
  | o => o
  end.

(** ** Sample inputs *)

Fixpoint replicate (n : nat) (c : ascii) : string :=
  match n with
  | O => EmptyString
  | S n' => String c (replicate n' c)
  end.

(** One leading space and 150 letters: 151 characters. *)
Definition padded_name : string := String " " (replicate 150 "a").

(** The starter store with one session of one set on exercise 1. *)
Definition sample_db : db :=
  match add_session 1 "2024-01-10" "" init_db with
  | Ok (sid, d1) =>
      match add_set (R := py_runtime) sid 1 (VStr "100") (VStr "8") (VStr "2") "lbs" d1 with
      | Ok (_, d2) => d2
      | Raise _ => d1
      end
  | Raise _ => init_db
  end.

(** Typing a set in and pressing Add Set. *)
Definition quick_add (w r i : string) (a : app) : app :=
  match add_set_from_quick (R := py_runtime) (type_quick w r i a) with
  | Ok a' => a'
  | Raise _ => a
  end.

(** A new application on the starter store with three sets typed in. *)
Definition three_sets : app :=
  quick_add "60" "10" ""
    (quick_add "102.5" "6" "1"
       (quick_add "100" "8" "2" (new_app init_db "2024-01-10"))).

(** Two sets typed in, the second with a rep count of 2^63. *)
Definition two_sets_overflow : app :=
  quick_add "100" "9223372036854775808" ""
    (quick_add "100" "8" "2" (new_app init_db "2024-01-10")).

(** Two sets typed in, both in range. *)
Definition two_sets : app :=
  quick_add "102.5" "6" ""
    (quick_add "100" "8" "2" (new_app init_db "2024-01-10")).

(** * The rest of the program *)

(** ** Dates *)

(** The calendar date of a [datetime]. *)
Record date : Type := {
  year : Z;
  month : Z;
  day : Z
}.

(** [safe_date_str(dt=None)]; [now] is what [datetime.now()] returns. *)
Definition safe_date_str (dt : option date) (now : date) : string :=
  let d := match dt with
           | None => now
           | Some d => d
           end in
  iso_date (year d) (month d) (day d).

(** ** The exercise dialogs *)

(** What [ExerciseEditDialog] leaves in [result]: nothing when the dialog
    is cancelled, else the five texts of its widgets. *)
Inductive dialog_outcome : Type :=
| Cancelled
| Confirmed (e_name e_body e_equip e_sub e_notes : string).

Record dialog_fields : Type := {
  r_name : string;
  r_body_part : string;
  r_equipment : string;
  r_subgroup : string;
  r_notes : string
}.

(** [ExerciseEditDialog.apply]: every text is stripped. *)
Definition dialog_result (dlg : dialog_outcome) : option dialog_fields :=
  match dlg with
  | Cancelled => None
  | Confirmed e_name e_body e_equip e_sub e_notes =>
      Some {| r_name := PyStr.strip e_name;
              r_body_part := PyStr.strip e_body;
              r_equipment := PyStr.strip e_equip;
              r_subgroup := PyStr.strip e_sub;
              r_notes := PyStr.strip e_notes |}
  end.

(** [add_exercise_dialog] *)
Definition add_exercise_dialog (dlg : dialog_outcome) (a : app) : app :=
  match dialog_result dlg with
  | None => a
  | Some f =>
      match (name <- validate_exercise_name (r_name f) ;;
             add_exercise name (r_body_part f) (r_equipment f) (r_notes f)
                          (r_subgroup f) (the_db a)) with
      | Ok (_, d') => refresh_exercises (with_db d' a)
      | Raise e => show (showerror "Error" (exn_text e)) a
      end
  end.

(** [edit_exercise_dialog]: the dialog opens only on a selected
    exercise. *)
Definition edit_exercise_dialog (dlg : dialog_outcome) (a : app) : app :=
  match get_selected_exercise a with
  | None => show (showinfo "Select" "Select an exercise to edit.") a
  | Some sel =>
      match dialog_result dlg with
      | None => a
      | Some f =>
          match (name <- validate_exercise_name (r_name f) ;;
                 update_exercise (row_id sel) name (r_body_part f) (r_equipment f)
                                 (r_notes f) (r_subgroup f) (the_db a)) with
          | Ok d' => refresh_exercises (with_db d' a)
          | Raise e => show (showerror "Error" (exn_text e)) a
          end
      end
  end.

(** [delete_exercise_confirm]; [yes] is the answer to [askyesno]. *)
Definition delete_exercise_confirm (yes : bool) (a : app) : app :=
  match get_selected_exercise a with
  | None => show (showinfo "Select" "Select an exercise to delete.") a
  | Some sel =>
      if yes
      then refresh_exercises (with_db (delete_exercise (row_id sel) (the_db a)) a)
      else a
  end.

(** [delete_session_confirm]; [sel] is the selected item of the history
    pane, [yes] the answer to [askyesno]. *)
Definition delete_session_confirm (sel : option Z) (yes : bool) (a : app) : app :=
  match sel with
  | None => show (showinfo "Select" "Select session to delete.") a
  | Some sid =>
      if yes
      then show (showinfo "Deleted" "Session removed.")
                (on_ex_select (with_db (delete_session sid (the_db a)) a))
      else a
  end.

(** The date and notes entries as the user has filled them. *)
Definition type_date (date_text note_text : string) (a : app) : app :=
  {| the_db := the_db a; exercises_cache := exercises_cache a;
     ex_selection := ex_selection a; set_buffer := set_buffer a;
     sets_tree := sets_tree a; next_iid := next_iid a;
     date_widget := date_text; note_entry := note_text;
     q_weight := q_weight a; q_reps := q_reps a; q_rir := q_rir a;
     unit_var := unit_var a; dialogs := dialogs a |}.

(** The unit radio buttons. *)
Definition choose_unit (u : string) (a : app) : app :=
  {| the_db := the_db a; exercises_cache := exercises_cache a;
     ex_selection := ex_selection a; set_buffer := set_buffer a;
     sets_tree := sets_tree a; next_iid := next_iid a;
     date_widget := date_widget a; note_entry := note_entry a;
     q_weight := q_weight a; q_reps := q_reps a; q_rir := q_rir a;
     unit_var := u; dialogs := dialogs a |}.

Section Running.
Context {R : Runtime}.

(** One user action, on any part of the window. *)
Inductive handler_step : app -> app -> Prop :=
| do_type_quick w r i a : handler_step a (type_quick w r i a)
| do_type_date dt nt a : handler_step a (type_date dt nt a)
| do_choose_unit u a : (u = "lbs" \/ u = "kg") -> handler_step a (choose_unit u a)
| do_pick i a : handler_step a (pick_exercise i a)
| do_add_set a a' : add_set_from_quick a = Ok a' -> handler_step a a'
| do_remove_set sel a : handler_step a (remove_set sel a)
| do_save_session a : handler_step a (save_session a)
| do_session_select sid a : handler_step a (on_session_select sid a)
| do_delete_session sel yes a : handler_step a (delete_session_confirm sel yes a)
| do_add_exercise dlg a : handler_step a (add_exercise_dialog dlg a)
| do_edit_exercise dlg a : handler_step a (edit_exercise_dialog dlg a)
| do_delete_exercise yes a : handler_step a (delete_exercise_confirm yes a).

(** The states of the program: started on a new file, driven by its
    handlers, closed and started again on the file it left. *)
Inductive running : app -> Prop :=
| run_first today : running (new_app init_db today)
| run_again a today : running a -> running (new_app (ensure_preloaded (the_db a)) today)
| run_step a a' : running a -> handler_step a a' -> running a'.

(** Any number of successful calls of the writing methods. *)
Inductive db_steps : db -> db -> Prop :=
| steps_none d : db_steps d d
| steps_more d d' d'' : db_steps d d' -> db_step d' d'' -> db_steps d d''.

End Running.

(** ** Vocabulary of the further properties *)

(** Primary keys and exercise names are pairwise distinct. *)
Definition unique_keys (d : db) : Prop :=
  NoDup (map ex_id (exercises d)) /\ NoDup (map ex_name (exercises d))
  /\ NoDup (map se_id (sessions d)) /\ NoDup (map st_id (sets d)).

(** No rowid in use exceeds the AUTOINCREMENT counter of its table. *)
Definition counters_cover (d : db) : Prop :=
  Forall (fun e => ex_id e <= seq_exercises d) (exercises d)
  /\ Forall (fun s => se_id s <= seq_sessions d) (sessions d)
  /\ Forall (fun t => st_id t <= seq_sets d) (sets d).

Definition int64 (n : Z) : Prop := - 2 ^ 63 <= n < 2 ^ 63.

Definition int64_opt (i : option Z) : Prop :=
  match i with
  | Some n => int64 n
  | None => True
  end.

(** What the columns of a stored set can hold. *)
Definition storable (t : set_row) : Prop :=
  is_nan (st_weight t) = false /\ int64 (st_reps t) /\ int64_opt (st_rir t).

(** 1, 2, ..., n. *)
Definition numbered (l : list Z) : Prop :=
  l = map Z.of_nat (seq 1 (List.length l)).

(** The set indexes of a session, in rowid order. *)
Definition indexes_of (sid : Z) (d : db) : list Z :=
  map st_set_index (filter (fun t => st_session_id t =? sid) (sets d)).

(** The six stored columns of a listed exercise. *)
Definition stored_columns (r : exercise_row) : Z * string * string * string * string * string :=
  (row_id r, row_name r, row_body_part r, row_equipment r, row_notes r, row_subgroup r).

(** The later of two date texts. *)
Definition later (a b : string) : string := if PyStr.ltb a b then b else a.

(** The two units the radio buttons offer. *)
Definition unit_ok (u : string) : Prop := u = "lbs" \/ u = "kg".

(** A stored set inside the range the validator checks. *)
Definition set_in_range (t : set_row) : Prop :=
  fge (st_weight t) fzero = true /\ 1 <= st_reps t.

(** The sets of every session are numbered 1, 2, ... in rowid order, and
    every unit is one of the two. *)
Definition store_ok (d : db) : Prop :=
  (forall sid, numbered (indexes_of sid d))
  /\ Forall (fun t => unit_ok (st_unit t)) (sets d).

(** The cached exercise list shows the stored exercises, in listing
    order. *)
Definition cache_ok (a : app) : Prop :=
  map stored_columns (exercises_cache a)
  = map stored_columns (get_exercises (the_db a)).

(** The set pane: the Treeview shows the buffer, the buffer is numbered
    1, 2, ..., and every unit is one of the two. *)
Definition pane_ok (a : app) : Prop :=
  in_sync a
  /\ numbered (map b_idx (set_buffer a))
  /\ unit_ok (unit_var a)
  /\ Forall (fun row => unit_ok (b_unit row)) (set_buffer a).

(** The second state has no buffered set and no stored set that the
    first has not. *)
Definition quiet (a a' : app) : Prop :=
  incl (set_buffer a') (set_buffer a) /\ incl (sets (the_db a')) (sets (the_db a)).

Section Health.
Context {R : Runtime}.

Definition healthy (a : app) : Prop :=
  reachable (the_db a) /\ store_ok (the_db a) /\ cache_ok a /\ pane_ok a.

(** A buffered set whose weight and reps convert to numbers inside the
    range the validator checks. *)
Definition row_in_range (row : buf_row) : Prop :=
  exists w r,
    py_float (b_weight row) = Ok w /\ py_int (b_reps row) = Ok r
    /\ flt w fzero = false /\ 1 <= r.

(** Tk hands a stored number back as a value that converts to the same
    number. *)
Definition tk_faithful : Prop :=
  forall v, py_float (tk_value v) = py_float v /\ py_int (tk_value v) = py_int v.

Definition ranged (a : app) : Prop :=
  Forall row_in_range (set_buffer a) /\ Forall set_in_range (sets (the_db a)).

(** The buffered set [new] holds the numbers that [add_set] stores for
    the buffered set [old]. *)
Definition reloads (old new : buf_row) : Prop :=
  b_idx new = b_idx old /\ b_unit new = b_unit old
  /\ exists w r i,
       py_float (b_weight old) = Ok w /\ b_weight new = VFloat w
       /\ py_int (b_reps old) = Ok r /\ b_reps new = VInt r
       /\ rir_param (b_rir old) = Ok i /\ b_rir new = opt_int i.

End Health.

(** Three sets typed in and saved. *)
Definition logged_app : app := save_session (R := py_runtime) three_sets.

(** The program started again on the file that leaves. *)
Definition saved_app : app :=
  new_app (ensure_preloaded (the_db logged_app)) "2024-02-01".

(** The store after an exercise, a session on it and two sets. *)
Definition row_db : db :=
  match add_exercise " Row " "Back" "Cable" "" "" init_db with
  | Ok (eid, d1) =>
      match add_session eid "2024-01-10" "" d1 with
      | Ok (sid, d2) =>
          match add_set (R := py_runtime) sid 1 (VInt 100) (VInt 8) (VInt 2) "lbs" d2 with
          | Ok (_, d3) =>
              match add_set (R := py_runtime) sid 2 (VStr "95.5") (VStr "8") (VStr " ") "lbs" d3 with
              | Ok (_, d4) => d4
              | Raise _ => d3
              end
          | Raise _ => d2
          end
      | Raise _ => d1
      end
  | Raise _ => init_db
  end.
(** * Properties *)

(** ** Strings *)

Lemma rstrip_empty_iff (s : string) :
  PyStr.rstrip s = EmptyString <-> PyStr.all_space s = true.
Proof.
  induction s as [|c r IH]; simpl.
  - split; reflexivity.
  - destruct (PyStr.rstrip r) eqn:Hr.
    + destruct (PyStr.is_space c); simpl.
      * rewrite <- IH. split; reflexivity.
      * split; discriminate.
    + split; [discriminate|].
      intros H. apply andb_true_iff in H as [_ H].
      apply IH in H. discriminate.
Qed.

Lemma all_space_lstrip (s : string) :
  PyStr.all_space (PyStr.lstrip s) = PyStr.all_space s.
Proof.
  induction s as [|c r IH]; simpl; [reflexivity|].
  destruct (PyStr.is_space c) eqn:Hc; simpl; [exact IH|].
  rewrite Hc. reflexivity.
Qed.

Lemma strip_empty_iff (s : string) :
  PyStr.strip s = EmptyString <-> PyStr.all_space s = true.
Proof.
  unfold PyStr.strip. rewrite rstrip_empty_iff, all_space_lstrip. reflexivity.
Qed.

Lemma truthy_false_iff (s : string) : PyStr.truthy s = false <-> s = EmptyString.
Proof. destruct s; simpl; split; congruence. Qed.

Lemma cmp_refl (a : string) : PyStr.cmp a a = Eq.
Proof.
  induction a as [|x a IH]; simpl; [reflexivity|].
  rewrite Z.compare_refl. exact IH.
Qed.

Lemma code_inj (x y : ascii) : PyStr.code x = PyStr.code y -> x = y.
Proof.
  unfold PyStr.code. intros H. apply N2Z.inj in H.
  rewrite <- (ascii_N_embedding x), <- (ascii_N_embedding y). congruence.
Qed.

Lemma cmp_eq (a b : string) : PyStr.cmp a b = Eq -> a = b.
Proof.
  revert b. induction a as [|x a IH]; intros [|y b]; simpl; try discriminate; auto.
  destruct (PyStr.code x ?= PyStr.code y) eqn:Hc; try discriminate.
  intros H. apply Z.compare_eq in Hc. apply code_inj in Hc.
  f_equal; auto.
Qed.

Lemma cmp_antisym (a b : string) : PyStr.cmp b a = CompOpp (PyStr.cmp a b).
Proof.
  revert b. induction a as [|x a IH]; intros [|y b]; simpl; try reflexivity.
  rewrite (Z.compare_antisym (PyStr.code x) (PyStr.code y)).
  destruct (PyStr.code x ?= PyStr.code y); simpl; auto.
Qed.

Lemma cmp_lt_trans (a b c : string) :
  PyStr.cmp a b = Lt -> PyStr.cmp b c = Lt -> PyStr.cmp a c = Lt.
Proof.
  revert b c. induction a as [|x a IH]; intros [|y b] [|z c]; simpl; try discriminate; auto.
  destruct (PyStr.code x ?= PyStr.code y) eqn:Hxy; try discriminate;
  destruct (PyStr.code y ?= PyStr.code z) eqn:Hyz; try discriminate; intros H1 H2.
  - apply Z.compare_eq in Hxy, Hyz.
    rewrite Hxy, Hyz, Z.compare_refl. eauto.
  - apply Z.compare_eq in Hxy. rewrite Hxy, Hyz. reflexivity.
  - apply Z.compare_eq in Hyz. rewrite <- Hyz, Hxy. reflexivity.
  - rewrite Z.compare_lt_iff in Hxy, Hyz.
    rewrite (proj2 (Z.compare_lt_iff _ _) (Z.lt_trans _ _ _ Hxy Hyz)). reflexivity.
Qed.

Lemma cmp_gt_lt (a b : string) : PyStr.cmp a b = Gt <-> PyStr.cmp b a = Lt.
Proof.
  rewrite (cmp_antisym a b). destruct (PyStr.cmp a b); simpl; split; congruence.
Qed.

Lemma leb_trans (a b c : string) :
  PyStr.leb a b = true -> PyStr.leb b c = true -> PyStr.leb a c = true.
Proof.
  unfold PyStr.leb.
  destruct (PyStr.cmp a b) eqn:Hab; try discriminate;
  destruct (PyStr.cmp b c) eqn:Hbc; try discriminate; intros _ _.
  - apply cmp_eq in Hab, Hbc. subst. rewrite cmp_refl. reflexivity.
  - apply cmp_eq in Hab. subst. rewrite Hbc. reflexivity.
  - apply cmp_eq in Hbc. subst. rewrite Hab. reflexivity.
  - rewrite (cmp_lt_trans _ _ _ Hab Hbc). reflexivity.
Qed.

Lemma leb_total (a b : string) : PyStr.leb a b = true \/ PyStr.leb b a = true.
Proof.
  unfold PyStr.leb. rewrite (cmp_antisym a b).
  destruct (PyStr.cmp a b); simpl; auto.
Qed.

Lemma ltb_false_leb (a b : string) : PyStr.ltb a b = false <-> PyStr.leb b a = true.
Proof.
  unfold PyStr.ltb, PyStr.leb. rewrite (cmp_antisym a b).
  destruct (PyStr.cmp a b); simpl; split; congruence.
Qed.

Lemma ltb_true_leb (a b : string) : PyStr.ltb a b = true -> PyStr.leb a b = true.
Proof.
  unfold PyStr.ltb, PyStr.leb. destruct (PyStr.cmp a b); congruence.
Qed.

(** ** Ordered results *)

Section OrderBy.
Context {A : Type} (le : A -> A -> bool).
Hypothesis le_total : forall a b, le a b = true \/ le b a = true.
Hypothesis le_trans : forall a b c, le a b = true -> le b c = true -> le a c = true.

Lemma insert_by_perm (x : A) (l : list A) : Permutation (insert_by le x l) (x :: l).
Proof.
  induction l as [|y l IH]; simpl; [reflexivity|].
  destruct (le x y); [reflexivity|].
  rewrite IH. apply perm_swap.
Qed.

Lemma order_by_perm (l : list A) : Permutation (order_by le l) l.
Proof.
  induction l as [|x l IH]; simpl; [reflexivity|].
  rewrite insert_by_perm. constructor. exact IH.
Qed.

Lemma insert_by_sorted (x : A) (l : list A) :
  StronglySorted (fun a b => le a b = true) l ->
  StronglySorted (fun a b => le a b = true) (insert_by le x l).
Proof.
  induction 1 as [|y l Hs IH Hy]; simpl.
  - repeat constructor.
  - destruct (le x y) eqn:Hxy.
    + constructor; [constructor; assumption|].
      constructor; [assumption|].
      rewrite Forall_forall in *. eauto.
    + constructor; [assumption|].
      rewrite Forall_forall in *. intros z Hz.
      apply (Permutation_in _ (insert_by_perm x l)) in Hz.
      destruct Hz as [<-|Hz]; [|auto].
      destruct (le_total x y) as [H|H]; congruence.
Qed.

Lemma order_by_sorted (l : list A) :
  StronglySorted (fun a b => le a b = true) (order_by le l).
Proof.
  induction l as [|x l IH]; simpl; [constructor|].
  apply insert_by_sorted. exact IH.
Qed.

Lemma le_refl_total (a : A) : le a a = true.
Proof. destruct (le_total a a); assumption. Qed.

(** The first row of an ordered result is below every row. *)
Lemma order_by_head (l : list A) (h : A) (t : list A) :
  order_by le l = h :: t -> forall x, In x l -> le h x = true.
Proof.
  intros E x Hx.
  pose proof (order_by_sorted l) as Hs. rewrite E in Hs.
  apply (Permutation_in _ (Permutation_sym (order_by_perm l))) in Hx.
  rewrite E in Hx. destruct Hx as [<-|Hx].
  - apply le_refl_total.
  - inversion Hs as [|? ? _ Hall]; subst.
    rewrite Forall_forall in Hall. auto.
Qed.

End OrderBy.

Lemma order_by_nil_iff {A : Type} (le : A -> A -> bool) (l : list A) :
  order_by le l = [] <-> l = [].
Proof.
  split; [|intros ->; reflexivity].
  intros H. destruct l as [|x l]; [reflexivity|].
  pose proof (order_by_perm le (x :: l)) as P. rewrite H in P.
  apply Permutation_nil in P. discriminate.
Qed.

(** ** Dates as texts *)

Lemma code_digit_char (n : Z) : 0 <= n <= 9 -> PyStr.code (digit_char n) = 48 + n.
Proof.
  intros H. unfold PyStr.code, digit_char.
  rewrite N_ascii_embedding; lia.
Qed.

Lemma compare_shift (k a b : Z) : (k + a ?= k + b) = (a ?= b).
Proof.
  destruct (Z.compare_spec a b) as [E|E|E].
  - subst. apply Z.compare_refl.
  - apply Z.compare_lt_iff. lia.
  - apply Z.compare_gt_iff. lia.
Qed.

(** Two numbers below 100 compare as their (quotient, remainder) pairs. *)
Lemma compare_base (base a b : Z) :
  0 < base ->
  (a ?= b) = match a / base ?= b / base with
             | Eq => a mod base ?= b mod base
             | o => o
             end.
Proof.
  intros Hb.
  pose proof (Z.div_mod a base ltac:(lia)) as Ha.
  pose proof (Z.div_mod b base ltac:(lia)) as Hb'.
  pose proof (Z.mod_pos_bound a base Hb) as Ma.
  pose proof (Z.mod_pos_bound b base Hb) as Mb.
  destruct (Z.compare_spec (a / base) (b / base)) as [E|E|E].
  - rewrite Ha, Hb' at 1. rewrite E. apply compare_shift.
  - apply Z.compare_lt_iff. nia.
  - apply Z.compare_gt_iff. nia.
Qed.

Lemma two_digits_cmp (a b : Z) (r r' : string) :
  0 <= a < 100 -> 0 <= b < 100 ->
  PyStr.cmp (two_digits a r) (two_digits b r')
  = match a ?= b with
    | Eq => PyStr.cmp r r'
    | o => o
    end.
Proof.
  intros Ha Hb. unfold two_digits. simpl.
  assert (0 <= a / 10 <= 9) by (split; [apply Z.div_pos | apply Z.lt_succ_r, Z.div_lt_upper_bound]; lia).
  assert (0 <= b / 10 <= 9) by (split; [apply Z.div_pos | apply Z.lt_succ_r, Z.div_lt_upper_bound]; lia).
  pose proof (Z.mod_pos_bound a 10 ltac:(lia)).
  pose proof (Z.mod_pos_bound b 10 ltac:(lia)).
  rewrite !code_digit_char by lia. rewrite !compare_shift.
  rewrite (compare_base 10 a b) by lia.
  destruct (a / 10 ?= b / 10); reflexivity.
Qed.

(** Between ISO dates, the order of the texts is the order of the
    dates. *)
Lemma iso_date_order (y m d y' m' d' : Z) :
  1000 <= y <= 9999 -> 1 <= m <= 12 -> 1 <= d <= 31 ->
  1000 <= y' <= 9999 -> 1 <= m' <= 12 -> 1 <= d' <= 31 ->
  PyStr.cmp (iso_date y m d) (iso_date y' m' d') = ymd_compare y m d y' m' d'.
Proof.
  intros Hy Hm Hd Hy' Hm' Hd'. unfold iso_date, ymd_compare.
  assert (0 <= y / 100 < 100) by (split; [apply Z.div_pos | apply Z.div_lt_upper_bound]; lia).
  assert (0 <= y' / 100 < 100) by (split; [apply Z.div_pos | apply Z.div_lt_upper_bound]; lia).
  pose proof (Z.mod_pos_bound y 100 ltac:(lia)).
  pose proof (Z.mod_pos_bound y' 100 ltac:(lia)).
  rewrite two_digits_cmp by lia.
  rewrite two_digits_cmp by lia.
  rewrite (compare_base 100 y y') by lia.
  destruct (y / 100 ?= y' / 100); try reflexivity.
  destruct (y mod 100 ?= y' mod 100); try reflexivity.
  cbn [PyStr.cmp]. rewrite Z.compare_refl.
  rewrite two_digits_cmp by lia.
  destruct (m ?= m'); try reflexivity.
  cbn [PyStr.cmp]. rewrite Z.compare_refl.
  rewrite two_digits_cmp by lia.
  destruct (d ?= d'); reflexivity.
Qed.

Example iso_date_samples :
  iso_date 2024 1 10 = "2024-01-10"
  /\ PyParse.strptime (iso_date 2024 1 10) = true
  /\ PyStr.ltb (iso_date 2024 1 5) (iso_date 2024 1 10) = true.
Proof. vm_compute. repeat split. Qed.

(** ** The executable runtime on sample texts *)

Example int_samples :
  map PyParse.int_of_string [" 12 "; "-7"; "+1_000"; "007"; ""; "1__0"; "_1"; "1_"; "8.0"; "- 1"; "0"]
  = [Some 12; Some (-7); Some 1000; Some 7; None; None; None; None; None; None; Some 0].
Proof. reflexivity. Qed.

Example float_samples :
  map PyParse.float_of_string ["100"; "0.1"; "-0.0"; "1e400"; "nan"; "-Inf"; "."; "1."; ".5"; "1e"; "2.5e-1"; "abc"; "1_0.2_5"]
  = [Some (S754_finite false 7036874417766400 (-46));
     Some (S754_finite false 7205759403792794 (-56));
     Some (S754_zero true);
     Some (S754_infinity false);
     Some S754_nan;
     Some (S754_infinity true);
     None;
     Some (S754_finite false 4503599627370496 (-52));
     Some (S754_finite false 4503599627370496 (-53));
     None;
     Some (S754_finite false 4503599627370496 (-54));
     None;
     Some (S754_finite false 5770237022568448 (-49))].
Proof. vm_compute. reflexivity. Qed.

Example strptime_samples :
  map PyParse.strptime ["2024-01-10"; "2024-1-5"; "2024-02-30"; "2024-02-29"; "2023-02-29"; "24-01-10"; "2024-13-01"; "2024-01-10x"; "2024-01- 5"; "0000-01-01"; "2024-10-31"; "2024-11-31"]
  = [true; true; false; true; false; false; false; false; true; false; true; false].
Proof. vm_compute. reflexivity. Qed.

Example strip_samples :
  map PyStr.strip ["  Bench Press "; ""; "   "; "a b"]
  = ["Bench Press"; ""; ""; "a b"].
Proof. reflexivity. Qed.

(** The scenario of the specification: exercise "Row", one session on
    2024-01-10 with one set, listed and then deleted. *)
Example row_scenario :
  match add_exercise "Row" "Back" "" "" "" init_db with
  | Ok (eid, d1) =>
      match add_session eid "2024-01-10" "" d1 with
      | Ok (sid, d2) =>
          match add_set (R := py_runtime) sid 1 (VInt 100) (VInt 8) (VInt 2) "lbs" d2 with
          | Ok (_, d3) =>
              get_sets_for_session sid d3
              = [ (1, S754_finite false 7036874417766400 (-46), 8, Some 2, "lbs") ]
              /\ get_sessions_for_exercise eid (delete_session sid d3) = []
          | Raise _ => False
          end
      | Raise _ => False
      end
  | Raise _ => False
  end.
Proof. vm_compute. split; reflexivity. Qed.

(** ** The validators *)

(** C4, as the code has it: a blank or whitespace-only name fails with
    EmptyName; a name whose trimmed text is longer than 150 characters
    fails with NameTooLong; every other name is returned trimmed. *)
Theorem validate_exercise_name_spec (name : string) :
  (PyStr.all_space name = true -> validate_exercise_name name = Raise EmptyName)
  /\ (150 < PyStr.len (PyStr.strip name) -> validate_exercise_name name = Raise NameTooLong)
  /\ (PyStr.all_space name = false -> PyStr.len (PyStr.strip name) <= 150 ->
      validate_exercise_name name = Ok (PyStr.strip name)).
Proof.
  unfold validate_exercise_name.
  destruct (PyStr.all_space name) eqn:Hsp.
  - pose proof (proj2 (strip_empty_iff name) Hsp) as Hs. rewrite Hs. simpl.
    rewrite orb_true_r.
    repeat split; [intros H; discriminate H | discriminate].
  - assert (Hs : PyStr.truthy (PyStr.strip name) = true).
    { destruct (PyStr.strip name) eqn:E; [|reflexivity].
      apply strip_empty_iff in E. congruence. }
    assert (Hn : PyStr.truthy name = true) by (destruct name; [discriminate Hsp | reflexivity]).
    rewrite Hs, Hn. simpl.
    repeat split; try discriminate.
    + intros H. apply Z.ltb_lt in H. rewrite H. reflexivity.
    + intros _ H. apply Z.ltb_ge in H. rewrite H. reflexivity.
Qed.

Lemma validate_exercise_name_spec_witness :
  validate_exercise_name "   " = Raise EmptyName
  /\ validate_exercise_name (replicate 151 "a") = Raise NameTooLong
  /\ validate_exercise_name "  Bench Press " = Ok "Bench Press".
Proof.
  split; [|split].
  - apply (proj1 (validate_exercise_name_spec "   ")). reflexivity.
  - apply (proj1 (proj2 (validate_exercise_name_spec (replicate 151 "a")))).
    vm_compute. reflexivity.
  - apply (proj2 (proj2 (validate_exercise_name_spec "  Bench Press "))).
    + reflexivity.
    + vm_compute. discriminate.
Defined.

(** C4 as stated fails: a name of 151 characters whose trimmed text has
    150 is accepted. *)
Lemma long_name_accepted :
  150 < PyStr.len padded_name
  /\ validate_exercise_name padded_name = Ok (replicate 150 "a")
  /\ validate_exercise_name padded_name <> Raise NameTooLong.
Proof.
  split; [vm_compute; reflexivity|].
  split; [vm_compute; reflexivity|].
  vm_compute. discriminate.
Qed.

Section ValidatorFacts.
Context {R : Runtime}.

Lemma fge_not_flt (x : spec_float) : fge x fzero = true -> flt x fzero = false.
Proof.
  unfold fge, flt, SFltb. destruct (SFcompare x fzero) as [[]|]; congruence.
Qed.

(** C3: a pair that fails either conversion is rejected with
    InvalidNumeric; a converted pair with weight < 0 or reps <= 0 is
    rejected with InvalidRange; a converted pair with weight >= 0 and
    reps >= 1 is returned as converted.  The function is pure. *)
Theorem validate_weight_reps_spec (w r : pyval) :
  ((forall weight, py_float w <> Ok weight) \/ (forall reps, py_int r <> Ok reps) ->
   validate_weight_reps w r = Raise InvalidNumeric)
  /\ (forall weight reps,
        py_float w = Ok weight -> py_int r = Ok reps ->
        flt weight fzero = true \/ reps <= 0 ->
        validate_weight_reps w r = Raise InvalidRange)
  /\ (forall weight reps,
        py_float w = Ok weight -> py_int r = Ok reps ->
        fge weight fzero = true -> 1 <= reps ->
        validate_weight_reps w r = Ok (weight, reps)).
Proof.
  unfold validate_weight_reps. split; [|split].
  - intros [H|H].
    + destruct (py_float w) as [weight|e]; [destruct (H weight); reflexivity | reflexivity].
    + destruct (py_float w) as [weight|e]; simpl; [|reflexivity].
      destruct (py_int r) as [reps|e]; [destruct (H reps); reflexivity | reflexivity].
  - intros weight reps -> -> H. simpl.
    destruct H as [H|H].
    + rewrite H. reflexivity.
    + apply Z.leb_le in H. rewrite H, orb_true_r. reflexivity.
  - intros weight reps -> -> Hw Hr. simpl.
    rewrite (fge_not_flt _ Hw).
    assert (H : (reps <=? 0) = false) by (apply Z.leb_gt; lia).
    rewrite H. reflexivity.
Qed.

End ValidatorFacts.

Lemma validate_weight_reps_spec_witness :
  validate_weight_reps (R := py_runtime) (VStr "abc") (VStr "8") = Raise InvalidNumeric
  /\ validate_weight_reps (R := py_runtime) (VStr "100") (VStr "0") = Raise InvalidRange
  /\ validate_weight_reps (R := py_runtime) (VStr "100") (VStr "8")
     = Ok (S754_finite false 7036874417766400 (-46), 8).
Proof.
  split; [|split].
  - apply (proj1 (validate_weight_reps_spec (R := py_runtime) (VStr "abc") (VStr "8"))).
    left. intros weight. vm_compute. discriminate.
  - apply (proj1 (proj2 (validate_weight_reps_spec (R := py_runtime) (VStr "100") (VStr "0")))
             (S754_finite false 7036874417766400 (-46)) 0).
    + vm_compute. reflexivity.
    + vm_compute. reflexivity.
    + right. lia.
  - apply (proj2 (proj2 (validate_weight_reps_spec (R := py_runtime) (VStr "100") (VStr "8")))).
    + vm_compute. reflexivity.
    + vm_compute. reflexivity.
    + vm_compute. reflexivity.
    + lia.
Defined.

(** A NaN weight is neither below zero nor at least zero: the validator
    lets it through, and the NOT NULL constraint of [weight] stops it at
    [add_set]. *)
Example nan_weight :
  validate_weight_reps (R := py_runtime) (VStr "nan") (VStr "5") = Ok (S754_nan, 5)
  /\ add_set (R := py_runtime) 1 1 (VFloat S754_nan) (VInt 5) VNone "lbs" sample_db
     = Raise (IntegrityError "NOT NULL constraint failed: sets.weight").
Proof. split; vm_compute; reflexivity. Qed.

(** ** The store: duplicate names *)

Lemma insert_exercise_duplicate (name bp eqp notes sub : string) (d : db) :
  existsb (fun e => (ex_name e =? name)%string) (exercises d) = true ->
  insert_exercise name bp eqp notes sub d
  = Raise (IntegrityError "UNIQUE constraint failed: exercises.name").
Proof. unfold insert_exercise. intros ->. reflexivity. Qed.

(** [add_exercise] reports a taken name as DuplicateName; raising, it
    leaves the table as it was. *)
Lemma add_exercise_duplicate (name bp eqp notes sub : string) (d : db) :
  existsb (fun e => (ex_name e =? PyStr.strip name)%string) (exercises d) = true ->
  add_exercise name bp eqp notes sub d = Raise DuplicateName.
Proof.
  intros H. unfold add_exercise. rewrite (insert_exercise_duplicate _ _ _ _ _ _ H).
  reflexivity.
Qed.

(** [update_exercise] lets the store's own exception through. *)
Lemma update_exercise_duplicate (id : Z) (name bp eqp notes sub : string) (d : db) :
  has_exercise id d = true ->
  existsb (fun e => negb (ex_id e =? id) && (ex_name e =? PyStr.strip name)%string)
          (exercises d) = true ->
  update_exercise id name bp eqp notes sub d
  = Raise (IntegrityError "UNIQUE constraint failed: exercises.name").
Proof. unfold update_exercise. intros -> ->. reflexivity. Qed.

(** C2 at the failing input: on the starter store, renaming exercise 2
    ("Pull Ups") to "Squat" raises the store's IntegrityError, which is
    not DuplicateName, while adding "Squat" raises DuplicateName. *)
Theorem update_exercise_not_duplicate_name :
  update_exercise 2 "Squat" "Back" "Bodyweight" "Slow and Controlled" "Vertical Mower" init_db
  = Raise (IntegrityError "UNIQUE constraint failed: exercises.name")
  /\ IntegrityError "UNIQUE constraint failed: exercises.name" <> DuplicateName
  /\ add_exercise "Squat" "Back" "Barbell" "" "" init_db = Raise DuplicateName.
Proof.
  split; [vm_compute; reflexivity|].
  split; [discriminate|].
  vm_compute. reflexivity.
Qed.

(** ** The store: referential integrity *)

Lemma existsb_id_In {A : Type} (key : A -> Z) (id : Z) (l : list A) :
  existsb (fun x => key x =? id) l = true <-> exists x, In x l /\ key x = id.
Proof.
  rewrite existsb_exists. split; intros (x & Hx & E); exists x; split; auto.
  - apply Z.eqb_eq. exact E.
  - apply Z.eqb_eq. exact E.
Qed.

Lemma insert_exercise_tables (name bp eqp notes sub : string) (d d' : db) (id : Z) :
  insert_exercise name bp eqp notes sub d = Ok (id, d') ->
  sessions d' = sessions d /\ sets d' = sets d
  /\ exercises d' = (exercises d ++
       [ {| ex_id := id; ex_name := name; ex_body_part := bp; ex_equipment := eqp;
            ex_notes := notes; ex_subgroup := sub |} ])%list
  /\ id = next_rowid (seq_exercises d) (map ex_id (exercises d)).
Proof.
  unfold insert_exercise.
  destruct (existsb _ _); [discriminate|].
  intros H. injection H as <- <-. simpl. auto.
Qed.

Lemma insert_exercise_no_orphans (name bp eqp notes sub : string) (d d' : db) (id : Z) :
  insert_exercise name bp eqp notes sub d = Ok (id, d') -> no_orphans d -> no_orphans d'.
Proof.
  intros H [Hs Ht]. apply insert_exercise_tables in H as (Es & Et & Ee & _).
  split.
  - rewrite Es, Ee. intros s Hin. destruct (Hs s Hin) as (e & He & E).
    exists e. split; [apply in_or_app; auto | exact E].
  - rewrite Es, Et. exact Ht.
Qed.

Lemma add_exercise_insert (name bp eqp notes sub : string) (d d' : db) (id : Z) :
  add_exercise name bp eqp notes sub d = Ok (id, d') ->
  insert_exercise (PyStr.strip name) (PyStr.strip bp) (PyStr.strip eqp)
                  (PyStr.strip notes) (PyStr.strip sub) d = Ok (id, d').
Proof.
  unfold add_exercise.
  destruct (insert_exercise _ _ _ _ _ d) as [r|[]]; try discriminate.
  intros H. injection H as ->. reflexivity.
Qed.

Lemma ensure_preloaded_no_orphans (d : db) : no_orphans d -> no_orphans (ensure_preloaded d).
Proof.
  unfold ensure_preloaded. destruct (exercises d); [|auto].
  generalize PRELOADED_EXERCISES. intros l. revert d.
  induction l as [|[[[[name bp] eqp] notes] sub] l IH]; intros d Hd; simpl; [exact Hd|].
  apply IH.
  destruct (insert_exercise name bp eqp notes sub d) as [[id d']|e] eqn:E; [|exact Hd].
  exact (insert_exercise_no_orphans _ _ _ _ _ _ _ _ E Hd).
Qed.

Lemma update_exercise_no_orphans (id : Z) (name bp eqp notes sub : string) (d d' : db) :
  update_exercise id name bp eqp notes sub d = Ok d' -> no_orphans d -> no_orphans d'.
Proof.
  unfold update_exercise. destruct (_ && _); [discriminate|].
  intros H [Hs Ht]. injection H as <-. split; simpl; [|exact Ht].
  intros s Hin. destruct (Hs s Hin) as (e & He & E).
  eexists. split.
  - apply in_map_iff. exists e. split; [reflexivity | exact He].
  - destruct (ex_id e =? id); exact E.
Qed.

Lemma delete_exercise_no_orphans (id : Z) (d : db) :
  no_orphans d -> no_orphans (delete_exercise id d).
Proof.
  intros [Hs Ht]. unfold delete_exercise.
  destruct (has_exercise id d); [|split; assumption].
  split; simpl.
  - intros s Hin. apply filter_In in Hin as [Hin Hne].
    destruct (Hs s Hin) as (e & He & E).
    exists e. split; [|exact E].
    apply filter_In. split; [exact He|]. rewrite E. exact Hne.
  - intros t Hin. apply filter_In in Hin as [Hin Hkeep].
    destruct (Ht t Hin) as (s & Hsin & E).
    exists s. split; [|exact E].
    apply filter_In. split; [exact Hsin|].
    destruct (se_exercise_id s =? id) eqn:Hid; [|reflexivity].
    apply negb_true_iff in Hkeep.
    assert (Hex : existsb (fun s0 => se_id s0 =? st_session_id t)
                    (filter (fun s0 => se_exercise_id s0 =? id) (sessions d)) = true).
    { apply existsb_exists. exists s. split.
      - apply filter_In. auto.
      - apply Z.eqb_eq. exact E. }
    congruence.
Qed.

Lemma add_session_tables (exercise_id : Z) (date_str notes : string) (d d' : db) (id : Z) :
  add_session exercise_id date_str notes d = Ok (id, d') ->
  has_exercise exercise_id d = true
  /\ exercises d' = exercises d /\ sets d' = sets d
  /\ sessions d' = (sessions d ++
       [ {| se_id := id; se_exercise_id := exercise_id; se_date := date_str;
            se_notes := PyStr.strip notes |} ])%list
  /\ id = next_rowid (seq_sessions d) (map se_id (sessions d)).
Proof.
  unfold add_session. destruct (has_exercise exercise_id d); [|discriminate].
  intros H. injection H as <- <-. simpl. auto.
Qed.

Lemma add_session_no_orphans (exercise_id : Z) (date_str notes : string) (d d' : db) (id : Z) :
  add_session exercise_id date_str notes d = Ok (id, d') -> no_orphans d -> no_orphans d'.
Proof.
  intros H [Hs Ht]. apply add_session_tables in H as (Hex & Ee & Et & Es & _).
  split.
  - rewrite Ee, Es. intros s Hin. apply in_app_or in Hin as [Hin|[<-|[]]]; [auto|].
    simpl. apply existsb_id_In in Hex. exact Hex.
  - rewrite Et, Es. intros t Hin. destruct (Ht t Hin) as (s & Hsin & E).
    exists s. split; [apply in_or_app; auto | exact E].
Qed.

Lemma delete_session_no_orphans (sid : Z) (d : db) :
  no_orphans d -> no_orphans (delete_session sid d).
Proof.
  intros [Hs Ht]. unfold delete_session.
  destruct (has_session sid d); [|split; assumption].
  split; simpl.
  - intros s Hin. apply filter_In in Hin as [Hin _]. auto.
  - intros t Hin. apply filter_In in Hin as [Hin Hne].
    destruct (Ht t Hin) as (s & Hsin & E).
    exists s. split; [|exact E].
    apply filter_In. split; [exact Hsin|]. rewrite E. exact Hne.
Qed.

Section StoreFacts.
Context {R : Runtime}.

(** What a successful [add_set] appended. *)
Lemma add_set_tables (sid idx : Z) (weight reps rir : pyval) (unit_ : string)
      (d d' : db) (id : Z) :
  add_set sid idx weight reps rir unit_ d = Ok (id, d') ->
  exists w r i,
    py_float weight = Ok w /\ py_int reps = Ok r /\ rir_param rir = Ok i
    /\ is_nan w = false /\ has_session sid d = true
    /\ exercises d' = exercises d /\ sessions d' = sessions d
    /\ sets d' = (sets d ++
         [ {| st_id := id; st_session_id := sid; st_set_index := idx;
              st_weight := w; st_reps := r; st_rir := i; st_unit := unit_ |} ])%list
    /\ id = next_rowid (seq_sets d) (map st_id (sets d)).
Proof.
  unfold add_set, bind, bind_int.
  destruct (py_float weight) as [w|]; [|discriminate].
  destruct (py_int reps) as [r|]; [|discriminate].
  destruct (rir_param rir) as [i|]; [|discriminate].
  destruct (_ && _); [|discriminate].
  intros H. exists w, r, i.
  destruct i as [n|].
  - destruct ((- 2 ^ 63 <=? n) && (n <? 2 ^ 63)); [|discriminate].
    destruct (is_nan w); [discriminate|].
    destruct (has_session sid d); [|discriminate].
    injection H as <- <-. simpl. repeat split; reflexivity.
  - destruct (is_nan w); [discriminate|].
    destruct (has_session sid d); [|discriminate].
    injection H as <- <-. simpl. repeat split; reflexivity.
Qed.

Lemma add_set_no_orphans (sid idx : Z) (weight reps rir : pyval) (unit_ : string)
      (d d' : db) (id : Z) :
  add_set sid idx weight reps rir unit_ d = Ok (id, d') -> no_orphans d -> no_orphans d'.
Proof.
  intros H [Hs Ht].
  apply add_set_tables in H as (w & r & i & _ & _ & _ & _ & Hex & Ee & Es & Et & _).
  split.
  - rewrite Ee, Es. exact Hs.
  - rewrite Es, Et. intros t Hin. apply in_app_or in Hin as [Hin|[<-|[]]]; [auto|].
    simpl. apply existsb_id_In in Hex. exact Hex.
Qed.

Lemma db_step_no_orphans (d d' : db) : db_step d d' -> no_orphans d -> no_orphans d'.
Proof.
  intros Hstep Hd. destruct Hstep.
  - apply ensure_preloaded_no_orphans. exact Hd.
  - eapply insert_exercise_no_orphans; [eapply add_exercise_insert; eassumption | exact Hd].
  - eapply update_exercise_no_orphans; eassumption.
  - apply delete_exercise_no_orphans. exact Hd.
  - eapply add_session_no_orphans; eassumption.
  - eapply add_set_no_orphans; eassumption.
  - apply delete_session_no_orphans. exact Hd.
Qed.

Lemma reachable_no_orphans (d : db) : reachable d -> no_orphans d.
Proof.
  induction 1 as [|d d' _ IH Hstep].
  - split; intros x [].
  - exact (db_step_no_orphans _ _ Hstep IH).
Qed.

Lemma filter_nil_iff {A : Type} (f : A -> bool) (l : list A) :
  filter f l = [] <-> forall x, In x l -> f x = false.
Proof.
  induction l as [|y l IH]; simpl.
  - split; [intros _ x [] | reflexivity].
  - destruct (f y) eqn:Hy; split.
    + discriminate.
    + intros H. specialize (H y (or_introl eq_refl)). congruence.
    + intros H x [<-|Hx]; [exact Hy | apply IH; assumption].
    + intros H. apply IH. intros x Hx. apply H. auto.
Qed.

(** C5: in every store the program can reach no session or set is
    orphaned; deleting an exercise leaves no session of it, removes every
    set of a deleted session and keeps the store free of orphans; deleting
    a session leaves no set of it. *)
Theorem cascade_closure (d : db) :
  reachable d ->
  no_orphans d
  /\ (forall id,
        get_sessions_for_exercise id (delete_exercise id d) = []
        /\ (forall e, In e (exercises (delete_exercise id d)) -> ex_id e <> id)
        /\ (forall s t,
              In s (sessions d) -> ~ In s (sessions (delete_exercise id d)) ->
              In t (sets (delete_exercise id d)) -> st_session_id t <> se_id s)
        /\ no_orphans (delete_exercise id d))
  /\ (forall sid,
        get_sets_for_session sid (delete_session sid d) = []
        /\ (forall s, In s (sessions (delete_session sid d)) -> se_id s <> sid)
        /\ no_orphans (delete_session sid d)).
Proof.
  intros Hr. pose proof (reachable_no_orphans d Hr) as Hd.
  split; [exact Hd|]. split.
  - intros id. split; [|split; [|split]].
    + unfold get_sessions_for_exercise.
      assert (E : filter (fun s => se_exercise_id s =? id)
                    (sessions (delete_exercise id d)) = []).
      { apply filter_nil_iff. intros s Hin. unfold delete_exercise in Hin.
        destruct (has_exercise id d) eqn:Hex; simpl in Hin.
        - apply filter_In in Hin as [_ Hne]. apply negb_true_iff. exact Hne.
        - destruct Hd as [Hs _]. destruct (Hs s Hin) as (e & He & E).
          destruct (se_exercise_id s =? id) eqn:Hid; [|reflexivity].
          apply Z.eqb_eq in Hid.
          assert (has_exercise id d = true).
          { apply existsb_id_In. exists e. split; [exact He | congruence]. }
          congruence. }
      rewrite E. reflexivity.
    + intros e Hin. unfold delete_exercise in Hin.
      destruct (has_exercise id d) eqn:Hex; simpl in Hin.
      * apply filter_In in Hin as [_ Hne]. apply negb_true_iff, Z.eqb_neq in Hne. exact Hne.
      * intros E. assert (has_exercise id d = true) by (apply existsb_id_In; eauto).
        congruence.
    + intros s t Hs Hgone Ht E. unfold delete_exercise in Hgone, Ht.
      destruct (has_exercise id d); simpl in Hgone, Ht; [|contradiction].
      apply filter_In in Ht as [_ Hkeep]. apply negb_true_iff in Hkeep.
      assert (Hid : (se_exercise_id s =? id) = true).
      { destruct (se_exercise_id s =? id) eqn:Hid; [reflexivity|].
        exfalso. apply Hgone. apply filter_In. rewrite Hid. auto. }
      assert (Hex : existsb (fun s0 => se_id s0 =? st_session_id t)
                      (filter (fun s0 => se_exercise_id s0 =? id) (sessions d)) = true).
      { apply existsb_exists. exists s. split.
        - apply filter_In. auto.
        - apply Z.eqb_eq. symmetry. exact E. }
      congruence.
    + apply delete_exercise_no_orphans. exact Hd.
  - intros sid. split; [|split].
    + unfold get_sets_for_session.
      assert (E : filter (fun t => st_session_id t =? sid)
                    (sets (delete_session sid d)) = []).
      { apply filter_nil_iff. intros t Hin. unfold delete_session in Hin.
        destruct (has_session sid d) eqn:Hex; simpl in Hin.
        - apply filter_In in Hin as [_ Hne]. apply negb_true_iff. exact Hne.
        - destruct Hd as [_ Ht]. destruct (Ht t Hin) as (s & Hs & E).
          destruct (st_session_id t =? sid) eqn:Hid; [|reflexivity].
          apply Z.eqb_eq in Hid.
          assert (has_session sid d = true).
          { apply existsb_id_In. exists s. split; [exact Hs | congruence]. }
          congruence. }
      rewrite E. reflexivity.
    + intros s Hin. unfold delete_session in Hin.
      destruct (has_session sid d) eqn:Hex; simpl in Hin.
      * apply filter_In in Hin as [_ Hne]. apply negb_true_iff, Z.eqb_neq in Hne. exact Hne.
      * intros E. assert (has_session sid d = true) by (apply existsb_id_In; eauto).
        congruence.
    + apply delete_session_no_orphans. exact Hd.
Qed.

End StoreFacts.

Lemma sample_db_reachable : reachable (R := py_runtime) sample_db.
Proof.
  eapply reach_step.
  - eapply reach_step.
    + eapply reach_step; [apply reach_empty | apply step_ensure_preloaded].
    + eapply (step_add_session _ 1 "2024-01-10" ""). vm_compute. reflexivity.
  - eapply (step_add_set _ 1 1 (VStr "100") (VStr "8") (VStr "2") "lbs").
    vm_compute. reflexivity.
Defined.

Lemma cascade_closure_witness :
  reachable (R := py_runtime) sample_db
  /\ get_sessions_for_exercise 1 sample_db = [(1, "2024-01-10", "")]
  /\ get_sessions_for_exercise 1 (delete_exercise 1 sample_db) = []
  /\ sets (delete_exercise 1 sample_db) = []
  /\ no_orphans (delete_exercise 1 sample_db).
Proof.
  split; [exact sample_db_reachable|].
  split; [vm_compute; reflexivity|].
  destruct (cascade_closure (R := py_runtime) sample_db sample_db_reachable)
    as (_ & Hdel & _).
  destruct (Hdel 1) as (H1 & _ & _ & H4).
  split; [exact H1|]. split; [vm_compute; reflexivity | exact H4].
Defined.

(** ** The last set of an exercise *)

Lemma in_sets_of_exercise (eid : Z) (d : db) (t : set_row) (s : session) :
  In (t, s) (sets_of_exercise eid d)
  <-> In t (sets d) /\ In s (sessions d)
      /\ se_id s = st_session_id t /\ se_exercise_id s = eid.
Proof.
  unfold sets_of_exercise. rewrite in_flat_map. split.
  - intros (t' & Ht & Hin). apply in_map_iff in Hin as (s' & E & Hs).
    injection E as <- <-. apply filter_In in Hs as [Hs Hb].
    apply andb_true_iff in Hb as [H1 H2].
    apply Z.eqb_eq in H1, H2. auto.
  - intros (Ht & Hs & E1 & E2). exists t. split; [exact Ht|].
    apply in_map_iff. exists s. split; [reflexivity|].
    apply filter_In. split; [exact Hs|].
    apply andb_true_iff. split; apply Z.eqb_eq; assumption.
Qed.

Lemma last_set_le_total (a b : set_row * session) :
  last_set_le a b = true \/ last_set_le b a = true.
Proof.
  unfold last_set_le. rewrite (cmp_antisym (se_date (snd a)) (se_date (snd b))).
  destruct (PyStr.cmp (se_date (snd a)) (se_date (snd b))); simpl; auto.
  destruct (Z.leb_spec (st_set_index (fst b)) (st_set_index (fst a))); [auto|].
  right. apply Z.leb_le. lia.
Qed.

Lemma last_set_le_trans (a b c : set_row * session) :
  last_set_le a b = true -> last_set_le b c = true -> last_set_le a c = true.
Proof.
  unfold last_set_le.
  destruct (PyStr.cmp (se_date (snd a)) (se_date (snd b))) eqn:Hab; try discriminate;
  destruct (PyStr.cmp (se_date (snd b)) (se_date (snd c))) eqn:Hbc; try discriminate;
  intros H1 H2.
  - apply cmp_eq in Hab, Hbc. rewrite Hab, Hbc, cmp_refl.
    apply Z.leb_le. apply Z.leb_le in H1, H2. lia.
  - apply cmp_eq in Hab. rewrite Hab, Hbc. reflexivity.
  - apply cmp_eq in Hbc. rewrite <- Hbc, Hab. reflexivity.
  - apply cmp_gt_lt in Hab, Hbc.
    pose proof (cmp_lt_trans _ _ _ Hbc Hab) as H. apply cmp_gt_lt in H.
    rewrite H. reflexivity.
Qed.




(** C9: an exercise no set belongs to (it has no session, or its sessions
    have no sets) yields the tuple [(None, None, None, None)], not [None]. *)
Theorem get_last_set_for_exercise_no_data (eid : Z) (d : db) :
  (forall t s, In t (sets d) -> In s (sessions d) ->
               se_id s = st_session_id t -> se_exercise_id s <> eid) ->
  get_last_set_for_exercise eid d = OTuple [VNone; VNone; VNone; VNone]
  /\ get_last_set_for_exercise eid d <> ONone.
Proof.
  intros H.
  assert (E : sets_of_exercise eid d = []).
  { destruct (sets_of_exercise eid d) as [|[t s] l] eqn:E; [reflexivity|].
    assert (Hin : In (t, s) (sets_of_exercise eid d)) by (rewrite E; left; reflexivity).
    apply in_sets_of_exercise in Hin as (Ht & Hs & E1 & E2).
    destruct (H t s Ht Hs E1 E2). }
  unfold get_last_set_for_exercise. rewrite E. simpl.
  split; [reflexivity | discriminate].
Qed.

Lemma get_last_set_for_exercise_no_data_witness :
  get_last_set_for_exercise 2 sample_db = OTuple [VNone; VNone; VNone; VNone]
  /\ get_last_set_for_exercise 2 sample_db <> ONone.
Proof.
  apply (get_last_set_for_exercise_no_data 2 sample_db).
  intros t s Ht Hs E.
  vm_compute in Ht. destruct Ht as [<-|[]].
  vm_compute in Hs. destruct Hs as [<-|[]].
  simpl. discriminate.
Defined.

(** ** Listing the exercises *)

Lemma exercise_le_iff (a b : exercise_row) : exercise_le a b = true <-> nocase_le a b.
Proof.
  unfold exercise_le, nocase_le.
  destruct (PyStr.cmp_nocase (row_body_part a) (row_body_part b)).
  - destruct (PyStr.cmp_nocase (row_name a) (row_name b)); split; intros H;
      try reflexivity; try discriminate.
    + right. split; [reflexivity | discriminate].
    + right. split; [reflexivity | discriminate].
    + destruct H as [H|[_ H]]; [discriminate | congruence].
  - split; auto.
  - split; [discriminate|]. intros [H|[H _]]; discriminate.
Qed.

Lemma exercise_le_total (a b : exercise_row) :
  exercise_le a b = true \/ exercise_le b a = true.
Proof.
  unfold exercise_le, PyStr.cmp_nocase.
  rewrite (cmp_antisym (PyStr.lowers (row_body_part a)) (PyStr.lowers (row_body_part b))).
  destruct (PyStr.cmp (PyStr.lowers (row_body_part a)) (PyStr.lowers (row_body_part b)));
    simpl; auto.
  rewrite (cmp_antisym (PyStr.lowers (row_name a)) (PyStr.lowers (row_name b))).
  destruct (PyStr.cmp (PyStr.lowers (row_name a)) (PyStr.lowers (row_name b))); simpl; auto.
Qed.

Lemma exercise_le_trans (a b c : exercise_row) :
  exercise_le a b = true -> exercise_le b c = true -> exercise_le a c = true.
Proof.
  unfold exercise_le, PyStr.cmp_nocase.
  destruct (PyStr.cmp (PyStr.lowers (row_body_part a)) (PyStr.lowers (row_body_part b)))
    eqn:Hab; try discriminate;
  destruct (PyStr.cmp (PyStr.lowers (row_body_part b)) (PyStr.lowers (row_body_part c)))
    eqn:Hbc; try discriminate; intros H1 H2.
  - apply cmp_eq in Hab, Hbc. rewrite Hab, Hbc, cmp_refl.
    change (PyStr.leb (PyStr.lowers (row_name a)) (PyStr.lowers (row_name c)) = true).
    apply (leb_trans _ (PyStr.lowers (row_name b))); assumption.
  - apply cmp_eq in Hab. rewrite Hab, Hbc. reflexivity.
  - apply cmp_eq in Hbc. rewrite <- Hbc, Hab. reflexivity.
  - rewrite (cmp_lt_trans _ _ _ Hab Hbc). reflexivity.
Qed.

Lemma max_text_none (l : list string) : max_text l = None <-> l = [].
Proof.
  destruct l as [|x l]; simpl; [split; reflexivity|].
  destruct (max_text l); split; discriminate.
Qed.

Lemma max_text_some (l : list string) (m : string) :
  max_text l = Some m ->
  In m l /\ forall x, In x l -> PyStr.leb x m = true.
Proof.
  revert m. induction l as [|y l IH]; simpl; [discriminate|].
  intros m. destruct (max_text l) as [m'|] eqn:E.
  - destruct (IH m' eq_refl) as [Hin Hmax].
    destruct (PyStr.ltb y m') eqn:Hlt; intros H; injection H as <-.
    + split; [auto|]. intros x [<-|Hx]; [apply ltb_true_leb; exact Hlt | auto].
    + split; [auto|]. apply ltb_false_leb in Hlt.
      intros x [<-|Hx].
      * unfold PyStr.leb. rewrite cmp_refl. reflexivity.
      * apply (leb_trans _ m'); auto.
  - intros H. injection H as <-. apply max_text_none in E. subst l.
    split; [auto|]. intros x [<-|[]]. unfold PyStr.leb. rewrite cmp_refl. reflexivity.
Qed.

Lemma in_get_exercises (d : db) (row : exercise_row) :
  In row (get_exercises d) <-> exists e, In e (exercises d) /\ row = exercise_row_of d e.
Proof.
  unfold get_exercises. split.
  - intros H. apply (Permutation_in _ (order_by_perm exercise_le _)) in H.
    apply in_map_iff in H as (e & E & He). eauto.
  - intros (e & He & ->).
    apply (Permutation_in _ (Permutation_sym (order_by_perm exercise_le _))).
    apply in_map. exact He.
Qed.

Lemma next_rowid_above (seq : Z) (ids : list Z) (i : Z) :
  In i ids -> i < next_rowid seq ids.
Proof.
  unfold next_rowid. induction ids as [|j ids IH]; simpl; [intros []|].
  intros [->|H]; [lia|]. specialize (IH H). lia.
Qed.



(** ** Storing the RIR *)

Section RirFacts.
Context {R : Runtime}.

Lemma rir_param_blank (rir : pyval) : blank_rir rir -> rir_param rir = Ok None.
Proof.
  intros [->|(s & -> & Hs)]; [reflexivity|].
  unfold rir_param. simpl.
  rewrite (proj2 (strip_empty_iff s) Hs). reflexivity.
Qed.

Lemma rir_param_other (rir : pyval) :
  ~ blank_rir rir -> rir_param rir = (n <- py_int rir ;; Ok (Some n)).
Proof.
  intros Hnb. unfold rir_param.
  destruct rir as [|n|f|s]; simpl; try reflexivity.
  - destruct Hnb. left. reflexivity.
  - destruct (PyStr.strip s =? "")%string eqn:E; [|reflexivity].
    apply String.eqb_eq, strip_empty_iff in E.
    destruct Hnb. right. eauto.
Qed.


End RirFacts.


(** ** The pending buffer *)

Section BufferFacts.
Context {R : Runtime}.

Lemma renumber_from_idx (items : list tree_item) (i : Z) :
  map b_idx (map fst (renumber_from i items))
  = map (fun k => i + Z.of_nat k) (seq 0 (List.length items)).
Proof.
  revert i. induction items as [|item rest IH]; intros i; simpl; [reflexivity|].
  f_equal; [lia|].
  rewrite IH, <- seq_shift, map_map. apply map_ext. intros k. lia.
Qed.

Lemma renumber_from_payload (items : list tree_item) (rows : list buf_row) (i : Z) :
  Forall2 displays items rows ->
  map payload (map fst (renumber_from i items)) = map read_back rows.
Proof.
  intros H. revert i. induction H as [|item row items rows Hd _ IH]; intros i; simpl.
  - reflexivity.
  - rewrite IH. f_equal.
    destruct Hd as (_ & Hw & Hr & Hi & Hu).
    unfold payload, read_back. simpl. rewrite Hw, Hr, Hi, Hu. reflexivity.
Qed.

Lemma renumber_from_iid (items : list tree_item) (i : Z) :
  map iid (map snd (renumber_from i items)) = map iid items.
Proof.
  revert i. induction items as [|item rest IH]; intros i; simpl; [reflexivity|].
  rewrite IH. reflexivity.
Qed.

Lemma renumber_from_displays (items : list tree_item) (i : Z) :
  Forall2 displays (map snd (renumber_from i items)) (map fst (renumber_from i items)).
Proof.
  revert i. induction items as [|item rest IH]; intros i; simpl; constructor.
  - repeat split.
  - apply IH.
Qed.

(** Deleting the one selected item drops it and keeps the others in
    place. *)
Lemma filter_selected (items : list tree_item) (k : nat) (item : tree_item) :
  NoDup (map iid items) -> nth_error items k = Some item ->
  filter (fun it => negb (existsb (Z.eqb (iid it)) [iid item])) items
  = (firstn k items ++ skipn (S k) items)%list.
Proof.
  revert k. induction items as [|x items IH]; intros k Hnd Hk.
  - destruct k; discriminate.
  - simpl in Hnd. inversion Hnd as [|? ? Hnotin Hnd']; subst.
    destruct k as [|k]; simpl in Hk |- *.
    + injection Hk as ->. rewrite Z.eqb_refl. simpl.
      apply forallb_filter_id. apply forallb_forall. intros y Hy.
      rewrite orb_false_r. apply negb_true_iff, Z.eqb_neq.
      intros E. apply Hnotin. rewrite <- E. apply in_map. exact Hy.
    + assert (Hne : (iid x =? iid item) = false).
      { apply Z.eqb_neq. intros E. apply Hnotin. rewrite E.
        apply in_map. apply (nth_error_In _ _ Hk). }
      rewrite Hne. simpl. f_equal. apply IH; assumption.
Qed.

Lemma Forall2_drop {A B : Type} (P : A -> B -> Prop) (l : list A) (l' : list B) (k : nat) :
  Forall2 P l l' ->
  Forall2 P (firstn k l ++ skipn (S k) l) (firstn k l' ++ skipn (S k) l').
Proof.
  intros H. revert k. induction H as [|x y l l' Hxy H IH]; intros k.
  - destruct k; constructor.
  - destruct k as [|k]; simpl; [exact H|].
    constructor; [exact Hxy | apply IH].
Qed.

Lemma length_drop {A : Type} (l : list A) (k : nat) :
  (k < List.length l)%nat ->
  List.length (firstn k l ++ skipn (S k) l) = (List.length l - 1)%nat.
Proof.
  intros H. rewrite length_app, length_firstn, length_skipn. lia.
Qed.

Lemma filter_iid_NoDup (f : tree_item -> bool) (items : list tree_item) :
  NoDup (map iid items) -> NoDup (map iid (filter f items)).
Proof.
  induction items as [|x l IH]; simpl; [constructor|].
  intros Hnd. inversion Hnd as [|? ? Hnotin Hnd']; subst.
  destruct (f x); simpl; [|auto].
  constructor; [|auto].
  intros Hin. apply Hnotin. apply in_map_iff in Hin as (y & E & Hy).
  apply filter_In in Hy as [Hy _]. rewrite <- E. apply in_map. exact Hy.
Qed.

Lemma in_sync_empty (a : app) :
  sets_tree a = [] -> set_buffer a = [] -> in_sync a.
Proof.
  intros Ht Hb. unfold in_sync. rewrite Ht, Hb. repeat constructor.
Qed.

Lemma remove_set_in_sync (sel : list Z) (a : app) :
  in_sync a -> in_sync (remove_set sel a).
Proof.
  intros (Hdisp & Hnd & Hlt). unfold remove_set.
  destruct sel as [|i sel]; [split; [|split]; assumption|].
  unfold in_sync, with_sets. cbn [set_buffer sets_tree next_iid].
  split; [apply renumber_from_displays|]. split.
  - rewrite renumber_from_iid. apply filter_iid_NoDup. exact Hnd.
  - rewrite Forall_forall in *. intros x Hx.
    match type of Hx with In _ (map snd (renumber_from 1 ?l)) =>
      assert (Hi : In (iid x) (map iid (map snd (renumber_from 1 l))))
        by (apply in_map; exact Hx) end.
    rewrite renumber_from_iid in Hi. apply in_map_iff in Hi as (y & E & Hy).
    rewrite <- E. apply Hlt. apply filter_In in Hy. tauto.
Qed.

Lemma on_ex_select_in_sync (a : app) : in_sync a -> in_sync (on_ex_select a).
Proof.
  intros H. unfold on_ex_select. destruct (get_selected_exercise a); [|exact H].
  apply in_sync_empty; reflexivity.
Qed.

Lemma refresh_exercises_in_sync (a : app) : in_sync a -> in_sync (refresh_exercises a).
Proof.
  intros H. unfold refresh_exercises.
  destruct (get_exercises (the_db a)); [exact H|].
  apply on_ex_select_in_sync. exact H.
Qed.

Lemma add_set_from_quick_in_sync (a a' : app) :
  in_sync a -> add_set_from_quick a = Ok a' -> in_sync a'.
Proof.
  intros (Hdisp & Hnd & Hlt). unfold add_set_from_quick.
  destruct (validate_weight_reps _ _) as [[weight reps]|e].
  - match goal with |- context [bind ?x _] => destruct x as [rv|] end;
      simpl; [|discriminate].
    intros H. injection H as <-. unfold in_sync. simpl. split; [|split].
    + apply Forall2_app; [exact Hdisp|]. repeat constructor.
    + rewrite map_app. simpl.
      apply Permutation_NoDup with (l := next_iid a :: map iid (sets_tree a)).
      { apply Permutation_cons_append. }
      constructor; [|exact Hnd].
      intros Hin. apply in_map_iff in Hin as (y & E & Hy).
      rewrite Forall_forall in Hlt. specialize (Hlt y Hy). lia.
    + apply Forall_app. split.
      * eapply Forall_impl; [|exact Hlt]. simpl. intros; lia.
      * repeat constructor. simpl. lia.
  - intros H. injection H as <-. split; [|split]; assumption.
Qed.

Lemma save_session_in_sync (a : app) : in_sync a -> in_sync (save_session a).
Proof.
  intros H. unfold save_session.
  destruct (get_selected_exercise a) as [sel|]; [|exact H].
  destruct (negb _); [exact H|].
  destruct (set_buffer a) as [|b0 buf] eqn:Eb; [exact H|]. rewrite <- Eb.
  destruct (add_session _ _ _ _) as [[sid d1]|e1]; [|exact H].
  destruct (add_sets sid (set_buffer a) d1) as [d2 [e2|]]; [exact H|].
  apply refresh_exercises_in_sync, on_ex_select_in_sync, in_sync_empty; reflexivity.
Qed.

Lemma on_session_select_in_sync (sid : Z) (a : app) : in_sync (on_session_select sid a).
Proof.
  unfold on_session_select, in_sync. cbn [set_buffer sets_tree next_iid].
  generalize (map (fun s : Z * spec_float * Z * option Z * string =>
                     let '(idx, weight, reps, rir, unit_) := s in
                     (idx, VFloat weight, VInt reps, opt_int rir, unit_))
                  (get_sets_for_session sid (the_db a))).
  intros cells. generalize (next_iid a). intros n.
  assert (G : forall (start : nat),
    let items := map (fun ic : Z * (Z * pyval * pyval * pyval * string) =>
                        let '(i, (idx, weight, reps, rir, unit_)) := ic in
                        {| iid := i; c_idx := idx; c_weight := weight; c_reps := reps;
                           c_rir := rir_cell rir; c_unit := unit_ |})
                     (combine (map (fun k => n + Z.of_nat k) (seq start (List.length cells)))
                              cells) in
    Forall2 displays items
      (map (fun c : Z * pyval * pyval * pyval * string =>
              let '(idx, weight, reps, rir, unit_) := c in
              {| b_idx := idx; b_weight := weight; b_reps := reps; b_rir := rir;
                 b_unit := unit_ |}) cells)
    /\ map iid items = map (fun k => n + Z.of_nat k) (seq start (List.length cells))).
  { induction cells as [|[[[[idx weight] reps] rir] unit_] cells IH]; intros start; simpl.
    - split; constructor.
    - destruct (IH (S start)) as [H1 H2]. split.
      + constructor; [repeat split | exact H1].
      + f_equal. exact H2. }
  destruct (G 0%nat) as [H1 H2]. split; [exact H1|]. split.
  - rewrite H2. apply NoDup_map_NoDup_ForallPairs; [|apply seq_NoDup].
    intros x y _ _ E. lia.
  - rewrite Forall_forall. intros x Hx.
    assert (Hi : In (iid x) (map (fun k => n + Z.of_nat k) (seq 0 (List.length cells))))
      by (rewrite <- H2; apply in_map; exact Hx).
    apply in_map_iff in Hi as (k & E & Hk). apply in_seq in Hk. lia.
Qed.

Lemma new_app_in_sync (d : db) (today : string) : in_sync (new_app d today).
Proof.
  unfold new_app. apply refresh_exercises_in_sync, in_sync_empty; reflexivity.
Qed.

Lemma pick_exercise_in_sync (i : Z) (a : app) : in_sync a -> in_sync (pick_exercise i a).
Proof. intros H. unfold pick_exercise. apply on_ex_select_in_sync. exact H. Qed.

Lemma type_quick_in_sync (w r i : string) (a : app) : in_sync a -> in_sync (type_quick w r i a).
Proof. intros H. exact H. Qed.

Create HintDb sync.
#[local] Hint Resolve new_app_in_sync type_quick_in_sync pick_exercise_in_sync
  add_set_from_quick_in_sync remove_set_in_sync save_session_in_sync
  on_session_select_in_sync : sync.

(** In every state of the set pane the Treeview shows the buffer. *)
Lemma app_reachable_in_sync (a : app) : app_reachable a -> in_sync a.
Proof.
  induction 1 as [d today|a a' _ IH Hstep]; [auto with sync|].
  destruct Hstep; eauto with sync.
Qed.

(** Whatever the selection, the sets that remain are numbered from 1
    without gaps. *)
Lemma remove_set_contiguous (sel : list Z) (a : app) :
  sel <> [] ->
  map b_idx (set_buffer (remove_set sel a))
  = map Z.of_nat (seq 1 (List.length (set_buffer (remove_set sel a)))).
Proof.
  intros Hsel. unfold remove_set. destruct sel as [|i sel]; [congruence|].
  unfold with_sets. cbn [set_buffer].
  rewrite renumber_from_idx, !length_map.
  assert (E : forall (items : list tree_item) (j : Z),
             List.length (renumber_from j items) = List.length items).
  { induction items as [|x l IH]; intros j; simpl; [reflexivity | rewrite IH; reflexivity]. }
  rewrite E, <- seq_shift, map_map. apply map_ext. intros j. lia.
Qed.

(** C7: with the Treeview showing a buffer of N sets, removing the
    selected set leaves the others in their order, with what Tk read back
    as their payload, numbered 1..N-1. *)
Theorem remove_set_reindexes (a : app) (k : nat) (item : tree_item) :
  in_sync a ->
  nth_error (sets_tree a) k = Some item ->
  map b_idx (set_buffer (remove_set [iid item] a))
  = map Z.of_nat (seq 1 (List.length (set_buffer a) - 1))
  /\ map payload (set_buffer (remove_set [iid item] a))
     = map read_back (firstn k (set_buffer a) ++ skipn (S k) (set_buffer a))
  /\ in_sync (remove_set [iid item] a).
Proof.
  intros (Hdisp & Hnd & Hlt) Hk.
  assert (Hlen : List.length (sets_tree a) = List.length (set_buffer a))
    by (eapply Forall2_length; exact Hdisp).
  assert (Hkl : (k < List.length (sets_tree a))%nat)
    by (apply nth_error_Some; congruence).
  unfold remove_set, with_sets. cbn [set_buffer sets_tree next_iid].
  rewrite (filter_selected _ _ _ Hnd Hk).
  split; [|split].
  - rewrite renumber_from_idx, length_drop, Hlen by exact Hkl.
    rewrite <- seq_shift, map_map. apply map_ext. intros j. lia.
  - apply renumber_from_payload. apply Forall2_drop. exact Hdisp.
  - rewrite <- (filter_selected _ _ _ Hnd Hk).
    apply (remove_set_in_sync [iid item] a). repeat split; assumption.
Qed.

End BufferFacts.

Lemma three_sets_in_sync : in_sync three_sets.
Proof.
  split; [|split].
  - vm_compute. repeat constructor.
  - vm_compute. repeat constructor; simpl; intuition discriminate.
  - vm_compute. repeat constructor.
Defined.

Lemma remove_set_reindexes_witness :
  in_sync three_sets
  /\ map b_idx (set_buffer three_sets) = [1; 2; 3]
  /\ map b_idx (set_buffer (remove_set (R := py_runtime) [2] three_sets)) = [1; 2]
  /\ map payload (set_buffer (remove_set (R := py_runtime) [2] three_sets))
     = [ (VFloat (S754_finite false 7036874417766400 (-46)), VInt 8, VInt 2, "lbs");
         (VFloat (S754_finite false 8444249301319680 (-47)), VInt 10, VNone, "lbs") ].
Proof.
  split; [exact three_sets_in_sync|]. split; [vm_compute; reflexivity|].
  destruct (remove_set_reindexes (R := py_runtime) three_sets 1
              {| iid := 2; c_idx := 2;
                 c_weight := VFloat (S754_finite false 7212796278210560 (-46));
                 c_reps := VInt 6; c_rir := VInt 1; c_unit := "lbs" |}
              three_sets_in_sync) as (H1 & H2 & _).
  - vm_compute. reflexivity.
  - cbn [iid] in H1, H2. split; [exact H1|]. rewrite H2. vm_compute. reflexivity.
Defined.

(** ** Saving a session *)

Lemma on_ex_select_keeps (a : app) :
  the_db (on_ex_select a) = the_db a /\ dialogs (on_ex_select a) = dialogs a
  /\ (set_buffer a = [] -> set_buffer (on_ex_select a) = []).
Proof.
  unfold on_ex_select. destruct (get_selected_exercise a); simpl; auto.
Qed.

Lemma refresh_exercises_keeps (a : app) :
  the_db (refresh_exercises a) = the_db a /\ dialogs (refresh_exercises a) = dialogs a
  /\ (set_buffer a = [] -> set_buffer (refresh_exercises a) = []).
Proof.
  unfold refresh_exercises. destruct (get_exercises (the_db a)) as [|e rows]; simpl; auto.
  match goal with |- context [on_ex_select ?x] => destruct (on_ex_select_keeps x) as (H1 & H2 & H3) end.
  rewrite H1, H2. simpl. auto.
Qed.

Section SaveFacts.
Context {R : Runtime}.

(** The loop over the buffer inserts a prefix of it: all of it when no
    insert raises, else the sets before the one that raised. *)
Lemma add_sets_prefix (sid : Z) (buf : list buf_row) (d : db) :
  exists (k : nat) (rows : list set_row),
    (k <= List.length buf)%nat
    /\ exercises (fst (add_sets sid buf d)) = exercises d
    /\ sessions (fst (add_sets sid buf d)) = sessions d
    /\ sets (fst (add_sets sid buf d)) = (sets d ++ rows)%list
    /\ Forall2 (stored_as sid) (firstn k buf) rows
    /\ ((snd (add_sets sid buf d) = None /\ k = List.length buf)
        \/ (exists e row,
              snd (add_sets sid buf d) = Some e
              /\ nth_error buf k = Some row
              /\ add_set sid (b_idx row) (b_weight row) (b_reps row) (b_rir row)
                         (b_unit row) (fst (add_sets sid buf d)) = Raise e)).
Proof.
  revert d. induction buf as [|s rest IH]; intros d.
  - exists 0%nat, []. simpl. rewrite app_nil_r.
    split; [lia|]. do 3 (split; [reflexivity|]). split; [constructor | auto].
  - simpl.
    destruct (add_set sid (b_idx s) (b_weight s) (b_reps s) (b_rir s) (b_unit s) d)
      as [[id d']|e] eqn:E.
    + destruct (IH d') as (k & rows & Hk & He & Hs & Ht & Hrows & Hend).
      pose proof (add_set_tables _ _ _ _ _ _ _ _ _ E)
        as (w & r & i & Hw & Hr & Hi & _ & _ & Ee & Es & Et & _).
      eexists (S k), (_ :: rows). split; [simpl; lia|].
      split; [congruence|]. split; [congruence|].
      split; [rewrite Ht, Et, <- app_assoc; reflexivity|].
      split.
      * simpl. constructor; [|exact Hrows]. repeat split; assumption.
      * destruct Hend as [[Hn Hl]|(e & row & Hn & Hnth & Hfail)].
        -- left. split; [exact Hn | simpl; congruence].
        -- right. exists e, row. auto.
    + exists 0%nat, []. simpl. rewrite app_nil_r.
      split; [lia|]. do 3 (split; [reflexivity|]). split; [constructor|].
      right. exists e, s. auto.
Qed.

(** Without a selected exercise, a well-formed date and at least one
    buffered set, nothing is written. *)
Lemma save_session_guards (a : app) :
  get_selected_exercise a = None
  \/ strptime_ymd (PyStr.strip (date_widget a)) = false
  \/ set_buffer a = [] ->
  the_db (save_session a) = the_db a /\ set_buffer (save_session a) = set_buffer a.
Proof.
  unfold save_session. intros H.
  destruct (get_selected_exercise a) as [sel|]; [|split; reflexivity].
  destruct (strptime_ymd (PyStr.strip (date_widget a))); simpl; [|split; reflexivity].
  destruct (set_buffer a) as [|b0 buf] eqn:Eb; [split; [reflexivity | simpl; congruence]|].
  destruct H as [H|[H|H]]; discriminate.
Qed.

(** C1, as the code has it: [save_session] commits the session and then
    the buffered sets one by one.  If the session insert raises, nothing
    is written.  Otherwise the session is stored with the sets that were
    inserted before the first insert that raised: all of them, and the
    buffer is emptied, when none raised; else a proper prefix, and the
    buffer is kept and the error shown. *)
Theorem save_session_prefix (a : app) (sel : exercise_row) :
  get_selected_exercise a = Some sel ->
  strptime_ymd (PyStr.strip (date_widget a)) = true ->
  set_buffer a <> [] ->
  exercises (the_db (save_session a)) = exercises (the_db a)
  /\ ((exists e,
         add_session (row_id sel) (PyStr.strip (date_widget a))
                     (PyStr.strip (note_entry a)) (the_db a) = Raise e
         /\ the_db (save_session a) = the_db a
         /\ set_buffer (save_session a) = set_buffer a
         /\ dialogs (save_session a) = (dialogs a ++ [showerror "Error" (exn_text e)])%list)
      \/ (exists (s : session) (k : nat) (rows : list set_row),
            sessions (the_db (save_session a)) = (sessions (the_db a) ++ [s])%list
            /\ se_exercise_id s = row_id sel
            /\ se_date s = PyStr.strip (date_widget a)
            /\ sets (the_db (save_session a)) = (sets (the_db a) ++ rows)%list
            /\ Forall2 (stored_as (se_id s)) (firstn k (set_buffer a)) rows
            /\ ((k = List.length (set_buffer a)
                 /\ set_buffer (save_session a) = []
                 /\ dialogs (save_session a)
                    = (dialogs a ++ [showinfo "Saved" "Session saved."])%list)
                \/ (exists e row,
                      (k < List.length (set_buffer a))%nat
                      /\ nth_error (set_buffer a) k = Some row
                      /\ add_set (se_id s) (b_idx row) (b_weight row) (b_reps row)
                                 (b_rir row) (b_unit row) (the_db (save_session a)) = Raise e
                      /\ set_buffer (save_session a) = set_buffer a
                      /\ dialogs (save_session a)
                         = (dialogs a ++ [showerror "Error" (exn_text e)])%list)))).
Proof.
  intros Hsel Hdate Hbuf. unfold save_session. rewrite Hsel, Hdate. simpl.
  destruct (set_buffer a) as [|b0 buf] eqn:Eb; [congruence|]. clear Hbuf.
  destruct (add_session (row_id sel) (PyStr.strip (date_widget a))
              (PyStr.strip (note_entry a)) (the_db a)) as [[sid d1]|e] eqn:Es.
  - apply add_session_tables in Es as (_ & Ee1 & Et1 & Es1 & _).
    destruct (add_sets_prefix sid (b0 :: buf) d1)
      as (k & rows & Hk & He & Hs & Ht & Hrows & Hend).
    destruct (add_sets sid (b0 :: buf) d1) as [d2 [e|]] eqn:Ea; simpl in He, Hs, Ht, Hend.
    + simpl. split; [congruence|]. right.
      eexists _, k, rows. split; [rewrite Hs; exact Es1|].
      split; [reflexivity|]. split; [reflexivity|].
      split; [congruence|]. split; [exact Hrows|].
      right. destruct Hend as [[Hn _]|(e' & row & Hn & Hnth & Hfail)]; [discriminate|].
      injection Hn as <-. exists e, row.
      split; [apply (proj1 (nth_error_Some (b0 :: buf) k)); congruence|].
      split; [exact Hnth|]. split; [exact Hfail|]. split; [exact Eb | reflexivity].
    + match goal with |- context [refresh_exercises ?x] =>
        destruct (refresh_exercises_keeps x) as (R1 & R2 & R3) end.
      match type of R1 with context [on_ex_select ?x] =>
        destruct (on_ex_select_keeps x) as (O1 & O2 & O3) end.
      rewrite R1, O1, R2, O2. simpl.
      split; [congruence|]. right.
      eexists _, k, rows. split; [rewrite Hs; exact Es1|].
      split; [reflexivity|]. split; [reflexivity|].
      split; [congruence|]. split; [exact Hrows|].
      left. destruct Hend as [[_ Hl]|(e' & row & Hn & _)]; [|discriminate].
      split; [exact Hl|]. split; [|reflexivity].
      apply R3, O3. reflexivity.
  - simpl. split; [reflexivity|]. left. exists e. auto.
Qed.

End SaveFacts.

Lemma save_session_prefix_witness :
  get_selected_exercise two_sets <> None
  /\ List.length (set_buffer two_sets) = 2%nat
  /\ sessions (the_db (save_session (R := py_runtime) two_sets))
     = [ {| se_id := 1; se_exercise_id := 2; se_date := "2024-01-10"; se_notes := "" |} ]
  /\ map (fun t => (st_session_id t, st_set_index t, st_reps t, st_rir t))
         (sets (the_db (save_session (R := py_runtime) two_sets)))
     = [ (1, 1, 8, Some 2); (1, 2, 6, None) ]
  /\ exercises (the_db (save_session (R := py_runtime) two_sets))
     = exercises (the_db two_sets).
Proof.
  split; [vm_compute; discriminate|].
  split; [reflexivity|].
  split; [vm_compute; reflexivity|].
  split; [vm_compute; reflexivity|].
  destruct (get_selected_exercise two_sets) as [sel|] eqn:E; [|vm_compute in E; discriminate].
  refine (proj1 (save_session_prefix (R := py_runtime) two_sets sel E _ _)).
  - vm_compute. reflexivity.
  - vm_compute. discriminate.
Defined.

(** C1 as stated fails: with two buffered sets of which the second has a
    rep count SQLite cannot hold, saving leaves the session stored with
    the first set only. *)
Lemma save_session_partial_write :
  List.length (set_buffer two_sets_overflow) = 2%nat
  /\ sessions (the_db two_sets_overflow) = []
  /\ sessions (the_db (save_session (R := py_runtime) two_sets_overflow))
     = [ {| se_id := 1; se_exercise_id := 2; se_date := "2024-01-10"; se_notes := "" |} ]
  /\ map (fun t => (st_session_id t, st_set_index t, st_reps t))
         (sets (the_db (save_session (R := py_runtime) two_sets_overflow)))
     = [ (1, 1, 8) ]
  /\ dialogs (save_session (R := py_runtime) two_sets_overflow)
     = [ showerror "Error" "Python int too large to convert to SQLite INTEGER" ]
  /\ ~ saved_atomically (R := py_runtime) two_sets_overflow.
Proof.
  split; [reflexivity|].
  split; [reflexivity|].
  split; [vm_compute; reflexivity|].
  split; [vm_compute; reflexivity|].
  split; [vm_compute; reflexivity|].
  intros [[H _]|(s & rows & _ & Hsets & Hall)].
  - vm_compute in H. discriminate.
  - apply Forall2_length in Hall.
    assert (Hl : List.length (sets (the_db (save_session (R := py_runtime) two_sets_overflow)))
                 = 1%nat) by (vm_compute; reflexivity).
    rewrite Hsets, length_app in Hl.
    change (List.length (set_buffer two_sets_overflow)) with 2%nat in Hall.
    change (List.length (sets (the_db two_sets_overflow))) with 0%nat in Hl.
    lia.
Qed.

(** * Further properties *)

(** ** Trimmed names *)

Lemma rstrip_idem (s : string) : PyStr.rstrip (PyStr.rstrip s) = PyStr.rstrip s.
Proof.
  induction s as [|c r IH]; simpl; [reflexivity|].
  destruct (PyStr.rstrip r) as [|c' r'] eqn:E.
  - destruct (PyStr.is_space c) eqn:Hc; simpl; [reflexivity|].
    rewrite Hc. reflexivity.
  - change (PyStr.rstrip (String c (String c' r')))
      with (match PyStr.rstrip (String c' r') with
            | EmptyString => if PyStr.is_space c then EmptyString else String c EmptyString
            | r0 => String c r0
            end).
    rewrite IH. reflexivity.
Qed.

Lemma lstrip_head (s : string) :
  PyStr.lstrip s = EmptyString
  \/ exists c r, PyStr.lstrip s = String c r /\ PyStr.is_space c = false.
Proof.
  induction s as [|c r IH]; simpl; [left; reflexivity|].
  destruct (PyStr.is_space c) eqn:Hc; [exact IH|].
  right. exists c, r. auto.
Qed.

Lemma rstrip_head (c : ascii) (r : string) :
  PyStr.is_space c = false -> exists r', PyStr.rstrip (String c r) = String c r'.
Proof.
  intros Hc. simpl. destruct (PyStr.rstrip r) as [|c' r'].
  - rewrite Hc. eauto.
  - eauto.
Qed.

Lemma strip_head (s : string) (c : ascii) (r : string) :
  PyStr.strip s = String c r -> PyStr.is_space c = false.
Proof.
  unfold PyStr.strip. destruct (lstrip_head s) as [E|(c0 & r0 & E & Hc)]; rewrite E.
  - discriminate.
  - destruct (rstrip_head c0 r0 Hc) as (r' & E'). rewrite E'.
    intros H. injection H as <- _. exact Hc.
Qed.

(** Trimming a trimmed text changes nothing. *)
Lemma strip_idem (s : string) : PyStr.strip (PyStr.strip s) = PyStr.strip s.
Proof.
  destruct (PyStr.strip s) as [|c r] eqn:E; [reflexivity|].
  pose proof (strip_head s c r E) as Hc.
  unfold PyStr.strip in *. simpl PyStr.lstrip. rewrite Hc.
  rewrite <- E. apply rstrip_idem.
Qed.

(** X1: a name the validator returns is the trimmed input; it is not
    empty, has at most 150 characters, begins with no whitespace, and is
    left as it is by further trimming and by the validator itself. *)
Theorem validate_exercise_name_normal (name t : string) :
  validate_exercise_name name = Ok t ->
  t = PyStr.strip name
  /\ t <> EmptyString
  /\ PyStr.len t <= 150
  /\ PyStr.strip t = t
  /\ (forall c r, t = String c r -> PyStr.is_space c = false)
  /\ validate_exercise_name t = Ok t.
Proof.
  unfold validate_exercise_name.
  destruct (PyStr.truthy name) eqn:Hn; simpl; [|discriminate].
  destruct (PyStr.truthy (PyStr.strip name)) eqn:Hs; simpl; [|discriminate].
  destruct (150 <? PyStr.len (PyStr.strip name)) eqn:Hl; [discriminate|].
  intros H. injection H as <-.
  split; [reflexivity|].
  split; [intros E; rewrite E in Hs; discriminate|].
  split; [apply Z.ltb_ge; exact Hl|].
  split; [apply strip_idem|].
  split; [intros c r E; exact (strip_head name c r E)|].
  rewrite strip_idem, Hs, Hl. reflexivity.
Qed.

Lemma validate_exercise_name_normal_witness :
  validate_exercise_name "  Bench Press " = Ok "Bench Press"
  /\ PyStr.strip "Bench Press" = "Bench Press"
  /\ validate_exercise_name "Bench Press" = Ok "Bench Press".
Proof.
  assert (H : validate_exercise_name "  Bench Press " = Ok "Bench Press") by reflexivity.
  split; [exact H|].
  destruct (validate_exercise_name_normal _ _ H) as (_ & _ & _ & H4 & _ & H6).
  split; assumption.
Defined.

(** ** The pre-filled date *)

Lemma digit_val_digit_char (k : Z) :
  0 <= k <= 9 -> PyParse.digit_val (digit_char k) = Some k.
Proof.
  intros H. unfold PyParse.digit_val. rewrite (code_digit_char k H).
  assert (E1 : (48 <=? 48 + k) = true) by (apply Z.leb_le; lia).
  assert (E2 : (48 + k <=? 57) = true) by (apply Z.leb_le; lia).
  cbv zeta. rewrite E1, E2. cbn [andb]. f_equal. lia.
Qed.

Lemma is_space_digit_char (k : Z) : 0 <= k <= 9 -> PyStr.is_space (digit_char k) = false.
Proof.
  intros H. unfold PyStr.is_space. rewrite (code_digit_char k H).
  repeat match goal with
         | |- context [?a <=? ?b] =>
             let E := fresh in
             destruct (Z.leb_spec a b) as [E|E]; try lia
         | |- context [?a =? ?b] =>
             let E := fresh in
             destruct (Z.eqb_spec a b) as [E|E]; try lia
         end; reflexivity.
Qed.

Lemma two_digit_bounds (n : Z) :
  0 <= n < 100 -> 0 <= n / 10 <= 9 /\ 0 <= n mod 10 <= 9 /\ n = 10 * (n / 10) + n mod 10.
Proof.
  intros H.
  pose proof (Z.div_mod n 10 ltac:(lia)) as E.
  pose proof (Z.mod_pos_bound n 10 ltac:(lia)) as M.
  repeat split; try lia.
Qed.

Lemma take_digits_two (n acc : Z) (rest : string) :
  0 <= n < 100 ->
  PyParse.take_digits 2 (two_digits n rest) acc = Some (100 * acc + n, rest).
Proof.
  intros H. destruct (two_digit_bounds n H) as (Hq & Hr & E).
  unfold two_digits. cbn [PyParse.take_digits].
  rewrite (digit_val_digit_char _ Hq), (digit_val_digit_char _ Hr).
  f_equal. f_equal. lia.
Qed.

Lemma take_digits_year (y : Z) (rest : string) :
  0 <= y <= 9999 ->
  PyParse.take_digits 4 (two_digits (y / 100) (two_digits (y mod 100) rest)) 0
  = Some (y, rest).
Proof.
  intros H.
  pose proof (Z.div_mod y 100 ltac:(lia)) as E.
  pose proof (Z.mod_pos_bound y 100 ltac:(lia)) as M.
  assert (Hq : 0 <= y / 100 < 100) by lia.
  destruct (two_digit_bounds _ Hq) as (Hq1 & Hq2 & Eq).
  destruct (two_digit_bounds _ M) as (Hr1 & Hr2 & Er).
  unfold two_digits. cbn [PyParse.take_digits].
  rewrite !digit_val_digit_char by assumption.
  f_equal. f_equal. lia.
Qed.

Ltac each_nat_below n k :=
  lazymatch k with
  | O => idtac
  | S ?k' => destruct n as [|n]; [|each_nat_below n k']
  end.

Lemma scan_month_two_digits (m : Z) (rest : string) :
  1 <= m <= 12 -> PyParse.scan_month (two_digits m rest) = Some (m, rest).
Proof.
  intros H. assert (E : m = Z.of_nat (Z.to_nat m)) by lia.
  assert (Hn : (Z.to_nat m <= 12)%nat) by lia.
  revert E Hn. generalize (Z.to_nat m). intros n E Hn. subst m.
  each_nat_below n 13%nat; try (exfalso; lia); reflexivity.
Qed.

Lemma scan_day_two_digits (d : Z) (rest : string) :
  1 <= d <= 31 -> PyParse.scan_day (two_digits d rest) = Some (d, rest).
Proof.
  intros H. assert (E : d = Z.of_nat (Z.to_nat d)) by lia.
  assert (Hn : (Z.to_nat d <= 31)%nat) by lia.
  revert E Hn. generalize (Z.to_nat d). intros n E Hn. subst d.
  each_nat_below n 32%nat; try (exfalso; lia); reflexivity.
Qed.

Lemma days_in_month_bound (y m : Z) : 28 <= PyParse.days_in_month y m <= 31.
Proof.
  unfold PyParse.days_in_month.
  destruct (m =? 2); [destruct (PyParse.is_leap y); lia|].
  destruct (_ || _); lia.
Qed.

Lemma strptime_iso_date (y m d : Z) :
  1 <= y <= 9999 -> 1 <= m <= 12 -> 1 <= d <= PyParse.days_in_month y m ->
  PyParse.strptime (iso_date y m d) = true.
Proof.
  intros Hy Hm Hd. pose proof (days_in_month_bound y m) as Hb.
  unfold PyParse.strptime, iso_date.
  rewrite take_digits_year by lia.
  rewrite scan_month_two_digits by lia.
  rewrite scan_day_two_digits by lia.
  apply andb_true_iff. split; apply Z.leb_le; lia.
Qed.

Lemma rstrip_keep (c : ascii) (r : string) :
  PyStr.rstrip r = r -> r <> EmptyString -> PyStr.rstrip (String c r) = String c r.
Proof.
  intros E Hne. simpl. rewrite E. destruct r; [congruence | reflexivity].
Qed.

Lemma strip_iso_date (y m d : Z) :
  0 <= y <= 9999 -> 1 <= m <= 12 -> 1 <= d <= 31 ->
  PyStr.strip (iso_date y m d) = iso_date y m d.
Proof.
  intros Hy Hm Hd.
  pose proof (Z.div_mod y 100 ltac:(lia)) as E.
  pose proof (Z.mod_pos_bound y 100 ltac:(lia)) as M.
  assert (Hq : 0 <= y / 100 < 100) by lia.
  destruct (two_digit_bounds _ Hq) as (Hq1 & _ & _).
  assert (Hd' : 0 <= d < 100) by lia.
  destruct (two_digit_bounds _ Hd') as (_ & Hd2 & _).
  unfold PyStr.strip, iso_date, two_digits.
  cbn [PyStr.lstrip]. rewrite (is_space_digit_char _ Hq1).
  repeat (apply rstrip_keep; [|discriminate]).
  simpl. rewrite (is_space_digit_char _ Hd2). reflexivity.
Qed.

(** X2: from year 1000 on, the text [safe_date_str] writes for a calendar
    date has ten characters, is left as it is by the trimming of
    [save_session], and passes its date check. *)
Theorem safe_date_str_accepted (dt : option date) (now : date) :
  let d := match dt with None => now | Some d => d end in
  1000 <= year d <= 9999 -> 1 <= month d <= 12 ->
  1 <= day d <= PyParse.days_in_month (year d) (month d) ->
  String.length (safe_date_str dt now) = 10%nat
  /\ PyStr.strip (safe_date_str dt now) = safe_date_str dt now
  /\ strptime_ymd (Runtime := py_runtime) (PyStr.strip (safe_date_str dt now)) = true.
Proof.
  intros d Hy Hm Hd. pose proof (days_in_month_bound (year d) (month d)) as Hb.
  unfold safe_date_str. fold d.
  split; [reflexivity|].
  rewrite strip_iso_date by lia.
  split; [reflexivity|].
  apply strptime_iso_date; lia.
Qed.

Lemma safe_date_str_accepted_witness :
  safe_date_str None {| year := 2024; month := 2; day := 29 |} = "2024-02-29"
  /\ strptime_ymd (Runtime := py_runtime)
       (PyStr.strip (safe_date_str None {| year := 2024; month := 2; day := 29 |})) = true.
Proof.
  split; [reflexivity|].
  apply (safe_date_str_accepted None {| year := 2024; month := 2; day := 29 |});
    simpl; try lia.
  vm_compute. split; discriminate.
Defined.

(** ** Keys and counters of the store *)

Ltac conjs := repeat match goal with |- _ /\ _ => split end.

Lemma next_rowid_above_seq (seq : Z) (ids : list Z) : seq < next_rowid seq ids.
Proof.
  unfold next_rowid. induction ids as [|j ids IH]; simpl; lia.
Qed.

Lemma NoDup_snoc {A : Type} (l : list A) (x : A) :
  NoDup l -> ~ In x l -> NoDup (l ++ [x]).
Proof.
  intros Hl Hx. apply Permutation_NoDup with (l := x :: l).
  - apply Permutation_cons_append.
  - constructor; assumption.
Qed.

Lemma NoDup_map_filter {A B : Type} (key : A -> B) (p : A -> bool) (l : list A) :
  NoDup (map key l) -> NoDup (map key (filter p l)).
Proof.
  induction l as [|x l IH]; simpl; [constructor|].
  intros Hnd. inversion Hnd as [|? ? Hnotin Hnd']; subst.
  destruct (p x); simpl; [|auto].
  constructor; [|auto].
  intros Hin. apply Hnotin. apply in_map_iff in Hin as (y & E & Hy).
  apply filter_In in Hy as [Hy _]. rewrite <- E. apply in_map. exact Hy.
Qed.

Lemma Forall_keep {A : Type} (P : A -> Prop) (p : A -> bool) (l : list A) :
  Forall P l -> Forall P (filter p l).
Proof.
  rewrite !Forall_forall. intros H x Hx. apply filter_In in Hx as [Hx _]. auto.
Qed.

Lemma NoDup_key_inj {A : Type} (key : A -> Z) (l : list A) (x y : A) :
  NoDup (map key l) -> In x l -> In y l -> key x = key y -> x = y.
Proof.
  induction l as [|z l IH]; simpl; [intros _ []|].
  intros Hnd Hx Hy E. inversion Hnd as [|? ? Hnotin Hnd']; subst.
  destruct Hx as [->|Hx], Hy as [->|Hy]; auto.
  - destruct Hnotin. rewrite E. apply in_map. exact Hy.
  - destruct Hnotin. rewrite <- E. apply in_map. exact Hx.
Qed.

(** Renaming one row keeps the names distinct when no other row holds the
    new name. *)
Lemma rename_NoDup (id : Z) (n : string) (f : exercise -> exercise) (l : list exercise) :
  (forall e, ex_id e = id -> ex_name (f e) = n) ->
  (forall e, ex_id e <> id -> f e = e) ->
  NoDup (map ex_id l) -> NoDup (map ex_name l) ->
  (forall e, In e l -> ex_id e <> id -> ex_name e <> n) ->
  NoDup (map ex_name (map f l)).
Proof.
  intros Hhit Hmiss. induction l as [|a l IH]; simpl; [constructor|].
  intros Hid Hnm Hfree.
  inversion Hid as [|? ? Hid1 Hid2]; inversion Hnm as [|? ? Hnm1 Hnm2]; subst.
  assert (IHl : NoDup (map ex_name (map f l))).
  { apply IH; [assumption | assumption | intros e He; apply Hfree; right; exact He]. }
  constructor; [|exact IHl].
  intros Hin. apply in_map_iff in Hin as (e' & E & He').
  apply in_map_iff in He' as (e & <- & He).
  destruct (Z.eq_dec (ex_id a) id) as [Ea|Ea].
  - assert (Hne : ex_id e <> id).
    { intros Ee. apply Hid1. rewrite Ea, <- Ee. apply in_map. exact He. }
    rewrite (Hmiss e Hne), (Hhit a Ea) in E.
    exact (Hfree e (or_intror He) Hne E).
  - rewrite (Hmiss a Ea) in E.
    destruct (Z.eq_dec (ex_id e) id) as [Ee|Ee].
    + rewrite (Hhit e Ee) in E. exact (Hfree a (or_introl eq_refl) Ea (eq_sym E)).
    + rewrite (Hmiss e Ee) in E. apply Hnm1. rewrite <- E. apply in_map. exact He.
Qed.

Lemma map_unchanged {A : Type} (f : A -> A) (l : list A) :
  (forall x, In x l -> f x = x) -> map f l = l.
Proof.
  induction l as [|x l IH]; simpl; intros H; [reflexivity|].
  rewrite (H x (or_introl eq_refl)), IH; auto.
Qed.

Lemma insert_exercise_keys (name bp eqp notes sub : string) (d d' : db) (id : Z) :
  insert_exercise name bp eqp notes sub d = Ok (id, d') ->
  (unique_keys d -> unique_keys d')
  /\ (counters_cover d -> counters_cover d')
  /\ seq_exercises d < seq_exercises d'
  /\ seq_sessions d' = seq_sessions d /\ seq_sets d' = seq_sets d.
Proof.
  intros H. unfold insert_exercise in H.
  destruct (existsb _ _) eqn:Hex; [discriminate|].
  injection H as <- <-.
  assert (Hfree : ~ In name (map ex_name (exercises d))).
  { intros Hin. apply in_map_iff in Hin as (e & E & He).
    assert (existsb (fun e0 => (ex_name e0 =? name)%string) (exercises d) = true).
    { apply existsb_exists. exists e. split; [exact He | apply String.eqb_eq; exact E]. }
    congruence. }
  split; [|split; [|split; [|split]]]; simpl; try reflexivity.
  - intros (H1 & H2 & H3 & H4). repeat split; simpl; try assumption.
    + rewrite map_app. simpl. apply NoDup_snoc; [exact H1|].
      intros Hin. apply (next_rowid_above (seq_exercises d)) in Hin. lia.
    + rewrite map_app. simpl. apply NoDup_snoc; assumption.
  - intros (_ & H2 & H3). repeat split; simpl; try assumption.
    apply Forall_app. split.
    + rewrite Forall_forall. intros e He.
      assert (ex_id e < next_rowid (seq_exercises d) (map ex_id (exercises d)))
        by (apply next_rowid_above, in_map; exact He).
      lia.
    + repeat constructor. simpl. lia.
  - apply next_rowid_above_seq.
Qed.

Lemma ensure_preloaded_keys (d : db) :
  (unique_keys d -> unique_keys (ensure_preloaded d))
  /\ (counters_cover d -> counters_cover (ensure_preloaded d))
  /\ seq_exercises d <= seq_exercises (ensure_preloaded d)
  /\ seq_sessions (ensure_preloaded d) = seq_sessions d
  /\ seq_sets (ensure_preloaded d) = seq_sets d.
Proof.
  unfold ensure_preloaded. destruct (exercises d); [|conjs; auto; lia].
  generalize PRELOADED_EXERCISES. intros l. revert d.
  induction l as [|[[[[name bp] eqp] notes] sub] l IH]; intros d; simpl.
  - conjs; auto; lia.
  - destruct (insert_exercise name bp eqp notes sub d) as [[id d']|e] eqn:E; [|apply IH].
    destruct (insert_exercise_keys _ _ _ _ _ _ _ _ E) as (K1 & K2 & K3 & K4 & K5).
    destruct (IH d') as (I1 & I2 & I3 & I4 & I5).
    conjs; auto; try lia; congruence.
Qed.

Lemma update_exercise_keys (id : Z) (name bp eqp notes sub : string) (d d' : db) :
  update_exercise id name bp eqp notes sub d = Ok d' ->
  (unique_keys d -> unique_keys d')
  /\ (counters_cover d -> counters_cover d')
  /\ seq_exercises d' = seq_exercises d
  /\ seq_sessions d' = seq_sessions d /\ seq_sets d' = seq_sets d.
Proof.
  unfold update_exercise. destruct (_ && _) eqn:Hc; [discriminate|].
  intros H. injection H as <-. simpl.
  split; [|split; [|repeat split]].
  - intros (H1 & H2 & H3 & H4). unfold unique_keys. simpl.
    assert (Eid : forall l : list exercise,
               map ex_id (map (fun e => if ex_id e =? id
                   then {| ex_id := ex_id e; ex_name := PyStr.strip name;
                           ex_body_part := PyStr.strip bp; ex_equipment := PyStr.strip eqp;
                           ex_notes := PyStr.strip notes; ex_subgroup := PyStr.strip sub |}
                   else e) l) = map ex_id l).
    { intros l. rewrite map_map. apply map_ext. intros e. destruct (ex_id e =? id); reflexivity. }
    rewrite Eid. repeat split; try assumption.
    apply andb_false_iff in Hc as [Hc|Hc].
    + rewrite map_unchanged; [exact H2|].
      intros e He. destruct (ex_id e =? id) eqn:Ee; [|reflexivity].
      apply Z.eqb_eq in Ee.
      assert (has_exercise id d = true) by (apply existsb_id_In; eauto).
      congruence.
    + apply (rename_NoDup id (PyStr.strip name)); try assumption.
      * intros e Ee. apply Z.eqb_eq in Ee. rewrite Ee. reflexivity.
      * intros e Ee. apply Z.eqb_neq in Ee. rewrite Ee. reflexivity.
      * intros e He Ee En.
        assert (existsb (fun e0 => negb (ex_id e0 =? id)
                                   && (ex_name e0 =? PyStr.strip name)%string)
                        (exercises d) = true).
        { apply existsb_exists. exists e. split; [exact He|].
          apply andb_true_iff. split.
          - apply negb_true_iff, Z.eqb_neq. exact Ee.
          - apply String.eqb_eq. exact En. }
        congruence.
  - intros (H1 & H2 & H3). unfold counters_cover. simpl. repeat split; try assumption.
    rewrite Forall_forall in *. intros e' He'.
    apply in_map_iff in He' as (e & <- & He).
    specialize (H1 e He). destruct (ex_id e =? id); exact H1.
Qed.

Lemma delete_exercise_keys (id : Z) (d : db) :
  (unique_keys d -> unique_keys (delete_exercise id d))
  /\ (counters_cover d -> counters_cover (delete_exercise id d))
  /\ seq_exercises (delete_exercise id d) = seq_exercises d
  /\ seq_sessions (delete_exercise id d) = seq_sessions d
  /\ seq_sets (delete_exercise id d) = seq_sets d.
Proof.
  unfold delete_exercise. destruct (has_exercise id d); [|conjs; auto].
  simpl. split; [|split; [|repeat split]].
  - intros (H1 & H2 & H3 & H4). unfold unique_keys. simpl.
    repeat split; apply NoDup_map_filter; assumption.
  - intros (H1 & H2 & H3). unfold counters_cover. simpl.
    repeat split; apply Forall_keep; assumption.
Qed.

Lemma delete_session_keys (sid : Z) (d : db) :
  (unique_keys d -> unique_keys (delete_session sid d))
  /\ (counters_cover d -> counters_cover (delete_session sid d))
  /\ seq_exercises (delete_session sid d) = seq_exercises d
  /\ seq_sessions (delete_session sid d) = seq_sessions d
  /\ seq_sets (delete_session sid d) = seq_sets d.
Proof.
  unfold delete_session. destruct (has_session sid d); [|conjs; auto].
  simpl. split; [|split; [|repeat split]].
  - intros (H1 & H2 & H3 & H4). unfold unique_keys. simpl.
    repeat split; try assumption; apply NoDup_map_filter; assumption.
  - intros (H1 & H2 & H3). unfold counters_cover. simpl.
    repeat split; try assumption; apply Forall_keep; assumption.
Qed.

Lemma add_session_keys (eid : Z) (date_str notes : string) (d d' : db) (id : Z) :
  add_session eid date_str notes d = Ok (id, d') ->
  (unique_keys d -> unique_keys d')
  /\ (counters_cover d -> counters_cover d')
  /\ seq_exercises d' = seq_exercises d
  /\ seq_sessions d < seq_sessions d' /\ seq_sets d' = seq_sets d.
Proof.
  unfold add_session. destruct (has_exercise eid d); [|discriminate].
  intros H. injection H as <- <-. simpl.
  split; [|split; [|repeat split]].
  - intros (H1 & H2 & H3 & H4). unfold unique_keys. simpl.
    repeat split; try assumption.
    rewrite map_app. simpl. apply NoDup_snoc; [exact H3|].
    intros Hin. apply (next_rowid_above (seq_sessions d)) in Hin. lia.
  - intros (H1 & H2 & H3). unfold counters_cover. simpl.
    repeat split; try assumption.
    apply Forall_app. split.
    + rewrite Forall_forall. intros s Hs.
      assert (se_id s < next_rowid (seq_sessions d) (map se_id (sessions d)))
        by (apply next_rowid_above, in_map; exact Hs).
      lia.
    + repeat constructor. simpl. lia.
  - apply next_rowid_above_seq.
Qed.

Section KeyFacts.
Context {R : Runtime}.

Lemma add_set_keys (sid idx : Z) (weight reps rir : pyval) (unit_ : string)
      (d d' : db) (id : Z) :
  add_set sid idx weight reps rir unit_ d = Ok (id, d') ->
  (unique_keys d -> unique_keys d')
  /\ (counters_cover d -> counters_cover d')
  /\ seq_exercises d' = seq_exercises d
  /\ seq_sessions d' = seq_sessions d /\ seq_sets d < seq_sets d'.
Proof.
  intros H.
  assert (Hseq : seq_exercises d' = seq_exercises d /\ seq_sessions d' = seq_sessions d
                 /\ seq_sets d' = id).
  { unfold add_set, bind in H.
    repeat match type of H with
           | match ?x with _ => _ end = _ => destruct x; try discriminate
           | (if ?x then _ else _) = _ => destruct x; try discriminate
           end;
      injection H as <- <-; simpl; auto. }
  destruct Hseq as (S1 & S2 & S3).
  apply add_set_tables in H as (w & r & i & _ & _ & _ & _ & _ & Ee & Es & Et & Eid).
  split; [|split; [|repeat split]]; try assumption.
  - intros (H1 & H2 & H3 & H4). unfold unique_keys. rewrite Ee, Es, Et.
    repeat split; try assumption.
    rewrite map_app. simpl. apply NoDup_snoc; [exact H4|].
    intros Hin. apply (next_rowid_above (seq_sets d)) in Hin. lia.
  - intros (H1 & H2 & H3). unfold counters_cover. rewrite Ee, Es, Et, S1, S2, S3.
    repeat split; try assumption.
    apply Forall_app. split.
    + rewrite Forall_forall. intros t Ht.
      assert (st_id t < next_rowid (seq_sets d) (map st_id (sets d)))
        by (apply next_rowid_above, in_map; exact Ht).
      lia.
    + repeat constructor. simpl. lia.
  - rewrite S3, Eid. apply next_rowid_above_seq.
Qed.

Lemma db_step_keys (d d' : db) :
  db_step d d' ->
  (unique_keys d -> unique_keys d')
  /\ (counters_cover d -> counters_cover d')
  /\ seq_exercises d <= seq_exercises d'
  /\ seq_sessions d <= seq_sessions d' /\ seq_sets d <= seq_sets d'.
Proof.
  intros Hstep. destruct Hstep.
  - destruct (ensure_preloaded_keys d) as (K1 & K2 & K3 & K4 & K5).
    conjs; auto; lia.
  - apply add_exercise_insert in H.
    destruct (insert_exercise_keys _ _ _ _ _ _ _ _ H) as (K1 & K2 & K3 & K4 & K5).
    conjs; auto; lia.
  - destruct (update_exercise_keys _ _ _ _ _ _ _ _ H) as (K1 & K2 & K3 & K4 & K5).
    conjs; auto; lia.
  - destruct (delete_exercise_keys id d) as (K1 & K2 & K3 & K4 & K5).
    conjs; auto; lia.
  - destruct (add_session_keys _ _ _ _ _ _ H) as (K1 & K2 & K3 & K4 & K5).
    conjs; auto; lia.
  - destruct (add_set_keys _ _ _ _ _ _ _ _ _ H) as (K1 & K2 & K3 & K4 & K5).
    conjs; auto; lia.
  - destruct (delete_session_keys session_id d) as (K1 & K2 & K3 & K4 & K5).
    conjs; auto; lia.
Qed.

Lemma reachable_keys (d : db) : reachable d -> unique_keys d /\ counters_cover d.
Proof.
  induction 1 as [|d d' _ [IH1 IH2] Hstep].
  - split; repeat split; constructor.
  - destruct (db_step_keys _ _ Hstep) as (K1 & K2 & _). auto.
Qed.

Lemma db_steps_counters (d d' : db) :
  db_steps d d' ->
  seq_exercises d <= seq_exercises d'
  /\ seq_sessions d <= seq_sessions d' /\ seq_sets d <= seq_sets d'.
Proof.
  induction 1 as [d|d d' d'' _ IH Hstep]; [lia|].
  destruct (db_step_keys _ _ Hstep) as (_ & _ & K). lia.
Qed.

Lemma db_steps_reachable (d d' : db) : reachable d -> db_steps d d' -> reachable d'.
Proof.
  intros Hr Hs. induction Hs as [d|d d' d'' _ IH Hstep]; [exact Hr|].
  eapply reach_step; [apply IH; exact Hr | exact Hstep].
Qed.

(** X3: in every store the program can reach, the rowids of each table are
    pairwise distinct, so are the exercise names, and no rowid exceeds
    the counter of its table. *)
Theorem reachable_unique_keys (d : db) :
  reachable d ->
  NoDup (map ex_id (exercises d))
  /\ NoDup (map ex_name (exercises d))
  /\ NoDup (map se_id (sessions d))
  /\ NoDup (map st_id (sets d))
  /\ counters_cover d.
Proof.
  intros H. destruct (reachable_keys d H) as ((H1 & H2 & H3 & H4) & H5). auto.
Qed.

(** X4: a rowid is never given out twice: whatever was written since, also
    deletions, a new exercise, session or set gets a rowid above every
    rowid its table held before. *)
Theorem rowids_never_reused (d d' : db) :
  reachable d -> db_steps d d' ->
  (forall name body_part equipment notes subgroup id d'',
      add_exercise name body_part equipment notes subgroup d' = Ok (id, d'') ->
      forall e, In e (exercises d) -> ex_id e < id)
  /\ (forall exercise_id date_str notes id d'',
        add_session exercise_id date_str notes d' = Ok (id, d'') ->
        forall s, In s (sessions d) -> se_id s < id)
  /\ (forall session_id set_index weight reps rir unit_ id d'',
        add_set session_id set_index weight reps rir unit_ d' = Ok (id, d'') ->
        forall t, In t (sets d) -> st_id t < id).
Proof.
  intros Hr Hs.
  destruct (reachable_keys d Hr) as (_ & C1 & C2 & C3).
  destruct (db_steps_counters d d' Hs) as (S1 & S2 & S3).
  rewrite Forall_forall in C1, C2, C3.
  split; [|split].
  - intros name bp eqp notes sub id d'' H e He.
    apply add_exercise_insert, insert_exercise_tables in H as (_ & _ & _ & ->).
    pose proof (next_rowid_above_seq (seq_exercises d') (map ex_id (exercises d'))).
    specialize (C1 e He). lia.
  - intros eid date_str notes id d'' H s Hin.
    apply add_session_tables in H as (_ & _ & _ & _ & ->).
    pose proof (next_rowid_above_seq (seq_sessions d') (map se_id (sessions d'))).
    specialize (C2 s Hin). lia.
  - intros sid idx weight reps rir unit_ id d'' H t Hin.
    apply add_set_tables in H as (w & r & i & _ & _ & _ & _ & _ & _ & _ & _ & ->).
    pose proof (next_rowid_above_seq (seq_sets d') (map st_id (sets d'))).
    specialize (C3 t Hin). lia.
Qed.

End KeyFacts.

Lemma reachable_unique_keys_witness :
  reachable (R := py_runtime) sample_db
  /\ NoDup (map ex_name (exercises sample_db))
  /\ NoDup (map ex_id (exercises sample_db)).
Proof.
  split; [exact sample_db_reachable|].
  destruct (reachable_unique_keys (R := py_runtime) sample_db sample_db_reachable)
    as (H1 & H2 & _).
  split; assumption.
Defined.

Lemma rowids_never_reused_witness :
  reachable (R := py_runtime) sample_db
  /\ db_steps (R := py_runtime) sample_db (delete_exercise 3 sample_db)
  /\ map ex_id (exercises (delete_exercise 3 sample_db)) = [1; 2]
  /\ match add_exercise "Row" "Back" "" "" "" (delete_exercise 3 sample_db) with
     | Ok (id, _) => id = 4 /\ forall e, In e (exercises sample_db) -> ex_id e < id
     | Raise _ => False
     end.
Proof.
  assert (Hs : db_steps (R := py_runtime) sample_db (delete_exercise 3 sample_db)).
  { eapply steps_more; [apply steps_none | apply step_delete_exercise]. }
  split; [exact sample_db_reachable|]. split; [exact Hs|].
  split; [vm_compute; reflexivity|].
  destruct (add_exercise "Row" "Back" "" "" "" (delete_exercise 3 sample_db))
    as [[id d'']|e] eqn:E; [|vm_compute in E; discriminate].
  split.
  - vm_compute in E. injection E as <- _. reflexivity.
  - exact (proj1 (rowids_never_reused (R := py_runtime) _ _ sample_db_reachable Hs)
             _ _ _ _ _ _ _ E).
Defined.

(** ** Listing sessions and sets *)

Lemma StronglySorted_map {A B : Type} (P : A -> A -> Prop) (Q : B -> B -> Prop)
      (f : A -> B) (l : list A) :
  (forall a b, P a b -> Q (f a) (f b)) ->
  StronglySorted P l -> StronglySorted Q (map f l).
Proof.
  intros H. induction 1 as [|x l Hl IH Hx]; simpl; constructor; [exact IH|].
  rewrite Forall_forall in *. intros y Hy.
  apply in_map_iff in Hy as (z & <- & Hz). auto.
Qed.

(** Ordering rows that are in order already changes nothing. *)
Lemma order_by_ordered {A : Type} (le : A -> A -> bool) (l : list A) :
  StronglySorted (fun a b => le a b = true) l -> order_by le l = l.
Proof.
  induction 1 as [|x l Hl IH Hx]; simpl; [reflexivity|].
  fold (order_by le l). rewrite IH.
  destruct l as [|y l']; [reflexivity|]. simpl.
  inversion Hx as [|? ? Hxy _]; subst. rewrite Hxy. reflexivity.
Qed.

Lemma leb_antisym (a b : string) :
  PyStr.leb a b = true -> PyStr.leb b a = true -> a = b.
Proof.
  unfold PyStr.leb. rewrite (cmp_antisym a b).
  destruct (PyStr.cmp a b) eqn:E; simpl; try discriminate.
  intros _ _. apply cmp_eq. exact E.
Qed.

Lemma leb_refl (a : string) : PyStr.leb a a = true.
Proof. unfold PyStr.leb. rewrite cmp_refl. reflexivity. Qed.

Lemma date_desc_total (a b : session) :
  PyStr.leb (se_date b) (se_date a) = true \/ PyStr.leb (se_date a) (se_date b) = true.
Proof. apply leb_total. Qed.

Lemma date_desc_trans (a b c : session) :
  PyStr.leb (se_date b) (se_date a) = true -> PyStr.leb (se_date c) (se_date b) = true ->
  PyStr.leb (se_date c) (se_date a) = true.
Proof. intros H1 H2. exact (leb_trans _ _ _ H2 H1). Qed.

Lemma index_asc_total (a b : set_row) :
  (st_set_index a <=? st_set_index b) = true \/ (st_set_index b <=? st_set_index a) = true.
Proof.
  destruct (Z.leb_spec (st_set_index a) (st_set_index b)); [auto|].
  right. apply Z.leb_le. lia.
Qed.

Lemma index_asc_trans (a b c : set_row) :
  (st_set_index a <=? st_set_index b) = true -> (st_set_index b <=? st_set_index c) = true ->
  (st_set_index a <=? st_set_index c) = true.
Proof. rewrite !Z.leb_le. lia. Qed.

(** X5: [get_sessions_for_exercise] returns the sessions of the exercise
    and no others, each once, latest date first. *)
Theorem get_sessions_for_exercise_spec (eid : Z) (d : db) :
  Permutation (get_sessions_for_exercise eid d)
              (map (fun s => (se_id s, se_date s, se_notes s))
                   (filter (fun s => se_exercise_id s =? eid) (sessions d)))
  /\ StronglySorted (fun a b => PyStr.leb (snd (fst b)) (snd (fst a)) = true)
                    (get_sessions_for_exercise eid d)
  /\ (forall id date_str notes,
        In (id, date_str, notes) (get_sessions_for_exercise eid d)
        <-> exists s, In s (sessions d) /\ se_exercise_id s = eid
                      /\ se_id s = id /\ se_date s = date_str /\ se_notes s = notes).
Proof.
  unfold get_sessions_for_exercise.
  set (le := fun a b : session => PyStr.leb (se_date b) (se_date a)).
  set (mine := filter (fun s => se_exercise_id s =? eid) (sessions d)).
  pose proof (order_by_perm le mine) as P.
  split; [apply Permutation_map; exact P|]. split.
  - apply (StronglySorted_map (fun a b => le a b = true)).
    + intros a b H. exact H.
    + apply order_by_sorted; [apply date_desc_total | apply date_desc_trans].
  - intros id date_str notes. rewrite in_map_iff. split.
    + intros (s & E & Hs). injection E as <- <- <-.
      apply (Permutation_in _ P) in Hs. apply filter_In in Hs as [Hs He].
      exists s. apply Z.eqb_eq in He. auto.
    + intros (s & Hs & He & <- & <- & <-). exists s. split; [reflexivity|].
      apply (Permutation_in _ (Permutation_sym P)). apply filter_In.
      split; [exact Hs | apply Z.eqb_eq; exact He].
Qed.

(** X6: [get_sets_for_session] returns the sets of the session and no
    others, each once, by ascending set index. *)
Theorem get_sets_for_session_spec (sid : Z) (d : db) :
  Permutation (get_sets_for_session sid d)
              (map (fun t => (st_set_index t, st_weight t, st_reps t, st_rir t, st_unit t))
                   (filter (fun t => st_session_id t =? sid) (sets d)))
  /\ StronglySorted (fun a b => fst (fst (fst (fst a))) <= fst (fst (fst (fst b))))
                    (get_sets_for_session sid d)
  /\ (forall idx w r i u,
        In (idx, w, r, i, u) (get_sets_for_session sid d)
        <-> exists t, In t (sets d) /\ st_session_id t = sid
                      /\ st_set_index t = idx /\ st_weight t = w /\ st_reps t = r
                      /\ st_rir t = i /\ st_unit t = u).
Proof.
  unfold get_sets_for_session.
  set (le := fun a b : set_row => st_set_index a <=? st_set_index b).
  set (mine := filter (fun t => st_session_id t =? sid) (sets d)).
  pose proof (order_by_perm le mine) as P.
  split; [apply Permutation_map; exact P|]. split.
  - apply (StronglySorted_map (fun a b => le a b = true)).
    + intros a b H. simpl. apply Z.leb_le. exact H.
    + apply order_by_sorted; [apply index_asc_total | apply index_asc_trans].
  - intros idx w r i u. rewrite in_map_iff. split.
    + intros (t & E & Ht). injection E as <- <- <- <- <-.
      apply (Permutation_in _ P) in Ht. apply filter_In in Ht as [Ht He].
      exists t. apply Z.eqb_eq in He. repeat (split; [assumption || reflexivity|]). reflexivity.
    + intros (t & Ht & He & <- & <- & <- & <- & <-). exists t. split; [reflexivity|].
      apply (Permutation_in _ (Permutation_sym P)). apply filter_In.
      split; [exact Ht | apply Z.eqb_eq; exact He].
Qed.

Lemma get_sessions_for_exercise_spec_witness :
  exists s, In s (sessions sample_db) /\ se_exercise_id s = 1
            /\ se_id s = 1 /\ se_date s = "2024-01-10" /\ se_notes s = "".
Proof.
  apply (proj1 (proj2 (proj2 (get_sessions_for_exercise_spec 1 sample_db)) 1 "2024-01-10" "")).
  vm_compute. left. reflexivity.
Defined.

Lemma get_sets_for_session_spec_witness :
  exists t, In t (sets sample_db) /\ st_session_id t = 1
            /\ st_set_index t = 1 /\ st_weight t = float_of_Z 100 /\ st_reps t = 8
            /\ st_rir t = Some 2 /\ st_unit t = "lbs".
Proof.
  apply (proj1 (proj2 (proj2 (get_sets_for_session_spec 1 sample_db))
                 1 (float_of_Z 100) 8 (Some 2) "lbs")).
  vm_compute. left. reflexivity.
Defined.

(** ** What the writing methods change, and what they leave *)

Lemma filter_all {A : Type} (p : A -> bool) (l : list A) :
  (forall x, In x l -> p x = true) -> filter p l = l.
Proof.
  induction l as [|x l IH]; simpl; intros H; [reflexivity|].
  rewrite (H x (or_introl eq_refl)), IH; auto.
Qed.

Lemma filter_filter_sub {A : Type} (p q : A -> bool) (l : list A) :
  (forall x, In x l -> p x = true -> q x = true) ->
  filter p (filter q l) = filter p l.
Proof.
  induction l as [|x l IH]; simpl; intros H; [reflexivity|].
  destruct (q x) eqn:Hq; simpl.
  - rewrite IH; auto.
  - destruct (p x) eqn:Hp.
    + rewrite (H x (or_introl eq_refl) Hp) in Hq. discriminate.
    + apply IH. auto.
Qed.

Lemma flat_map_filter_ext {A B : Type} (p : A -> bool) (f g : A -> list B) (l : list A) :
  (forall x, In x l -> p x = true -> g x = f x) ->
  (forall x, In x l -> p x = false -> f x = []) ->
  flat_map g (filter p l) = flat_map f l.
Proof.
  induction l as [|x l IH]; simpl; intros H1 H2; [reflexivity|].
  destruct (p x) eqn:Hp; simpl.
  - rewrite (H1 x (or_introl eq_refl) Hp), IH; auto.
  - rewrite (H2 x (or_introl eq_refl) Hp), IH; auto.
Qed.

(** With no orphans in the store, [delete_exercise] is three filters,
    whether or not the exercise exists. *)
Lemma delete_exercise_tables (id : Z) (d : db) :
  no_orphans d ->
  exercises (delete_exercise id d) = filter (fun e => negb (ex_id e =? id)) (exercises d)
  /\ sessions (delete_exercise id d)
     = filter (fun s => negb (se_exercise_id s =? id)) (sessions d)
  /\ sets (delete_exercise id d)
     = filter (fun t => negb (existsb (fun s => se_id s =? st_session_id t)
                                      (filter (fun s => se_exercise_id s =? id) (sessions d))))
              (sets d).
Proof.
  intros [Hs Ht]. unfold delete_exercise.
  destruct (has_exercise id d) eqn:Hex; [simpl; auto|].
  assert (Hnone : forall e, In e (exercises d) -> ex_id e <> id).
  { intros e He E. assert (has_exercise id d = true) by (apply existsb_id_In; eauto).
    congruence. }
  assert (Hgone : filter (fun s => se_exercise_id s =? id) (sessions d) = []).
  { apply filter_nil_iff. intros s Hin. apply Z.eqb_neq.
    destruct (Hs s Hin) as (e & He & E). rewrite <- E. auto. }
  split; [|split].
  - symmetry. apply filter_all. intros e He. apply negb_true_iff, Z.eqb_neq. auto.
  - symmetry. apply filter_all. intros s Hin. apply negb_true_iff.
    apply (proj1 (filter_nil_iff _ _) Hgone). exact Hin.
  - rewrite Hgone. symmetry. apply filter_all. reflexivity.
Qed.

Lemma max_session_date_ext (id : Z) (d d' : db) :
  filter (fun s => se_exercise_id s =? id) (sessions d')
  = filter (fun s => se_exercise_id s =? id) (sessions d) ->
  max_session_date id d' = max_session_date id d.
Proof. unfold max_session_date. intros ->. reflexivity. Qed.

Section FrameFacts.
Context {R : Runtime}.

(** X7: deleting an exercise touches nothing of any other exercise: its
    sessions, the sets of its sessions, its last set and its row in the
    listing are as before, and the deleted exercise is no longer
    listed. *)
Theorem delete_exercise_frame (id eid : Z) (d : db) :
  reachable d -> eid <> id ->
  get_sessions_for_exercise eid (delete_exercise id d) = get_sessions_for_exercise eid d
  /\ (forall s, In s (sessions d) -> se_exercise_id s = eid ->
        get_sets_for_session (se_id s) (delete_exercise id d)
        = get_sets_for_session (se_id s) d)
  /\ get_last_set_for_exercise eid (delete_exercise id d) = get_last_set_for_exercise eid d
  /\ (forall row, In row (get_exercises (delete_exercise id d))
                  <-> In row (get_exercises d) /\ row_id row <> id).
Proof.
  intros Hr Hne.
  pose proof (reachable_no_orphans d Hr) as Hno.
  destruct (reachable_keys d Hr) as ((_ & _ & Hsid & _) & _).
  destruct (delete_exercise_tables id d Hno) as (Ee & Es & Et).
  assert (Hmine : forall e0, e0 <> id ->
            filter (fun s => se_exercise_id s =? e0) (sessions (delete_exercise id d))
            = filter (fun s => se_exercise_id s =? e0) (sessions d)).
  { intros e0 He0. rewrite Es. apply filter_filter_sub.
    intros s _ H. apply Z.eqb_eq in H. apply negb_true_iff, Z.eqb_neq. congruence. }
  assert (Hkeep : forall t s, In s (sessions d) -> se_exercise_id s <> id ->
            st_session_id t = se_id s ->
            negb (existsb (fun g => se_id g =? st_session_id t)
                          (filter (fun g => se_exercise_id g =? id) (sessions d))) = true).
  { intros t s Hs Hse E. apply negb_true_iff.
    destruct (existsb _ _) eqn:Hex; [|reflexivity].
    apply existsb_exists in Hex as (g & Hg & Eg). apply filter_In in Hg as [Hg Hgid].
    apply Z.eqb_eq in Eg, Hgid.
    assert (g = s) by (apply (NoDup_key_inj se_id (sessions d)); auto; congruence).
    subst g. contradiction. }
  split; [|split; [|split]].
  - unfold get_sessions_for_exercise. rewrite (Hmine eid Hne). reflexivity.
  - intros s Hs He. unfold get_sets_for_session. rewrite Et.
    rewrite filter_filter_sub; [reflexivity|].
    intros t _ H. apply Z.eqb_eq in H. apply (Hkeep t s); auto. congruence.
  - unfold get_last_set_for_exercise.
    assert (E : sets_of_exercise eid (delete_exercise id d) = sets_of_exercise eid d).
    { unfold sets_of_exercise. rewrite Et, Es. apply flat_map_filter_ext.
      - intros t _ _. f_equal. apply filter_filter_sub.
        intros s _ H. apply andb_true_iff in H as [_ H]. apply Z.eqb_eq in H.
        apply negb_true_iff, Z.eqb_neq. congruence.
      - intros t _ Hdrop. apply negb_false_iff in Hdrop.
        apply existsb_exists in Hdrop as (g & Hg & Eg). apply filter_In in Hg as [Hg Hgid].
        apply Z.eqb_eq in Eg, Hgid.
        assert (E : filter (fun s => (se_id s =? st_session_id t) && (se_exercise_id s =? eid))
                      (sessions d) = []).
        { apply filter_nil_iff. intros s Hs. apply andb_false_iff.
          destruct (se_id s =? st_session_id t) eqn:E1; [right | left; reflexivity].
          apply Z.eqb_eq in E1.
          assert (s = g) by (apply (NoDup_key_inj se_id (sessions d)); auto; congruence).
          subst s. apply Z.eqb_neq. congruence. }
        rewrite E. reflexivity. }
    rewrite E. reflexivity.
  - intros row. rewrite !in_get_exercises. split.
    + intros (e & He & ->). rewrite Ee in He. apply filter_In in He as [He Hid].
      apply negb_true_iff, Z.eqb_neq in Hid. split; [|exact Hid].
      exists e. split; [exact He|]. unfold exercise_row_of. f_equal.
      apply max_session_date_ext, Hmine. exact Hid.
    + intros [(e & He & ->) Hid]. simpl in Hid. exists e. split.
      * rewrite Ee. apply filter_In. split; [exact He|].
        apply negb_true_iff, Z.eqb_neq. exact Hid.
      * unfold exercise_row_of. f_equal. symmetry.
        apply max_session_date_ext, Hmine. exact Hid.
Qed.

End FrameFacts.

Lemma delete_exercise_frame_witness :
  reachable (R := py_runtime) sample_db
  /\ get_sessions_for_exercise 1 (delete_exercise 2 sample_db) = [(1, "2024-01-10", "")]
  /\ get_last_set_for_exercise 1 (delete_exercise 2 sample_db)
     = get_last_set_for_exercise 1 sample_db.
Proof.
  split; [exact sample_db_reachable|].
  destruct (delete_exercise_frame (R := py_runtime) 2 1 sample_db sample_db_reachable)
    as (H1 & _ & H3 & _); [discriminate|].
  split; [rewrite H1; vm_compute; reflexivity | exact H3].
Defined.

(** X8: deleting a session leaves the exercises, every other session and
    the sets of every other session as they were. *)
Theorem delete_session_frame (sid : Z) (d : db) :
  exercises (delete_session sid d) = exercises d
  /\ (forall s, In s (sessions (delete_session sid d))
                <-> In s (sessions d) /\ se_id s <> sid)
  /\ (forall other, other <> sid ->
        get_sets_for_session other (delete_session sid d) = get_sets_for_session other d).
Proof.
  unfold delete_session. destruct (has_session sid d) eqn:Hex; simpl.
  - split; [reflexivity|]. split.
    + intros s. rewrite filter_In, negb_true_iff, Z.eqb_neq. reflexivity.
    + intros other Hne. unfold get_sets_for_session. simpl.
      rewrite filter_filter_sub; [reflexivity|].
      intros t _ H. apply Z.eqb_eq in H. apply negb_true_iff, Z.eqb_neq. congruence.
  - split; [reflexivity|]. split; [|reflexivity].
    intros s. split; [|tauto]. intros Hs. split; [exact Hs|].
    intros E. assert (has_session sid d = true) by (apply existsb_id_In; eauto).
    congruence.
Qed.

Lemma delete_session_frame_witness :
  1 <> 2
  /\ get_sets_for_session 1
       (delete_session 2 (the_db (save_session (R := py_runtime) (on_session_select 1 saved_app))))
     = get_sets_for_session 1
         (the_db (save_session (R := py_runtime) (on_session_select 1 saved_app))).
Proof.
  split; [discriminate|].
  apply (proj2 (proj2 (delete_session_frame 2
           (the_db (save_session (R := py_runtime) (on_session_select 1 saved_app)))))).
  discriminate.
Defined.

(** ** Adding and renaming exercises *)

Lemma name_taken_iff (n : string) (d : db) :
  existsb (fun e => (ex_name e =? n)%string) (exercises d) = true
  <-> In n (map ex_name (exercises d)).
Proof.
  rewrite existsb_exists, in_map_iff. split; intros (e & H1 & H2); exists e.
  - apply String.eqb_eq in H2. auto.
  - split; [exact H2 | apply String.eqb_eq; exact H1].
Qed.

(** X9: [add_exercise] raises DuplicateName exactly when the trimmed name
    is stored already.  Otherwise the new row gets a rowid above all
    stored ones, sessions and sets are untouched, and the listing gains
    this one row, with the trimmed texts and no last session. *)
Theorem add_exercise_listed (name body_part equipment notes subgroup : string) (d : db) :
  no_orphans d ->
  (In (PyStr.strip name) (map ex_name (exercises d)) ->
   add_exercise name body_part equipment notes subgroup d = Raise DuplicateName)
  /\ (~ In (PyStr.strip name) (map ex_name (exercises d)) ->
      exists id d',
        add_exercise name body_part equipment notes subgroup d = Ok (id, d')
        /\ (forall e, In e (exercises d) -> ex_id e < id)
        /\ sessions d' = sessions d /\ sets d' = sets d
        /\ Permutation (get_exercises d')
             ({| row_id := id; row_name := PyStr.strip name;
                 row_body_part := PyStr.strip body_part;
                 row_equipment := PyStr.strip equipment;
                 row_notes := PyStr.strip notes;
                 row_subgroup := PyStr.strip subgroup;
                 last_session := None |} :: get_exercises d)).
Proof.
  intros [Hs _]. split.
  - intros Hin. apply add_exercise_duplicate. apply name_taken_iff. exact Hin.
  - intros Hfree.
    destruct (add_exercise name body_part equipment notes subgroup d) as [[id d']|e] eqn:E.
    + exists id, d'. split; [reflexivity|].
      apply add_exercise_insert, insert_exercise_tables in E as (Es & Et & Ee & Eid).
      assert (Hlt : forall e, In e (exercises d) -> ex_id e < id).
      { intros e He. rewrite Eid. apply next_rowid_above, in_map. exact He. }
      split; [exact Hlt|]. split; [exact Es|]. split; [exact Et|].
      assert (Hnone : max_session_date id d' = None).
      { unfold max_session_date. rewrite Es.
        assert (Hn : filter (fun s => se_exercise_id s =? id) (sessions d) = []).
        { apply filter_nil_iff. intros s Hin. apply Z.eqb_neq. intros Heq.
          destruct (Hs s Hin) as (e0 & He0 & E0). specialize (Hlt e0 He0). lia. }
        rewrite Hn. reflexivity. }
      assert (Hsame : map (exercise_row_of d') (exercises d)
                      = map (exercise_row_of d) (exercises d)).
      { apply map_ext. intros e. unfold exercise_row_of, max_session_date.
        rewrite Es. reflexivity. }
      unfold get_exercises. rewrite (order_by_perm exercise_le (map _ (exercises d'))).
      rewrite Ee, map_app, Hsame. simpl.
      rewrite <- Permutation_cons_append.
      unfold exercise_row_of at 1. simpl. rewrite Hnone.
      apply perm_skip. symmetry. apply order_by_perm.
    + exfalso. unfold add_exercise, insert_exercise in E.
      destruct (existsb _ _) eqn:Hex; [|discriminate].
      apply name_taken_iff in Hex. contradiction.
Qed.

Lemma add_exercise_listed_witness :
  no_orphans sample_db
  /\ ~ In (PyStr.strip " Row ") (map ex_name (exercises sample_db))
  /\ exists id d',
       add_exercise " Row " " Back" "" "" "" sample_db = Ok (id, d')
       /\ map row_name (get_exercises d') = ["Pull Ups"; "Row"; "Squat"; "Hammer Curls"].
Proof.
  pose proof (reachable_no_orphans (R := py_runtime) sample_db sample_db_reachable) as H.
  assert (Hfree : ~ In (PyStr.strip " Row ") (map ex_name (exercises sample_db))).
  { vm_compute. intuition discriminate. }
  split; [exact H|]. split; [exact Hfree|].
  destruct (proj2 (add_exercise_listed " Row " " Back" "" "" "" sample_db H) Hfree)
    as (id & d' & E & _).
  exists id, d'. split; [exact E|].
  vm_compute in E. injection E as <- <-. vm_compute. reflexivity.
Defined.

Lemma has_exercise_false (id : Z) (d : db) :
  has_exercise id d = false <-> forall e, In e (exercises d) -> ex_id e <> id.
Proof.
  split.
  - intros H e He E. assert (has_exercise id d = true) by (apply existsb_id_In; eauto).
    congruence.
  - intros H. destruct (has_exercise id d) eqn:Hex; [|reflexivity].
    apply existsb_id_In in Hex as (e & He & E). destruct (H e He E).
Qed.



(** ** The last session of an exercise *)

Lemma max_text_unique (l : list string) (m : string) :
  In m l -> (forall x, In x l -> PyStr.leb x m = true) -> max_text l = Some m.
Proof.
  intros Hin Hmax. destruct (max_text l) as [m0|] eqn:E.
  - destruct (max_text_some l m0 E) as [Hin0 Hmax0].
    f_equal. apply leb_antisym; auto.
  - apply max_text_none in E. subst l. destruct Hin.
Qed.

Lemma later_bounds (a b : string) :
  PyStr.leb a (later a b) = true /\ PyStr.leb b (later a b) = true
  /\ (later a b = a \/ later a b = b).
Proof.
  unfold later. destruct (PyStr.ltb a b) eqn:E.
  - split; [apply ltb_true_leb; exact E|]. split; [apply leb_refl | auto].
  - split; [apply leb_refl|]. split; [apply ltb_false_leb; exact E | auto].
Qed.



(** ** Inserting a set *)

Lemma bind_int_ok (n : Z) : int64 n -> bind_int n = Ok n.
Proof.
  intros [H1 H2]. unfold bind_int.
  apply Z.leb_le in H1. apply Z.ltb_lt in H2. rewrite H1, H2. reflexivity.
Qed.

Lemma bind_int_overflow (n : Z) :
  ~ int64 n ->
  bind_int n = Raise (OverflowError "Python int too large to convert to SQLite INTEGER").
Proof.
  intros H. unfold bind_int.
  destruct (- 2 ^ 63 <=? n) eqn:E1; [|reflexivity].
  destruct (n <? 2 ^ 63) eqn:E2; [|reflexivity].
  apply Z.leb_le in E1. apply Z.ltb_lt in E2. destruct H. split; assumption.
Qed.

Lemma int64_dec (n : Z) : int64 n \/ ~ int64 n.
Proof. unfold int64. lia. Qed.

Section AddSetFacts.
Context {R : Runtime}.


(** What a successful [add_set] appended can be stored. *)
Lemma add_set_storable (sid idx : Z) (weight reps rir : pyval) (unit_ : string)
      (d d' : db) (id : Z) :
  add_set sid idx weight reps rir unit_ d = Ok (id, d') ->
  exists t, sets d' = (sets d ++ [t])%list /\ storable t
            /\ st_session_id t = sid /\ st_set_index t = idx /\ st_unit t = unit_
            /\ py_float weight = Ok (st_weight t) /\ py_int reps = Ok (st_reps t)
            /\ rir_param rir = Ok (st_rir t).
Proof.
  intros H. unfold add_set in H.
  destruct (py_float weight) as [w|] eqn:Ew; [|discriminate].
  destruct (py_int reps) as [r|] eqn:Er; [|discriminate].
  destruct (rir_param rir) as [i|] eqn:Ei; [|discriminate].
  simpl in H.
  destruct (int64_dec r) as [Hr|Hr];
    [rewrite (bind_int_ok r Hr) in H | rewrite (bind_int_overflow r Hr) in H; discriminate].
  simpl in H.
  assert (Hi : int64_opt i).
  { destruct i as [n|]; [|exact I].
    destruct (int64_dec n) as [Hn|Hn]; [exact Hn|].
    rewrite (bind_int_overflow n Hn) in H. discriminate. }
  assert (Hb : match i with
               | Some n => n' <- bind_int n ;; Ok (Some n')
               | None => Ok None
               end = Ok i).
  { destruct i as [n|]; [|reflexivity]. rewrite (bind_int_ok n Hi). reflexivity. }
  rewrite Hb in H. simpl in H.
  destruct (is_nan w) eqn:Hw; [discriminate|].
  destruct (has_session sid d); [|discriminate].
  injection H as <- <-. eexists. split; [reflexivity|]. simpl.
  split; [split; [exact Hw | split; [exact Hr | exact Hi]]|].
  repeat split; reflexivity.
Qed.

End AddSetFacts.


(** ** Seeding the exercises *)

Lemma ensure_preloaded_tables (d : db) :
  sessions (ensure_preloaded d) = sessions d /\ sets (ensure_preloaded d) = sets d.
Proof.
  unfold ensure_preloaded. destruct (exercises d); [|auto].
  generalize PRELOADED_EXERCISES. intros l. revert d.
  induction l as [|[[[[name bp] eqp] notes] sub] l IH]; intros d; simpl; [auto|].
  destruct (insert_exercise name bp eqp notes sub d) as [[id d']|e] eqn:E; [|apply IH].
  apply insert_exercise_tables in E as (Es & Et & _).
  destruct (IH d') as [I1 I2]. split; congruence.
Qed.

Lemma ensure_preloaded_seeds (d : db) :
  exercises d = [] ->
  map (fun e => (ex_name e, ex_body_part e, ex_equipment e, ex_notes e, ex_subgroup e))
      (exercises (ensure_preloaded d))
  = PRELOADED_EXERCISES.
Proof.
  destruct d as [exs ses sts q1 q2 q3]. simpl. intros ->. reflexivity.
Qed.

(** X13: [ensure_preloaded] seeds an empty exercise table with the starter
    rows, as written and in order, and does nothing to a table that holds
    a row; either way the table is not empty afterwards, sessions and sets
    are untouched, and running it again changes nothing. *)
Theorem ensure_preloaded_once (d : db) :
  (exercises d = [] ->
   map (fun e => (ex_name e, ex_body_part e, ex_equipment e, ex_notes e, ex_subgroup e))
       (exercises (ensure_preloaded d))
   = PRELOADED_EXERCISES)
  /\ (exercises d <> [] -> ensure_preloaded d = d)
  /\ exercises (ensure_preloaded d) <> []
  /\ sessions (ensure_preloaded d) = sessions d
  /\ sets (ensure_preloaded d) = sets d
  /\ ensure_preloaded (ensure_preloaded d) = ensure_preloaded d.
Proof.
  assert (Hkeep : forall d0, exercises d0 <> [] -> ensure_preloaded d0 = d0).
  { intros d0 H. unfold ensure_preloaded. destruct (exercises d0); [congruence | reflexivity]. }
  assert (Hfull : exercises (ensure_preloaded d) <> []).
  { destruct (exercises d) as [|e l] eqn:E.
    - intros H. pose proof (ensure_preloaded_seeds d E) as S. rewrite H in S. discriminate.
    - rewrite Hkeep; congruence. }
  destruct (ensure_preloaded_tables d) as [Es Et].
  split; [exact (ensure_preloaded_seeds d)|].
  split; [exact (Hkeep d)|]. split; [exact Hfull|].
  split; [exact Es|]. split; [exact Et|].
  apply Hkeep. exact Hfull.
Qed.

Lemma ensure_preloaded_once_witness :
  exercises (delete_exercise 1 (delete_exercise 2 (delete_exercise 3 sample_db))) = []
  /\ map ex_id (exercises (ensure_preloaded
                             (delete_exercise 1 (delete_exercise 2 (delete_exercise 3 sample_db)))))
     = [4; 5; 6]
  /\ ensure_preloaded sample_db = sample_db.
Proof.
  split; [reflexivity|]. split; [reflexivity|].
  apply (proj1 (proj2 (ensure_preloaded_once sample_db))). discriminate.
Defined.

(** ** The exercise dialogs *)

Lemma validate_exercise_name_strip (n : string) :
  validate_exercise_name (PyStr.strip n) = validate_exercise_name n.
Proof.
  unfold validate_exercise_name. rewrite strip_idem.
  destruct n as [|c r]; [reflexivity|]. simpl PyStr.truthy at 2.
  destruct (PyStr.truthy (PyStr.strip (String c r))); reflexivity.
Qed.

Lemma validate_exercise_name_fixed (n name : string) :
  validate_exercise_name n = Ok name -> PyStr.strip name = name.
Proof.
  unfold validate_exercise_name.
  destruct (_ || _); [discriminate|]. destruct (_ <? _); [discriminate|].
  intros H. injection H as <-. apply strip_idem.
Qed.

Lemma refresh_exercises_cache (a : app) :
  exercises_cache (refresh_exercises a) = get_exercises (the_db a).
Proof.
  unfold refresh_exercises. destruct (get_exercises (the_db a)) as [|e rows] eqn:E;
    [reflexivity|].
  unfold on_ex_select. destruct (get_selected_exercise _); reflexivity.
Qed.





(** ** The program as it runs *)

Lemma numbered_nil : numbered [].
Proof. reflexivity. Qed.

Lemma numbered_snoc (l : list Z) :
  numbered l -> numbered (l ++ [Z.of_nat (List.length l) + 1]).
Proof.
  unfold numbered. intros H. rewrite length_app. simpl.
  rewrite Nat.add_1_r, seq_S, map_app, <- H. simpl.
  do 2 f_equal. lia.
Qed.

Lemma firstn_of_seq (k start len : nat) :
  firstn k (seq start len) = seq start (Nat.min k len).
Proof.
  revert start len. induction k as [|k IH]; intros start [|len]; simpl; try reflexivity.
  rewrite IH. reflexivity.
Qed.

Lemma numbered_firstn (k : nat) (l : list Z) : numbered l -> numbered (firstn k l).
Proof.
  unfold numbered. intros H. rewrite length_firstn.
  rewrite H at 1. rewrite firstn_map, firstn_of_seq. reflexivity.
Qed.

Lemma numbered_ascending (rows : list set_row) :
  numbered (map st_set_index rows) ->
  StronglySorted (fun a b => (st_set_index a <=? st_set_index b) = true) rows.
Proof.
  unfold numbered. rewrite length_map. generalize 1%nat.
  induction rows as [|x rows IH]; intros s H; simpl in *; [constructor|].
  injection H as Hx Hrest. constructor; [exact (IH _ Hrest)|].
  rewrite Forall_forall. intros y Hy. apply Z.leb_le.
  assert (Hin : In (st_set_index y) (map st_set_index rows)) by (apply in_map; exact Hy).
  rewrite Hrest in Hin. apply in_map_iff in Hin as (k & Ek & Hk).
  apply in_seq in Hk. lia.
Qed.

Lemma filter_key_keep (g : Z -> bool) (k : Z) (l : list set_row) :
  filter (fun t => st_session_id t =? k) (filter (fun t => g (st_session_id t)) l)
  = if g k then filter (fun t => st_session_id t =? k) l else [].
Proof.
  induction l as [|t l IH]; simpl; [destruct (g k); reflexivity|].
  destruct (g (st_session_id t)) eqn:Hg; destruct (st_session_id t =? k) eqn:E; simpl;
    rewrite ?E, IH; try reflexivity.
  - apply Z.eqb_eq in E. rewrite <- E, Hg. reflexivity.
  - apply Z.eqb_eq in E. rewrite <- E, Hg. reflexivity.
Qed.

Lemma store_ok_same_sets (d d' : db) : sets d' = sets d -> store_ok d -> store_ok d'.
Proof.
  unfold store_ok, indexes_of. intros ->. auto.
Qed.

Lemma store_ok_filter (g : Z -> bool) (d d' : db) :
  sets d' = filter (fun t => g (st_session_id t)) (sets d) -> store_ok d -> store_ok d'.
Proof.
  unfold store_ok, indexes_of. intros -> [Hn Hu]. split.
  - intros sid. rewrite filter_key_keep. destruct (g sid); [apply Hn | apply numbered_nil].
  - apply Forall_keep. exact Hu.
Qed.

Lemma delete_session_store_ok (sid : Z) (d : db) :
  store_ok d -> store_ok (delete_session sid d).
Proof.
  intros H. unfold delete_session. destruct (has_session sid d); [|exact H].
  apply (store_ok_filter (fun x => negb (x =? sid)) d); [reflexivity | exact H].
Qed.

Lemma delete_exercise_store_ok (id : Z) (d : db) :
  store_ok d -> store_ok (delete_exercise id d).
Proof.
  intros H. unfold delete_exercise. destruct (has_exercise id d); [|exact H].
  apply (store_ok_filter
           (fun x => negb (existsb (fun s => se_id s =? x)
                                   (filter (fun s => se_exercise_id s =? id) (sessions d))))
           d); [reflexivity | exact H].
Qed.

Lemma ensure_preloaded_store_ok (d : db) : store_ok d -> store_ok (ensure_preloaded d).
Proof. apply store_ok_same_sets. apply ensure_preloaded_tables. Qed.

(** *** The cached list *)

Lemma exercise_le_columns (a a' b b' : exercise_row) :
  stored_columns a = stored_columns a' -> stored_columns b = stored_columns b' ->
  exercise_le a b = exercise_le a' b'.
Proof.
  unfold stored_columns, exercise_le. intros Ha Hb.
  injection Ha as _ Ha1 Ha2 _ _ _. injection Hb as _ Hb1 Hb2 _ _ _.
  rewrite Ha1, Ha2, Hb1, Hb2. reflexivity.
Qed.

Lemma insert_by_columns (x x' : exercise_row) (l l' : list exercise_row) :
  stored_columns x = stored_columns x' ->
  map stored_columns l = map stored_columns l' ->
  map stored_columns (insert_by exercise_le x l)
  = map stored_columns (insert_by exercise_le x' l').
Proof.
  intros Hx. revert l'. induction l as [|y l IH]; intros [|y' l'] H; simpl in *;
    try discriminate.
  - rewrite Hx. reflexivity.
  - assert (Hy : stored_columns y = stored_columns y') by (exact (f_equal (hd (stored_columns y)) H)).
    assert (Hl : map stored_columns l = map stored_columns l') by (exact (f_equal (@tl _) H)).
    rewrite (exercise_le_columns x x' y y' Hx Hy).
    destruct (exercise_le x' y'); simpl.
    + rewrite Hx, Hy, Hl. reflexivity.
    + rewrite Hy. f_equal. apply IH. exact Hl.
Qed.

Lemma order_by_columns (l l' : list exercise_row) :
  map stored_columns l = map stored_columns l' ->
  map stored_columns (order_by exercise_le l)
  = map stored_columns (order_by exercise_le l').
Proof.
  revert l'. induction l as [|x l IH]; intros [|x' l'] H; simpl in *; try discriminate.
  - reflexivity.
  - assert (Hx : stored_columns x = stored_columns x') by (exact (f_equal (hd (stored_columns x)) H)).
    assert (Hl : map stored_columns l = map stored_columns l') by (exact (f_equal (@tl _) H)).
    apply insert_by_columns; [exact Hx | apply IH; exact Hl].
Qed.

(** The listing, up to the last-session column, depends on the exercise
    table alone. *)
Lemma get_exercises_columns (d d' : db) :
  exercises d' = exercises d ->
  map stored_columns (get_exercises d') = map stored_columns (get_exercises d).
Proof.
  intros E. unfold get_exercises. apply order_by_columns.
  rewrite E, !map_map. reflexivity.
Qed.

Lemma cache_ok_selected (a : app) (sel : exercise_row) :
  cache_ok a -> get_selected_exercise a = Some sel ->
  has_exercise (row_id sel) (the_db a) = true.
Proof.
  unfold cache_ok, get_selected_exercise. intros Hc Hs.
  destruct (ex_selection a) as [i|]; [|discriminate].
  apply find_some in Hs as [Hin _].
  assert (H : In (stored_columns sel) (map stored_columns (get_exercises (the_db a)))).
  { rewrite <- Hc. apply in_map. exact Hin. }
  apply in_map_iff in H as (row & E & Hrow).
  apply in_get_exercises in Hrow as (e & He & ->).
  apply existsb_id_In. exists e. split; [exact He|].
  unfold stored_columns in E. simpl in E. congruence.
Qed.

(** *** The set pane *)

Lemma pane_ok_cleared (a : app) :
  sets_tree a = [] -> set_buffer a = [] -> unit_ok (unit_var a) -> pane_ok a.
Proof.
  intros Ht Hb Hu. unfold pane_ok. rewrite Hb. simpl.
  split; [apply in_sync_empty; assumption|].
  split; [apply numbered_nil|]. split; [exact Hu | constructor].
Qed.

Lemma on_ex_select_pane (a : app) : pane_ok a -> pane_ok (on_ex_select a).
Proof.
  intros H. unfold on_ex_select. destruct (get_selected_exercise a); [|exact H].
  apply pane_ok_cleared; try reflexivity. apply H.
Qed.

Lemma refresh_exercises_pane (a : app) : pane_ok a -> pane_ok (refresh_exercises a).
Proof.
  intros H. unfold refresh_exercises.
  destruct (get_exercises (the_db a)); [exact H|].
  apply on_ex_select_pane. exact H.
Qed.

Lemma on_ex_select_cache (a : app) :
  exercises_cache (on_ex_select a) = exercises_cache a.
Proof. unfold on_ex_select. destruct (get_selected_exercise a); reflexivity. Qed.

Lemma Forall2_in_left {A B : Type} (P : A -> B -> Prop) (l : list A) (l' : list B) (x : A) :
  Forall2 P l l' -> In x l -> exists y, In y l' /\ P x y.
Proof.
  induction 1 as [|a b l l' Hab _ IH]; simpl; [intros []|].
  intros [<-|Hx]; [eauto|]. destruct (IH Hx) as (y & Hy & Hp). eauto.
Qed.

Lemma In_firstn {A : Type} (k : nat) (l : list A) (x : A) : In x (firstn k l) -> In x l.
Proof.
  revert l. induction k as [|k IH]; intros [|y l]; simpl; try tauto.
  intros [H|H]; auto.
Qed.

Ltac same_health :=
  match goal with
  | Hr : reachable _, Hs : store_ok _, Hc : cache_ok _, Hp : pane_ok _ |- _ =>
      exact (conj Hr (conj Hs (conj Hc Hp)))
  end.

Section RunningFacts.
Context {R : Runtime}.

Lemma renumber_from_rows (i : Z) (items : list tree_item) (row : buf_row) :
  In row (map fst (renumber_from i items)) ->
  exists item, In item items /\ b_unit row = c_unit item
               /\ b_weight row = tk_value (c_weight item)
               /\ b_reps row = tk_value (c_reps item).
Proof.
  revert i. induction items as [|item rest IH]; intros i; simpl; [intros []|].
  intros [<-|H].
  - exists item. simpl. auto.
  - destruct (IH _ H) as (it & Hit & E). exists it. auto.
Qed.

Lemma stored_as_columns (sid : Z) (l : list buf_row) (rows : list set_row) :
  Forall2 (stored_as sid) l rows ->
  map st_set_index rows = map b_idx l
  /\ map st_unit rows = map b_unit l
  /\ Forall (fun t => st_session_id t = sid) rows.
Proof.
  induction 1 as [|row t l rows Hrt _ (I1 & I2 & I3)]; simpl; [auto|].
  destruct Hrt as (H1 & H2 & _ & _ & _ & H6).
  rewrite I1, I2, H2, H6. auto.
Qed.

Lemma filter_session_all (sid : Z) (rows : list set_row) :
  Forall (fun t => st_session_id t = sid) rows ->
  filter (fun t => st_session_id t =? sid) rows = rows.
Proof.
  intros H. apply filter_all. rewrite Forall_forall in H.
  intros t Ht. apply Z.eqb_eq. auto.
Qed.

Lemma filter_session_none (sid other : Z) (rows : list set_row) :
  other <> sid -> Forall (fun t => st_session_id t = sid) rows ->
  filter (fun t => st_session_id t =? other) rows = [].
Proof.
  intros Hne H. apply filter_nil_iff. rewrite Forall_forall in H.
  intros t Ht. apply Z.eqb_neq. rewrite (H t Ht). congruence.
Qed.

Lemma add_sets_steps (sid : Z) (buf : list buf_row) (d : db) :
  db_steps d (fst (add_sets sid buf d)).
Proof.
  assert (G : forall d0, db_steps d d0 -> db_steps d (fst (add_sets sid buf d0))).
  { induction buf as [|s rest IH]; intros d0 H0; simpl; [exact H0|].
    destruct (add_set sid (b_idx s) (b_weight s) (b_reps s) (b_rir s) (b_unit s) d0)
      as [[id d1]|e] eqn:E; [|exact H0].
    apply IH. eapply steps_more; [exact H0 | eapply step_add_set; exact E]. }
  apply G. apply steps_none.
Qed.

(** The store after the inserts of [save_session], whether or not the
    loop over the buffer ran to its end. *)
Lemma save_store_ok (eid : Z) (date_str notes : string) (buf : list buf_row)
      (d d1 : db) (sid : Z) :
  reachable d -> store_ok d ->
  numbered (map b_idx buf) -> Forall (fun row => unit_ok (b_unit row)) buf ->
  add_session eid date_str notes d = Ok (sid, d1) ->
  reachable (fst (add_sets sid buf d1))
  /\ store_ok (fst (add_sets sid buf d1))
  /\ exercises (fst (add_sets sid buf d1)) = exercises d.
Proof.
  intros Hr [Hn Hu] Hbuf Hunits Hadd.
  assert (Hr1 : reachable d1) by (eapply reach_step; [exact Hr | eapply step_add_session; exact Hadd]).
  pose proof (reachable_no_orphans d Hr) as [_ Hno].
  apply add_session_tables in Hadd as (_ & Ee & Et & Es & Eid).
  destruct (add_sets_prefix sid buf d1) as (k & rows & _ & He & _ & Hsets & Hrows & _).
  destruct (stored_as_columns _ _ _ Hrows) as (Hidx & Hun & Hsid).
  split; [exact (db_steps_reachable _ _ Hr1 (add_sets_steps sid buf d1))|].
  split; [|congruence].
  assert (Hfresh : filter (fun t => st_session_id t =? sid) (sets d) = []).
  { apply filter_nil_iff. intros t Ht. apply Z.eqb_neq. intros E.
    destruct (Hno t Ht) as (s & Hs & Es').
    assert (se_id s < sid) by (rewrite Eid; apply next_rowid_above, in_map; exact Hs).
    lia. }
  unfold store_ok, indexes_of. rewrite Hsets, Et. split.
  - intros x. rewrite filter_app, map_app.
    destruct (Z.eq_dec x sid) as [->|Hne].
    + rewrite Hfresh, (filter_session_all _ _ Hsid). simpl.
      rewrite Hidx, <- firstn_map. apply numbered_firstn. exact Hbuf.
    + rewrite (filter_session_none sid x rows Hne Hsid), app_nil_r. apply Hn.
  - apply Forall_app. split; [exact Hu|].
    rewrite Forall_forall in *. intros t Ht.
    assert (Hin : In (st_unit t) (map b_unit (firstn k buf)))
      by (rewrite <- Hun; apply in_map; exact Ht).
    apply in_map_iff in Hin as (row & <- & Hrow).
    apply Hunits. apply (In_firstn _ _ _ Hrow).
Qed.

(** The three ways [save_session] ends. *)
Lemma save_session_cases (a : app) :
  (exists m, save_session a = show m a)
  \/ (exists sel sid d1 d2 e,
        add_session (row_id sel) (PyStr.strip (date_widget a))
                    (PyStr.strip (note_entry a)) (the_db a) = Ok (sid, d1)
        /\ add_sets sid (set_buffer a) d1 = (d2, Some e)
        /\ save_session a = show (showerror "Error" (exn_text e)) (with_db d2 a))
  \/ (exists sel sid d1 d2,
        add_session (row_id sel) (PyStr.strip (date_widget a))
                    (PyStr.strip (note_entry a)) (the_db a) = Ok (sid, d1)
        /\ add_sets sid (set_buffer a) d1 = (d2, None)
        /\ set_buffer a <> []
        /\ save_session a
           = refresh_exercises
               (on_ex_select
                  (with_sets [] [] (show (showinfo "Saved" "Session saved.") (with_db d2 a))))).
Proof.
  unfold save_session.
  destruct (get_selected_exercise a) as [sel|]; [|left; eauto].
  destruct (negb _); [left; eauto|].
  destruct (set_buffer a) as [|b0 buf] eqn:Eb; [left; eauto|]. rewrite <- Eb.
  destruct (add_session _ _ _ _) as [[sid d1]|e1] eqn:Ea; [|left; eauto].
  destruct (add_sets sid (set_buffer a) d1) as [d2 [e2|]] eqn:Es.
  - right. left. exists sel, sid, d1, d2, e2. auto.
  - right. right. exists sel, sid, d1, d2. repeat split; auto. rewrite Eb. discriminate.
Qed.

Lemma refresh_healthy (a : app) :
  reachable (the_db a) -> store_ok (the_db a) -> pane_ok a ->
  healthy (refresh_exercises a).
Proof.
  intros Hr Hs Hp. destruct (refresh_exercises_keeps a) as (R1 & _).
  unfold healthy, cache_ok. rewrite refresh_exercises_cache, R1.
  split; [exact Hr|]. split; [exact Hs|]. split; [reflexivity|].
  apply refresh_exercises_pane. exact Hp.
Qed.

Lemma new_app_healthy (d : db) (today : string) :
  reachable d -> store_ok d -> healthy (new_app d today).
Proof.
  intros Hr Hs. unfold new_app. apply refresh_healthy; try assumption.
  apply pane_ok_cleared; try reflexivity. left. reflexivity.
Qed.

Lemma on_ex_select_healthy (a : app) : healthy a -> healthy (on_ex_select a).
Proof.
  intros (Hr & Hs & Hc & Hp). destruct (on_ex_select_keeps a) as (O1 & _).
  unfold healthy, cache_ok. rewrite O1, on_ex_select_cache.
  split; [exact Hr|]. split; [exact Hs|]. split; [exact Hc|].
  apply on_ex_select_pane. exact Hp.
Qed.

Lemma save_session_healthy (a : app) : healthy a -> healthy (save_session a).
Proof.
  intros (Hr & Hs & Hc & Hp).
  destruct (save_session_cases a)
    as [(m & ->)|[(sel & sid & d1 & d2 & e & Ea & Es & ->)|(sel & sid & d1 & d2 & Ea & Es & _ & ->)]].
  - same_health.
  - destruct Hp as (P1 & P2 & P3 & P4).
    destruct (save_store_ok _ _ _ _ _ _ _ Hr Hs P2 P4 Ea) as (S1 & S2 & S3).
    rewrite Es in S1, S2, S3. simpl in S1, S2, S3.
    split; [exact S1|]. split; [exact S2|]. split.
    + unfold cache_ok in *. simpl. rewrite Hc. symmetry.
      apply get_exercises_columns. exact S3.
    + exact (conj P1 (conj P2 (conj P3 P4))).
  - destruct Hp as (P1 & P2 & P3 & P4).
    destruct (save_store_ok _ _ _ _ _ _ _ Hr Hs P2 P4 Ea) as (S1 & S2 & S3).
    rewrite Es in S1, S2, S3. simpl in S1, S2, S3.
    match goal with |- healthy (refresh_exercises ?x) =>
      destruct (on_ex_select_keeps (with_sets [] [] (show (showinfo "Saved" "Session saved.")
                                                         (with_db d2 a)))) as (O1 & _) end.
    apply refresh_healthy.
    + rewrite O1. exact S1.
    + rewrite O1. exact S2.
    + apply on_ex_select_pane. apply pane_ok_cleared; try reflexivity. exact P3.
Qed.

Lemma add_set_from_quick_healthy (a a' : app) :
  healthy a -> add_set_from_quick a = Ok a' -> healthy a'.
Proof.
  intros (Hr & Hs & Hc & Hp) H.
  pose proof (add_set_from_quick_in_sync a a' (proj1 Hp) H) as Hsync.
  destruct Hp as (P1 & P2 & P3 & P4).
  unfold add_set_from_quick in H.
  destruct (validate_weight_reps _ _) as [[weight reps]|e].
  - match type of H with bind ?x _ = _ => destruct x as [rv|] end; simpl in H;
      [|discriminate].
    injection H as <-. unfold healthy, cache_ok, pane_ok in *. simpl in *.
    split; [exact Hr|]. split; [exact Hs|]. split; [exact Hc|].
    split; [exact Hsync|]. split; [|split; [exact P3|]].
    + rewrite map_app. simpl.
      rewrite <- (length_map b_idx (set_buffer a)). apply numbered_snoc. exact P2.
    + apply Forall_app. split; [exact P4|]. constructor; [exact P3 | constructor].
  - injection H as <-.
    exact (conj Hr (conj Hs (conj Hc (conj P1 (conj P2 (conj P3 P4)))))).
Qed.

Lemma remove_set_healthy (sel : list Z) (a : app) : healthy a -> healthy (remove_set sel a).
Proof.
  intros (Hr & Hs & Hc & Hp).
  pose proof (remove_set_in_sync sel a (proj1 Hp)) as Hsync.
  destruct sel as [|i sel]; [same_health|].
  destruct Hp as ((Hdisp & _) & P2 & P3 & P4).
  pose proof (remove_set_contiguous (i :: sel) a ltac:(discriminate)) as Hnum.
  split; [exact Hr|]. split; [exact Hs|]. split; [exact Hc|].
  split; [exact Hsync|]. split; [|split; [exact P3|]].
  - unfold numbered. rewrite length_map. exact Hnum.
  - rewrite Forall_forall in *. intros row Hrow.
    unfold remove_set, with_sets in Hrow. cbn [set_buffer] in Hrow.
    apply renumber_from_rows in Hrow as (item & Hitem & Eu & _).
    apply filter_In in Hitem as [Hitem _].
    destruct (Forall2_in_left _ _ _ _ Hdisp Hitem) as (old & Hold & Hd).
    destruct Hd as (_ & _ & _ & _ & Hunit).
    rewrite Eu, Hunit. apply P4. exact Hold.
Qed.

Lemma on_session_select_buffer (sid : Z) (a : app) :
  set_buffer (on_session_select sid a)
  = map (fun t => {| b_idx := st_set_index t; b_weight := VFloat (st_weight t);
                     b_reps := VInt (st_reps t); b_rir := opt_int (st_rir t);
                     b_unit := st_unit t |})
        (order_by (fun x y => st_set_index x <=? st_set_index y)
                  (filter (fun t => st_session_id t =? sid) (sets (the_db a)))).
Proof.
  unfold on_session_select, get_sets_for_session. cbn [set_buffer].
  rewrite !map_map. apply map_ext. intros t. reflexivity.
Qed.

Lemma on_session_select_healthy (sid : Z) (a : app) :
  healthy a -> healthy (on_session_select sid a).
Proof.
  intros (Hr & Hs & Hc & Hp).
  pose proof (on_session_select_in_sync sid a) as Hsync.
  destruct Hs as [Hn Hu]. destruct Hp as (_ & _ & P3 & _).
  split; [exact Hr|]. split; [split; assumption|]. split; [exact Hc|].
  split; [exact Hsync|].
  rewrite on_session_select_buffer.
  assert (Hord : order_by (fun x y => st_set_index x <=? st_set_index y)
                   (filter (fun t => st_session_id t =? sid) (sets (the_db a)))
                 = filter (fun t => st_session_id t =? sid) (sets (the_db a))).
  { apply order_by_ordered. apply numbered_ascending. apply Hn. }
  rewrite Hord. split; [|split; [exact P3|]].
  - rewrite map_map. simpl. apply Hn.
  - rewrite Forall_forall in *. intros row Hrow.
    apply in_map_iff in Hrow as (t & <- & Ht). simpl.
    apply filter_In in Ht as [Ht _]. auto.
Qed.

Lemma delete_session_confirm_healthy (sel : option Z) (yes : bool) (a : app) :
  healthy a -> healthy (delete_session_confirm sel yes a).
Proof.
  intros H. unfold delete_session_confirm.
  destruct sel as [sid|]; [|destruct H as (Hr & Hs & Hc & Hp); same_health].
  destruct yes; [|exact H].
  assert (G : healthy (on_ex_select (with_db (delete_session sid (the_db a)) a))).
  { apply on_ex_select_healthy. destruct H as (Hr & Hs & Hc & Hp).
    split; [|split; [|split]].
    - eapply reach_step; [exact Hr | apply step_delete_session].
    - apply delete_session_store_ok. exact Hs.
    - unfold cache_ok in *. simpl. rewrite Hc. symmetry.
      apply get_exercises_columns.
      unfold delete_session. destruct (has_session sid (the_db a)); reflexivity.
    - exact Hp. }
  destruct G as (Hr & Hs & Hc & Hp). same_health.
Qed.

Lemma add_exercise_dialog_healthy (dlg : dialog_outcome) (a : app) :
  healthy a -> healthy (add_exercise_dialog dlg a).
Proof.
  intros H. unfold add_exercise_dialog.
  destruct (dialog_result dlg) as [f|]; [|exact H].
  destruct (validate_exercise_name (r_name f)) as [name|x]; simpl;
    [|destruct H as (Hr & Hs & Hc & Hp); same_health].
  destruct (add_exercise name (r_body_part f) (r_equipment f) (r_notes f) (r_subgroup f)
              (the_db a)) as [[id d']|x] eqn:E;
    [|destruct H as (Hr & Hs & Hc & Hp); same_health].
  destruct H as (Hr & Hs & Hc & Hp). apply refresh_healthy.
  - eapply reach_step; [exact Hr | eapply step_add_exercise; exact E].
  - apply (store_ok_same_sets (the_db a)); [|exact Hs].
    apply add_exercise_insert, insert_exercise_tables in E. apply E.
  - exact Hp.
Qed.

Lemma edit_exercise_dialog_healthy (dlg : dialog_outcome) (a : app) :
  healthy a -> healthy (edit_exercise_dialog dlg a).
Proof.
  intros H. unfold edit_exercise_dialog.
  destruct (get_selected_exercise a) as [sel|];
    [|destruct H as (Hr & Hs & Hc & Hp); same_health].
  destruct (dialog_result dlg) as [f|]; [|exact H].
  destruct (validate_exercise_name (r_name f)) as [name|x]; simpl;
    [|destruct H as (Hr & Hs & Hc & Hp); same_health].
  destruct (update_exercise (row_id sel) name (r_body_part f) (r_equipment f) (r_notes f)
              (r_subgroup f) (the_db a)) as [d'|x] eqn:E;
    [|destruct H as (Hr & Hs & Hc & Hp); same_health].
  destruct H as (Hr & Hs & Hc & Hp). apply refresh_healthy.
  - eapply reach_step; [exact Hr | eapply step_update_exercise; exact E].
  - apply (store_ok_same_sets (the_db a)); [|exact Hs].
    unfold update_exercise in E. destruct (_ && _); [discriminate|].
    injection E as <-. reflexivity.
  - exact Hp.
Qed.

Lemma delete_exercise_confirm_healthy (yes : bool) (a : app) :
  healthy a -> healthy (delete_exercise_confirm yes a).
Proof.
  intros H. unfold delete_exercise_confirm.
  destruct (get_selected_exercise a) as [sel|];
    [|destruct H as (Hr & Hs & Hc & Hp); same_health].
  destruct yes; [|exact H].
  destruct H as (Hr & Hs & Hc & Hp). apply refresh_healthy.
  - eapply reach_step; [exact Hr | apply step_delete_exercise].
  - apply delete_exercise_store_ok. exact Hs.
  - exact Hp.
Qed.

Lemma handler_step_healthy (a a' : app) : handler_step a a' -> healthy a -> healthy a'.
Proof.
  intros Hstep H. destruct Hstep.
  - exact H.
  - exact H.
  - destruct H as (Hr & Hs & Hc & (P1 & P2 & _ & P4)).
    match goal with Hu : _ \/ _ |- _ =>
      exact (conj Hr (conj Hs (conj Hc (conj P1 (conj P2 (conj Hu P4)))))) end.
  - unfold pick_exercise. apply on_ex_select_healthy.
    destruct H as (Hr & Hs & Hc & Hp). same_health.
  - eapply add_set_from_quick_healthy; eassumption.
  - apply remove_set_healthy. exact H.
  - apply save_session_healthy. exact H.
  - apply on_session_select_healthy. exact H.
  - apply delete_session_confirm_healthy. exact H.
  - apply add_exercise_dialog_healthy. exact H.
  - apply edit_exercise_dialog_healthy. exact H.
  - apply delete_exercise_confirm_healthy. exact H.
Qed.

Lemma init_db_reachable : reachable init_db.
Proof. eapply reach_step; [apply reach_empty | apply step_ensure_preloaded]. Qed.

Lemma running_healthy (a : app) : running a -> healthy a.
Proof.
  induction 1 as [today|a today _ IH|a a' _ IH Hstep].
  - apply new_app_healthy; [apply init_db_reachable|].
    split; [intros sid; apply numbered_nil | constructor].
  - destruct IH as (Hr & Hs & _). apply new_app_healthy.
    + eapply reach_step; [exact Hr | apply step_ensure_preloaded].
    + apply ensure_preloaded_store_ok. exact Hs.
  - exact (handler_step_healthy _ _ Hstep IH).
Qed.

End RunningFacts.

(** *** What the columns hold *)

Lemma filter_true {A : Type} (l : list A) : filter (fun _ => true) l = l.
Proof. apply filter_all. reflexivity. Qed.

Lemma flt_false_fge (w : spec_float) :
  is_nan w = false -> flt w fzero = false -> fge w fzero = true.
Proof.
  unfold flt, fge, SFltb, fzero.
  destruct w as [s|s| |s m e]; simpl; try discriminate; try reflexivity;
    destruct s; simpl; try discriminate; reflexivity.
Qed.

Section RangeFacts.
Context {R : Runtime}.

(** A writing call leaves the sets, removes some of them, or appends one
    that [add_set] has bound. *)
Lemma db_step_sets (d d' : db) :
  db_step d d' ->
  (exists g, sets d' = filter g (sets d))
  \/ (exists t, sets d' = (sets d ++ [t])%list /\ storable t).
Proof.
  intros H. destruct H as [d|d n bp eqp nt sub id d' H|d id n bp eqp nt sub d' H|d id
                          |d eid ds nt id d' H|d sid idx w r i u id d' H|d sid].
  - left. exists (fun _ => true). rewrite filter_true. apply ensure_preloaded_tables.
  - left. exists (fun _ => true). rewrite filter_true.
    apply add_exercise_insert, insert_exercise_tables in H. apply H.
  - left. exists (fun _ => true). rewrite filter_true.
    unfold update_exercise in H. destruct (_ && _); [discriminate|].
    injection H as <-. reflexivity.
  - left. unfold delete_exercise. destruct (has_exercise id d).
    + eexists. reflexivity.
    + exists (fun _ => true). rewrite filter_true. reflexivity.
  - left. exists (fun _ => true). rewrite filter_true.
    apply add_session_tables in H. apply H.
  - right. apply add_set_storable in H as (t & Ht & Hs & _). eauto.
  - left. unfold delete_session. destruct (has_session sid d).
    + eexists. reflexivity.
    + exists (fun _ => true). rewrite filter_true. reflexivity.
Qed.

Lemma reachable_storable (d : db) : reachable d -> Forall storable (sets d).
Proof.
  induction 1 as [|d d' _ IH Hstep]; [constructor|].
  destruct (db_step_sets _ _ Hstep) as [(g & ->)|(t & -> & Ht)].
  - apply Forall_keep. exact IH.
  - apply Forall_app. split; [exact IH | constructor; [exact Ht | constructor]].
Qed.

Lemma quiet_refl (a : app) : quiet a a.
Proof. split; apply incl_refl. Qed.

Lemma quiet_trans (a b c : app) : quiet a b -> quiet b c -> quiet a c.
Proof. intros [H1 H2] [H3 H4]. split; eapply incl_tran; eassumption. Qed.

Lemma on_ex_select_quiet (a : app) : quiet a (on_ex_select a).
Proof.
  unfold on_ex_select. destruct (get_selected_exercise a); [|apply quiet_refl].
  split; simpl; [apply incl_nil_l | apply incl_refl].
Qed.

Lemma refresh_exercises_quiet (a : app) : quiet a (refresh_exercises a).
Proof.
  unfold refresh_exercises.
  destruct (get_exercises (the_db a)); [split; apply incl_refl|].
  match goal with |- quiet _ (on_ex_select ?x) =>
    apply (quiet_trans a x); [split; apply incl_refl | apply on_ex_select_quiet] end.
Qed.

Lemma with_db_quiet (d' : db) (a : app) :
  incl (sets d') (sets (the_db a)) -> quiet a (with_db d' a).
Proof. intros H. split; [apply incl_refl | exact H]. Qed.

Lemma delete_session_confirm_quiet (sel : option Z) (yes : bool) (a : app) :
  quiet a (delete_session_confirm sel yes a).
Proof.
  unfold delete_session_confirm. destruct sel as [sid|]; [|split; apply incl_refl].
  destruct yes; [|split; apply incl_refl].
  apply (quiet_trans a (on_ex_select (with_db (delete_session sid (the_db a)) a)));
    [|split; apply incl_refl].
  eapply quiet_trans; [|apply on_ex_select_quiet].
  apply with_db_quiet. unfold delete_session.
  destruct (has_session sid (the_db a)); [apply incl_filter | apply incl_refl].
Qed.

Lemma add_exercise_dialog_quiet (dlg : dialog_outcome) (a : app) :
  quiet a (add_exercise_dialog dlg a).
Proof.
  unfold add_exercise_dialog. destruct (dialog_result dlg) as [f|]; [|split; apply incl_refl].
  destruct (validate_exercise_name (r_name f)) as [name|x]; simpl; [|split; apply incl_refl].
  destruct (add_exercise _ _ _ _ _ _) as [[id d']|x] eqn:E; [|split; apply incl_refl].
  eapply quiet_trans; [|apply refresh_exercises_quiet].
  apply with_db_quiet.
  apply add_exercise_insert, insert_exercise_tables in E as (_ & -> & _).
  apply incl_refl.
Qed.

Lemma edit_exercise_dialog_quiet (dlg : dialog_outcome) (a : app) :
  quiet a (edit_exercise_dialog dlg a).
Proof.
  unfold edit_exercise_dialog.
  destruct (get_selected_exercise a) as [sel|]; [|split; apply incl_refl].
  destruct (dialog_result dlg) as [f|]; [|split; apply incl_refl].
  destruct (validate_exercise_name (r_name f)) as [name|x]; simpl; [|split; apply incl_refl].
  destruct (update_exercise _ _ _ _ _ _ _) as [d'|x] eqn:E; [|split; apply incl_refl].
  eapply quiet_trans; [|apply refresh_exercises_quiet].
  apply with_db_quiet.
  unfold update_exercise in E. destruct (_ && _); [discriminate|].
  injection E as <-. apply incl_refl.
Qed.

Lemma delete_exercise_confirm_quiet (yes : bool) (a : app) :
  quiet a (delete_exercise_confirm yes a).
Proof.
  unfold delete_exercise_confirm.
  destruct (get_selected_exercise a) as [sel|]; [|split; apply incl_refl].
  destruct yes; [|split; apply incl_refl].
  eapply quiet_trans; [|apply refresh_exercises_quiet].
  apply with_db_quiet. unfold delete_exercise.
  destruct (has_exercise (row_id sel) (the_db a)); [apply incl_filter | apply incl_refl].
Qed.

Lemma quiet_ranged (a a' : app) : quiet a a' -> ranged a -> ranged a'.
Proof.
  intros [H1 H2] [R1 R2]. split; eapply incl_Forall; eassumption.
Qed.

Lemma validated_in_range (w r : pyval) (weight : spec_float) (reps : Z) :
  validate_weight_reps w r = Ok (weight, reps) ->
  flt weight fzero = false /\ 1 <= reps.
Proof.
  unfold validate_weight_reps.
  destruct (bind _ _) as [[w0 r0]|]; [|discriminate].
  destruct (flt w0 fzero) eqn:E1; [discriminate|].
  destruct (r0 <=? 0) eqn:E2; [discriminate|]. simpl.
  intros H. injection H as <- <-. apply Z.leb_gt in E2. split; [exact E1 | lia].
Qed.

Lemma add_set_from_quick_ranged (a a' : app) :
  ranged a -> add_set_from_quick a = Ok a' -> ranged a'.
Proof.
  intros [R1 R2] H. unfold add_set_from_quick in H.
  destruct (validate_weight_reps _ _) as [[weight reps]|e] eqn:V.
  - match type of H with bind ?x _ = _ => destruct x as [rv|] end; simpl in H;
      [|discriminate].
    injection H as <-. split; [|exact R2]. simpl.
    apply Forall_app. split; [exact R1|]. constructor; [|constructor].
    exists weight, reps. simpl. destruct (validated_in_range _ _ _ _ V). auto.
  - injection H as <-. split; assumption.
Qed.

Lemma on_session_select_ranged (sid : Z) (a : app) :
  ranged a -> ranged (on_session_select sid a).
Proof.
  intros [R1 R2]. split; [|exact R2].
  rewrite on_session_select_buffer. rewrite Forall_forall in *.
  intros row Hrow. apply in_map_iff in Hrow as (t & <- & Ht).
  apply (Permutation_in _ (order_by_perm _ _)) in Ht.
  apply filter_In in Ht as [Ht _]. destruct (R2 t Ht) as [Hw Hr].
  exists (st_weight t), (st_reps t). simpl.
  repeat split; auto. apply fge_not_flt. exact Hw.
Qed.

Section Faithful.
Hypothesis Htk : tk_faithful.

Lemma remove_set_ranged (sel : list Z) (a : app) :
  in_sync a -> ranged a -> ranged (remove_set sel a).
Proof.
  intros (Hdisp & _) [R1 R2]. destruct sel as [|i sel]; [split; assumption|].
  split; [|exact R2].
  rewrite Forall_forall in *. intros row Hrow.
  unfold remove_set, with_sets in Hrow. cbn [set_buffer] in Hrow.
  apply renumber_from_rows in Hrow as (item & Hitem & _ & Ew & Er).
  apply filter_In in Hitem as [Hitem _].
  destruct (Forall2_in_left _ _ _ _ Hdisp Hitem) as (old & Hold & Hd).
  destruct Hd as (_ & Hw & Hr & _).
  destruct (R1 old Hold) as (w & r & Fw & Fr & Hrange).
  exists w, r. rewrite Ew, Er, Hw, Hr.
  rewrite (proj1 (Htk (b_weight old))), (proj2 (Htk (b_reps old))). auto.
Qed.

Lemma save_session_ranged (a : app) : healthy a -> ranged a -> ranged (save_session a).
Proof.
  intros (Hr & Hs & Hc & Hp) [R1 R2].
  assert (G : forall sid d1 ds nt eid,
             add_session eid ds nt (the_db a) = Ok (sid, d1) ->
             Forall set_in_range (sets (fst (add_sets sid (set_buffer a) d1)))).
  { intros sid d1 ds nt eid Ea.
    destruct Hp as (_ & P2 & _ & P4).
    destruct (save_store_ok _ _ _ _ _ _ _ Hr Hs P2 P4 Ea) as (S1 & _).
    apply reachable_storable in S1.
    apply add_session_tables in Ea as (_ & _ & Et & _).
    destruct (add_sets_prefix sid (set_buffer a) d1) as (k & rows & _ & _ & _ & Hsets & Hrows & _).
    rewrite Hsets, Et in *. apply Forall_app. split; [exact R2|].
    apply Forall_app in S1 as [_ S1].
    assert (Hpre : Forall row_in_range (firstn k (set_buffer a))).
    { rewrite Forall_forall in *. intros x Hx. apply R1. apply (In_firstn _ _ _ Hx). }
    clear - Hrows Hpre S1. induction Hrows as [|row t l rows Hrt _ IH]; [constructor|].
    inversion Hpre as [|? ? (w & r & Fw & Fr & Hw & Hrr) Hpre']; subst.
    inversion S1 as [|? ? (Hnan & _) S1']; subst.
    constructor; [|apply IH; assumption].
    destruct Hrt as (_ & _ & Ew & Er & _).
    rewrite Fw in Ew. rewrite Fr in Er. injection Ew as Ew. injection Er as Er.
    split; [apply flt_false_fge; [exact Hnan | rewrite <- Ew; exact Hw]
           | rewrite <- Er; exact Hrr]. }
  destruct (save_session_cases a)
    as [(m & ->)|[(sel & sid & d1 & d2 & e & Ea & Es & ->)|(sel & sid & d1 & d2 & Ea & Es & _ & ->)]].
  - split; assumption.
  - specialize (G _ _ _ _ _ Ea). rewrite Es in G. split; [exact R1 | exact G].
  - specialize (G _ _ _ _ _ Ea). rewrite Es in G.
    eapply quiet_ranged; [apply refresh_exercises_quiet|].
    eapply quiet_ranged; [apply on_ex_select_quiet|].
    split; [constructor | exact G].
Qed.

Lemma handler_step_ranged (a a' : app) :
  handler_step a a' -> healthy a -> ranged a -> ranged a'.
Proof.
  intros Hstep Hh H. destruct Hstep.
  - exact H.
  - exact H.
  - exact H.
  - unfold pick_exercise. eapply quiet_ranged; [apply on_ex_select_quiet | exact H].
  - eapply add_set_from_quick_ranged; eassumption.
  - apply remove_set_ranged; [apply Hh | exact H].
  - apply save_session_ranged; assumption.
  - apply on_session_select_ranged. exact H.
  - eapply quiet_ranged; [apply delete_session_confirm_quiet | exact H].
  - eapply quiet_ranged; [apply add_exercise_dialog_quiet | exact H].
  - eapply quiet_ranged; [apply edit_exercise_dialog_quiet | exact H].
  - eapply quiet_ranged; [apply delete_exercise_confirm_quiet | exact H].
Qed.

Lemma running_ranged (a : app) : running a -> ranged a.
Proof.
  induction 1 as [today|a today Hrun IH|a a' Hrun IH Hstep].
  - eapply quiet_ranged; [apply refresh_exercises_quiet|].
    split; cbn [set_buffer the_db]; [constructor|].
    unfold init_db. rewrite (proj2 (ensure_preloaded_tables empty_db)).
    constructor.
  - eapply quiet_ranged; [apply refresh_exercises_quiet|].
    split; cbn [set_buffer the_db]; [constructor|].
    rewrite (proj2 (ensure_preloaded_tables (the_db a))).
    apply IH.
  - exact (handler_step_ranged _ _ Hstep (running_healthy _ Hrun) IH).
Qed.

End Faithful.

End RangeFacts.

(** *** Saving and loading a session *)

Section RoundTrip.
Context {R : Runtime}.

Lemma rir_param_opt_int (i : option Z) : rir_param (opt_int i) = Ok i.
Proof. destruct i; reflexivity. Qed.

(** A set that came out of the store goes back in. *)
Lemma add_set_loaded (t : set_row) (sid : Z) (d : db) :
  storable t -> has_session sid d = true ->
  exists id d',
    add_set sid (st_set_index t) (VFloat (st_weight t)) (VInt (st_reps t))
            (opt_int (st_rir t)) (st_unit t) d = Ok (id, d').
Proof.
  intros (Hn & Hr & Hi) Hs. unfold add_set.
  rewrite rir_param_opt_int. cbn [py_float py_int bind].
  rewrite (bind_int_ok _ Hr). cbn [bind].
  destruct (st_rir t) as [n|]; cbn [bind].
  - rewrite (bind_int_ok _ Hi). cbn [bind]. rewrite Hn, Hs. eauto.
  - rewrite Hn, Hs. eauto.
Qed.

Lemma save_session_runs (a : app) (sel : exercise_row) (sid : Z) (d1 d2 : db) :
  get_selected_exercise a = Some sel ->
  strptime_ymd (PyStr.strip (date_widget a)) = true ->
  set_buffer a <> [] ->
  add_session (row_id sel) (PyStr.strip (date_widget a)) (PyStr.strip (note_entry a))
              (the_db a) = Ok (sid, d1) ->
  add_sets sid (set_buffer a) d1 = (d2, None) ->
  save_session a
  = refresh_exercises
      (on_ex_select
         (with_sets [] [] (show (showinfo "Saved" "Session saved.") (with_db d2 a)))).
Proof.
  intros H1 H2 H3 H4 H5. unfold save_session. rewrite H1, H2. cbn [negb].
  destruct (set_buffer a) as [|b0 buf] eqn:Eb; [congruence|].
  rewrite H4, H5. reflexivity.
Qed.

Lemma saved_store (a : app) (d2 : db) :
  the_db (refresh_exercises
            (on_ex_select
               (with_sets [] [] (show (showinfo "Saved" "Session saved.") (with_db d2 a)))))
  = d2
  /\ set_buffer (refresh_exercises
                   (on_ex_select
                      (with_sets [] [] (show (showinfo "Saved" "Session saved.")
                                             (with_db d2 a)))))
     = [].
Proof.
  match goal with |- the_db (refresh_exercises ?x) = _ /\ _ =>
    destruct (refresh_exercises_keeps x) as (R1 & _ & R3) end.
  match goal with |- the_db (refresh_exercises (on_ex_select ?x)) = _ /\ _ =>
    destruct (on_ex_select_keeps x) as (O1 & _ & O3) end.
  split; [rewrite R1, O1; reflexivity | apply R3, O3; reflexivity].
Qed.

(** The sets of a store after the session insert and a completed loop
    over a numbered buffer. *)
Lemma saved_listing (eid : Z) (ds nt : string) (buf : list buf_row) (d d1 : db) (sid : Z) :
  reachable d -> numbered (map b_idx buf) ->
  add_session eid ds nt d = Ok (sid, d1) ->
  snd (add_sets sid buf d1) = None ->
  exists rows,
    Forall2 (stored_as sid) buf rows
    /\ order_by (fun x y => st_set_index x <=? st_set_index y)
                (filter (fun t => st_session_id t =? sid) (sets (fst (add_sets sid buf d1))))
       = rows
    /\ (forall other, other <> sid ->
          filter (fun t => st_session_id t =? other) (sets (fst (add_sets sid buf d1)))
          = filter (fun t => st_session_id t =? other) (sets d))
    /\ sessions (fst (add_sets sid buf d1))
       = (sessions d ++ [ {| se_id := sid; se_exercise_id := eid; se_date := ds;
                             se_notes := PyStr.strip nt |} ])%list
    /\ ~ In sid (map se_id (sessions d)).
Proof.
  intros Hr Hbuf Hadd Hnone.
  pose proof (reachable_no_orphans d Hr) as [_ Hno].
  apply add_session_tables in Hadd as (_ & _ & Et & Es & Eid).
  destruct (add_sets_prefix sid buf d1) as (k & rows & _ & _ & Hse & Hsets & Hrows & Hend).
  destruct Hend as [[_ ->]|(e & row & He & _)]; [|congruence].
  rewrite firstn_all in Hrows.
  destruct (stored_as_columns _ _ _ Hrows) as (Hidx & _ & Hsid).
  assert (Hlt : forall i, In i (map se_id (sessions d)) -> i < sid)
    by (intros i Hi; rewrite Eid; apply next_rowid_above; exact Hi).
  assert (Hfresh : filter (fun t => st_session_id t =? sid) (sets d) = []).
  { apply filter_nil_iff. intros t Ht. apply Z.eqb_neq. intros E.
    destruct (Hno t Ht) as (s & Hs & Es').
    specialize (Hlt (se_id s) (in_map _ _ _ Hs)). lia. }
  exists rows. split; [exact Hrows|]. rewrite Hsets, Et, Hse, Es. split; [|split; [|split]].
  - rewrite filter_app, Hfresh, (filter_session_all _ _ Hsid). simpl.
    apply order_by_ordered, numbered_ascending. rewrite Hidx. exact Hbuf.
  - intros other Hne.
    rewrite filter_app, (filter_session_none sid other rows Hne Hsid), app_nil_r.
    reflexivity.
  - reflexivity.
  - intros Hin. specialize (Hlt _ Hin). lia.
Qed.

Lemma add_session_ok (eid : Z) (ds nt : string) (d : db) :
  has_exercise eid d = true -> exists sid d1, add_session eid ds nt d = Ok (sid, d1).
Proof. intros H. unfold add_session. rewrite H. eauto. Qed.

Lemma add_sets_loaded (sid : Z) (ts : list set_row) (d1 : db) :
  Forall storable ts -> has_session sid d1 = true ->
  snd (add_sets sid
         (map (fun t => {| b_idx := st_set_index t; b_weight := VFloat (st_weight t);
                           b_reps := VInt (st_reps t); b_rir := opt_int (st_rir t);
                           b_unit := st_unit t |}) ts) d1) = None.
Proof.
  intros Hst Hs.
  match goal with |- snd (add_sets sid ?b d1) = None =>
    destruct (add_sets_prefix sid b d1) as (k & rows & _ & _ & Hse & _ & _ & Hend) end.
  destruct Hend as [[Hn _]|(e & row & _ & Hrow & Hraise)]; [exact Hn|].
  apply nth_error_In, in_map_iff in Hrow as (t & <- & Ht).
  rewrite Forall_forall in Hst. cbn [b_idx b_weight b_reps b_rir b_unit] in Hraise.
  match type of Hraise with add_set _ _ _ _ _ _ ?d' = _ =>
    destruct (add_set_loaded t sid d' (Hst t Ht)) as (id & d'' & E) end.
  - unfold has_session in *. rewrite Hse. exact Hs.
  - congruence.
Qed.

Lemma stored_loaded_columns (sid : Z) (ts rows : list set_row) :
  Forall2 (stored_as sid)
          (map (fun t => {| b_idx := st_set_index t; b_weight := VFloat (st_weight t);
                            b_reps := VInt (st_reps t); b_rir := opt_int (st_rir t);
                            b_unit := st_unit t |}) ts) rows ->
  map (fun t => (st_set_index t, st_weight t, st_reps t, st_rir t, st_unit t)) rows
  = map (fun t => (st_set_index t, st_weight t, st_reps t, st_rir t, st_unit t)) ts.
Proof.
  revert rows. induction ts as [|t ts IH]; intros rows H; inversion H as [|? t' ? rows' Ht Hrest];
    subst; simpl; [reflexivity|].
  rewrite (IH _ Hrest). f_equal.
  destruct Ht as (_ & H1 & H2 & H3 & H4 & H5).
  cbn [b_idx b_weight b_reps b_rir b_unit py_float py_int] in H1, H2, H3, H4, H5.
  rewrite rir_param_opt_int in H4.
  injection H2 as H2. injection H3 as H3. injection H4 as H4.
  rewrite H1, H5, <- H2, <- H3, <- H4. reflexivity.
Qed.

Lemma stored_reloads (sid : Z) (buf : list buf_row) (rows : list set_row) :
  Forall2 (stored_as sid) buf rows ->
  Forall2 reloads buf
          (map (fun t => {| b_idx := st_set_index t; b_weight := VFloat (st_weight t);
                            b_reps := VInt (st_reps t); b_rir := opt_int (st_rir t);
                            b_unit := st_unit t |}) rows).
Proof.
  induction 1 as [|row t buf rows Hrt _ IH]; simpl; constructor; [|exact IH].
  destruct Hrt as (_ & H1 & H2 & H3 & H4 & H5).
  split; [exact H1|]. split; [exact H5|].
  exists (st_weight t), (st_reps t), (st_rir t). simpl. auto 10.
Qed.

(** The ways [save_session] ends without its last message. *)
Lemma save_session_saved (a : app) :
  dialogs (save_session a) = (dialogs a ++ [showinfo "Saved" "Session saved."])%list ->
  exists sel sid d1 d2,
    get_selected_exercise a = Some sel
    /\ add_session (row_id sel) (PyStr.strip (date_widget a))
                   (PyStr.strip (note_entry a)) (the_db a) = Ok (sid, d1)
    /\ add_sets sid (set_buffer a) d1 = (d2, None)
    /\ save_session a
       = refresh_exercises
           (on_ex_select
              (with_sets [] [] (show (showinfo "Saved" "Session saved.") (with_db d2 a)))).
Proof.
  unfold save_session.
  destruct (get_selected_exercise a) as [sel|];
    [|simpl; intros H; apply app_inv_head in H; discriminate].
  destruct (negb _); [simpl; intros H; apply app_inv_head in H; discriminate|].
  destruct (set_buffer a) as [|b0 buf] eqn:Eb;
    [simpl; intros H; apply app_inv_head in H; discriminate|].
  rewrite <- Eb.
  destruct (add_session _ _ _ _) as [[sid d1]|e1] eqn:Ea;
    [|simpl; intros H; apply app_inv_head in H; discriminate].
  destruct (add_sets sid (set_buffer a) d1) as [d2 [e2|]] eqn:Es;
    [simpl; intros H; apply app_inv_head in H; discriminate|].
  intros _. exists sel, sid, d1, d2. auto.
Qed.

End RoundTrip.

(** *** Properties of the running program *)

Section RunningProps.
Context {R : Runtime}.

Lemma cache_ok_selected_row (a : app) (sel : exercise_row) :
  cache_ok a -> get_selected_exercise a = Some sel ->
  exists e, In e (exercises (the_db a))
            /\ stored_columns sel = stored_columns (exercise_row_of (the_db a) e).
Proof.
  unfold cache_ok, get_selected_exercise. intros Hc Hs.
  destruct (ex_selection a) as [i|]; [|discriminate].
  apply find_some in Hs as [Hin _].
  assert (H : In (stored_columns sel) (map stored_columns (get_exercises (the_db a)))).
  { rewrite <- Hc. apply in_map. exact Hin. }
  apply in_map_iff in H as (row & E & Hrow).
  apply in_get_exercises in Hrow as (e & He & ->).
  exists e. split; [exact He | symmetry; exact E].
Qed.

Lemma listed_sets (sid : Z) (d : db) :
  store_ok d ->
  get_sets_for_session sid d
  = map (fun t => (st_set_index t, st_weight t, st_reps t, st_rir t, st_unit t))
        (filter (fun t => st_session_id t =? sid) (sets d)).
Proof.
  intros [Hn _]. unfold get_sets_for_session. f_equal.
  apply order_by_ordered, numbered_ascending, Hn.
Qed.

(** X16: in every state of the running program, the sets of each stored
    session, as [get_sets_for_session] lists them, carry the set indexes
    1, 2, ..., n, and so do the buffered sets. *)
Theorem running_sets_numbered (a : app) :
  running a ->
  (forall sid,
     numbered (map (fun s => let '(idx, _, _, _, _) := s in idx)
                   (get_sets_for_session sid (the_db a))))
  /\ numbered (map b_idx (set_buffer a)).
Proof.
  intros H. destruct (running_healthy a H) as (_ & Hs & _ & (_ & Hb & _)).
  split; [|exact Hb].
  intros sid. rewrite (listed_sets sid _ Hs), map_map. simpl. apply Hs.
Qed.

(** X17: in every state of the running program, the unit selected, the
    unit of every buffered set and the unit of every stored set is lbs
    or kg. *)
Theorem running_units (a : app) :
  running a ->
  unit_ok (unit_var a)
  /\ Forall (fun row => unit_ok (b_unit row)) (set_buffer a)
  /\ forall sid idx w r i u,
       In (idx, w, r, i, u) (get_sets_for_session sid (the_db a)) -> unit_ok u.
Proof.
  intros H. destruct (running_healthy a H) as (_ & Hs & _ & (_ & _ & Hu & Hb)).
  split; [exact Hu|]. split; [exact Hb|].
  intros sid idx w r i u Hin. rewrite (listed_sets sid _ Hs) in Hin.
  apply in_map_iff in Hin as (t & E & Ht). apply filter_In in Ht as [Ht _].
  destruct Hs as [_ Hs]. rewrite Forall_forall in Hs.
  injection E as _ _ _ _ <-. auto.
Qed.

(** X18: in every state of the running program, the selected exercise is
    a stored exercise, shown with its stored columns; the session insert
    of [save_session] on it does not fail. *)
Theorem running_selection_stored (a : app) (sel : exercise_row) :
  running a -> get_selected_exercise a = Some sel ->
  (exists e, In e (exercises (the_db a))
             /\ stored_columns sel = stored_columns (exercise_row_of (the_db a) e))
  /\ forall date_str notes, exists sid d1,
       add_session (row_id sel) date_str notes (the_db a) = Ok (sid, d1).
Proof.
  intros H Hsel. destruct (running_healthy a H) as (_ & _ & Hc & _).
  split; [exact (cache_ok_selected_row a sel Hc Hsel)|].
  intros ds nt. apply add_session_ok. exact (cache_ok_selected a sel Hc Hsel).
Qed.


(** X20: whatever sequence of successful writing calls produced the
    store, every set it lists has a weight that is not NaN and reps and
    RIR inside 64 bits. *)
Theorem stored_sets_storable (d : db) (sid idx r : Z) (w : spec_float)
        (i : option Z) (u : string) :
  reachable d -> In (idx, w, r, i, u) (get_sets_for_session sid d) ->
  is_nan w = false /\ int64 r /\ int64_opt i.
Proof.
  intros Hr Hin. unfold get_sets_for_session in Hin.
  apply in_map_iff in Hin as (t & E & Ht).
  apply (Permutation_in _ (order_by_perm _ _)) in Ht.
  apply filter_In in Ht as [Ht _].
  pose proof (reachable_storable d Hr) as Hst. rewrite Forall_forall in Hst.
  injection E as _ <- <- <- _. exact (Hst t Ht).
Qed.

(** X21: loading a stored session into the buffer and saving it stores a
    copy: with an exercise selected and a date that parses, the save
    goes through, adds one session under a new id on the selected
    exercise, whose sets are listed exactly as those of the loaded
    session; the other sessions keep their sets and the buffer is
    left empty. *)
Theorem load_then_save (a : app) (sel : exercise_row) (sid : Z) :
  running a -> get_selected_exercise a = Some sel ->
  strptime_ymd (PyStr.strip (date_widget a)) = true ->
  get_sets_for_session sid (the_db a) <> [] ->
  exists new_sid,
    ~ In new_sid (map se_id (sessions (the_db a)))
    /\ sessions (the_db (save_session (on_session_select sid a)))
       = (sessions (the_db a)
          ++ [ {| se_id := new_sid; se_exercise_id := row_id sel;
                  se_date := PyStr.strip (date_widget a);
                  se_notes := PyStr.strip (note_entry a) |} ])%list
    /\ get_sets_for_session new_sid (the_db (save_session (on_session_select sid a)))
       = get_sets_for_session sid (the_db a)
    /\ (forall other, other <> new_sid ->
          get_sets_for_session other (the_db (save_session (on_session_select sid a)))
          = get_sets_for_session other (the_db a))
    /\ set_buffer (save_session (on_session_select sid a)) = [].
Proof.
  intros Hrun Hsel Hdate Hne.
  destruct (running_healthy a Hrun) as (Hr & Hs & Hc & Hp).
  destruct (on_session_select_healthy sid a (conj Hr (conj Hs (conj Hc Hp))))
    as (_ & _ & _ & (_ & Hnum & _)).
  pose proof (on_session_select_buffer sid a) as Hbuf.
  assert (Hord : order_by (fun x y => st_set_index x <=? st_set_index y)
                   (filter (fun t => st_session_id t =? sid) (sets (the_db a)))
                 = filter (fun t => st_session_id t =? sid) (sets (the_db a)))
    by (apply order_by_ordered, numbered_ascending, Hs).
  rewrite Hord in Hbuf.
  destruct (add_session_ok (row_id sel) (PyStr.strip (date_widget a))
              (PyStr.strip (note_entry a)) (the_db a) (cache_ok_selected a sel Hc Hsel))
    as (nsid & d1 & Ea).
  assert (Hstor : Forall storable (filter (fun t => st_session_id t =? sid) (sets (the_db a))))
    by (apply Forall_keep, reachable_storable, Hr).
  assert (Hhas : has_session nsid d1 = true).
  { pose proof Ea as Ea'. apply add_session_tables in Ea' as (_ & _ & _ & Es & _).
    unfold has_session. rewrite Es, existsb_app. simpl.
    rewrite Z.eqb_refl. apply orb_true_iff. right. reflexivity. }
  pose proof (add_sets_loaded nsid _ d1 Hstor Hhas) as Hnone.
  rewrite <- Hbuf in Hnone.
  destruct (saved_listing _ _ _ _ _ _ _ Hr Hnum Ea Hnone)
    as (rows & Hrows & Hlist & Hother & Hsess & Hfresh).
  assert (Hbne : set_buffer (on_session_select sid a) <> []).
  { rewrite Hbuf. intros E. apply Hne. rewrite (listed_sets sid _ Hs).
    apply map_eq_nil in E. rewrite E. reflexivity. }
  assert (Hrun' : save_session (on_session_select sid a)
                  = refresh_exercises
                      (on_ex_select
                         (with_sets [] []
                            (show (showinfo "Saved" "Session saved.")
                               (with_db (fst (add_sets nsid (set_buffer (on_session_select sid a)) d1))
                                  (on_session_select sid a)))))).
  { apply (save_session_runs (on_session_select sid a) sel nsid d1); try assumption.
    destruct (add_sets nsid (set_buffer (on_session_select sid a)) d1) as [d2 o].
    simpl in *. rewrite Hnone. reflexivity. }
  destruct (saved_store (on_session_select sid a)
              (fst (add_sets nsid (set_buffer (on_session_select sid a)) d1))) as (Hdb & Hempty).
  rewrite Hrun', Hdb. exists nsid.
  split; [exact Hfresh|]. split; [|split; [|split; [|exact Hempty]]].
  - rewrite Hsess, strip_idem. reflexivity.
  - unfold get_sets_for_session at 1. rewrite Hlist.
    rewrite (listed_sets sid _ Hs). apply (stored_loaded_columns nsid).
    rewrite <- Hbuf. exact Hrows.
  - intros other Ho. unfold get_sets_for_session. rewrite (Hother other Ho). reflexivity.
Qed.


End RunningProps.

Lemma quick_add_running (w r i : string) (a : app) :
  running (R := py_runtime) a -> running (R := py_runtime) (quick_add w r i a).
Proof.
  intros H. unfold quick_add.
  destruct (add_set_from_quick (type_quick w r i a)) as [a'|e] eqn:E; [|exact H].
  eapply run_step; [eapply run_step; [exact H | apply do_type_quick]|].
  apply do_add_set. exact E.
Defined.

Lemma three_sets_running : running (R := py_runtime) three_sets.
Proof. unfold three_sets. do 3 apply quick_add_running. apply run_first. Defined.

Lemma logged_app_running : running (R := py_runtime) logged_app.
Proof.
  unfold logged_app. eapply run_step; [apply three_sets_running | apply do_save_session].
Defined.

Lemma saved_app_running : running (R := py_runtime) saved_app.
Proof.
  exact (run_again (R := py_runtime) logged_app "2024-02-01" logged_app_running).
Defined.

Lemma py_runtime_faithful : tk_faithful (R := py_runtime).
Proof. intros v. split; reflexivity. Defined.

Lemma running_sets_numbered_witness :
  running (R := py_runtime) logged_app
  /\ (forall sid,
        numbered (map (fun s => let '(idx, _, _, _, _) := s in idx)
                      (get_sets_for_session sid (the_db logged_app))))
  /\ numbered (map b_idx (set_buffer logged_app)).
Proof.
  split; [exact logged_app_running|].
  exact (running_sets_numbered (R := py_runtime) logged_app logged_app_running).
Defined.

Lemma running_units_witness :
  running (R := py_runtime) three_sets
  /\ unit_ok (unit_var three_sets)
  /\ Forall (fun row => unit_ok (b_unit row)) (set_buffer three_sets)
  /\ forall sid idx w r i u,
       In (idx, w, r, i, u) (get_sets_for_session sid (the_db three_sets)) -> unit_ok u.
Proof.
  split; [exact three_sets_running|].
  exact (running_units (R := py_runtime) three_sets three_sets_running).
Defined.

Lemma running_selection_stored_witness :
  exists sel,
    running (R := py_runtime) saved_app
    /\ get_selected_exercise saved_app = Some sel
    /\ (exists e, In e (exercises (the_db saved_app))
                  /\ stored_columns sel = stored_columns (exercise_row_of (the_db saved_app) e))
    /\ forall date_str notes, exists sid d1,
         add_session (row_id sel) date_str notes (the_db saved_app) = Ok (sid, d1).
Proof.
  destruct (get_selected_exercise saved_app) as [sel|] eqn:E; [|vm_compute in E; discriminate].
  exists sel. split; [exact saved_app_running|]. split; [reflexivity|].
  exact (running_selection_stored (R := py_runtime) saved_app sel saved_app_running E).
Defined.


Lemma stored_sets_storable_witness :
  reachable (R := py_runtime) sample_db
  /\ In (1, float_of_Z 100, 8, Some 2, "lbs") (get_sets_for_session 1 sample_db)
  /\ is_nan (float_of_Z 100) = false /\ int64 8 /\ int64_opt (Some 2).
Proof.
  assert (Hin : In (1, float_of_Z 100, 8, Some 2, "lbs") (get_sets_for_session 1 sample_db))
    by (vm_compute; left; reflexivity).
  split; [exact sample_db_reachable|]. split; [exact Hin|].
  exact (stored_sets_storable (R := py_runtime) sample_db 1 1 8 (float_of_Z 100) (Some 2) "lbs"
           sample_db_reachable Hin).
Defined.

Lemma load_then_save_witness :
  exists sel,
    running (R := py_runtime) saved_app
    /\ get_selected_exercise saved_app = Some sel
    /\ strptime_ymd (Runtime := py_runtime) (PyStr.strip (date_widget saved_app)) = true
    /\ get_sets_for_session 1 (the_db saved_app) <> []
    /\ exists new_sid,
         ~ In new_sid (map se_id (sessions (the_db saved_app)))
         /\ sessions (the_db (save_session (R := py_runtime) (on_session_select 1 saved_app)))
            = (sessions (the_db saved_app)
               ++ [ {| se_id := new_sid; se_exercise_id := row_id sel;
                       se_date := PyStr.strip (date_widget saved_app);
                       se_notes := PyStr.strip (note_entry saved_app) |} ])%list
         /\ get_sets_for_session new_sid
              (the_db (save_session (R := py_runtime) (on_session_select 1 saved_app)))
            = get_sets_for_session 1 (the_db saved_app)
         /\ (forall other, other <> new_sid ->
               get_sets_for_session other
                 (the_db (save_session (R := py_runtime) (on_session_select 1 saved_app)))
               = get_sets_for_session other (the_db saved_app))
         /\ set_buffer (save_session (R := py_runtime) (on_session_select 1 saved_app)) = [].
Proof.
  destruct (get_selected_exercise saved_app) as [sel|] eqn:E; [|vm_compute in E; discriminate].
  assert (Hd : strptime_ymd (Runtime := py_runtime) (PyStr.strip (date_widget saved_app)) = true)
    by (vm_compute; reflexivity).
  assert (Hn : get_sets_for_session 1 (the_db saved_app) <> [])
    by (vm_compute; discriminate).
  exists sel. split; [exact saved_app_running|]. split; [reflexivity|].
  split; [exact Hd|]. split; [exact Hn|].
  exact (load_then_save (R := py_runtime) saved_app sel 1 saved_app_running E Hd Hn).
Defined.

